(** * Request translation and error classification of the Alpaca MCP server

    A shallow embedding of the order-request builders, the option leg
    validator, the strategy classifier, the error mapper and the timeframe
    parser of [alpaca_mcp_server.py], with the properties of the
    specification stated over it.

    Modelling conventions.
    - A Python [str] is a [string] of characters with code points below 256;
      the case mappings and the digit class are the ASCII ones (characters
      above 127 are left alone by [lower]/[upper] and are not digits), the
      whitespace class is that of [str.isspace] on these code points.
    - A Python [int] is a [Z], and [int(text)] is taken without the cap the
      interpreter can put on the length of [text]; a [float] is a primitive
      float that the code only passes along.
    - The classes of the brokerage and market-data libraries are not in the
      source file; their constructors are modelled with the validation they
      perform, as functions that may raise.
    - Raised exceptions are values of [outcome]; a [try]/[except] is a match
      on it.
    - The trading client is a function from requests to outcomes; every
      request handed to [submit_order] is recorded in a log. *)

From Stdlib Require Import String Ascii ZArith List Bool Lia.
From Stdlib Require Import Floats.
From Stdlib Require Import DecimalString.
Import ListNotations.

Open Scope string_scope.
Open Scope Z_scope.

(** ** Python string operations *)

Module PyStr.

Definition code (c : ascii) : Z := Z.of_nat (nat_of_ascii c).

Definition of_code (z : Z) : ascii := ascii_of_nat (Z.to_nat z).

Definition is_upper (c : ascii) : bool := (65 <=? code c) && (code c <=? 90).

Definition is_lower (c : ascii) : bool := (97 <=? code c) && (code c <=? 122).

Definition is_digit (c : ascii) : bool := (48 <=? code c) && (code c <=? 57).

(** [str.isspace] on code points below 256: TAB..CR, FS..US, the space,
    NEL (133) and the no-break space (160). *)
Definition is_space (c : ascii) : bool :=
  ((9 <=? code c) && (code c <=? 13)) || ((28 <=? code c) && (code c <=? 32))
  || (code c =? 133) || (code c =? 160).

Definition lower_char (c : ascii) : ascii :=
  if is_upper c then of_code (code c + 32) else c.

Definition upper_char (c : ascii) : ascii :=
  if is_lower c then of_code (code c - 32) else c.

Fixpoint map (f : ascii -> ascii) (s : string) : string :=
  match s with
  | EmptyString => EmptyString
  | String c s' => String (f c) (map f s')
  end.

(** [s.lower()] and [s.upper()] *)
Definition lower (s : string) : string := map lower_char s.
Definition upper (s : string) : string := map upper_char s.

Fixpoint lstrip (s : string) : string :=
  match s with
  | EmptyString => EmptyString
  | String c s' => if is_space c then lstrip s' else s
  end.

Fixpoint rstrip (s : string) : string :=
  match s with
  | EmptyString => EmptyString
  | String c s' =>
      match rstrip s' with
      | EmptyString => if is_space c then EmptyString else String c EmptyString
      | r => String c r
      end
  end.

(** [s.strip()] *)
Definition strip (s : string) : string := rstrip (lstrip s).

(** [sub in s] *)
Fixpoint contains (sub s : string) : bool :=
  prefix sub s ||
  match s with
  | EmptyString => false
  | String _ s' => contains sub s'
  end.

(** [s.split(sep)] for a one-character separator; the result is never
    empty. *)
Fixpoint split (sep : ascii) (s : string) : list string :=
  match s with
  | EmptyString => [EmptyString]
  | String c s' =>
      if Ascii.eqb c sep then EmptyString :: split sep s'
      else match split sep s' with
           | p :: ps => String c p :: ps
           | [] => [String c EmptyString]
           end
  end.

(** [s[:n]] *)
Definition take (n : nat) (s : string) : string := substring 0 n s.

Fixpoint all (p : ascii -> bool) (s : string) : bool :=
  match s with
  | EmptyString => true
  | String c s' => p c && all p s'
  end.

(** The longest prefix of characters satisfying [p], and what follows. *)
Fixpoint span (p : ascii -> bool) (s : string) : string * string :=
  match s with
  | EmptyString => (EmptyString, EmptyString)
  | String c s' =>
      if p c then let (a, b) := span p s' in (String c a, b)
      else (EmptyString, s)
  end.

(** [int(s)] for a string of decimal digits. *)
Fixpoint int_acc (acc : Z) (s : string) : Z :=
  match s with
  | EmptyString => acc
  | String c s' => int_acc (10 * acc + (code c - 48)) s'
  end.

Definition int (s : string) : Z := int_acc 0 s.

(** [str(n)] for an [int]. *)
Definition of_int (n : Z) : string := NilZero.string_of_int (Z.to_int n).

End PyStr.

(** ** Exceptions *)

(** The brokerage client raises [APIError]; every other exception class is
    only ever caught as [Exception], so it is kept with its class name and
    its [str()]. *)
Inductive exn : Type :=
| APIError (text : string)
| OtherError (class : string) (text : string).

Definition exn_str (e : exn) : string :=
  match e with
  | APIError t => t
  | OtherError _ t => t
  end.

(** The error a request class of the brokerage library raises when its
    validator refuses the arguments. The library reports the sentence of
    the validator inside a longer text (a count line before it, an echo of
    the input after it); only the sentence is kept. *)
Definition ValidationError (sentence : string) : exn :=
  OtherError "ValidationError" sentence.

Inductive outcome (A : Type) : Type :=
| Return (a : A)
| Raise (e : exn).

Arguments Return {A} a.
Arguments Raise {A} e.

Definition bind {A B : Type} (m : outcome A) (k : A -> outcome B) : outcome B :=
  match m with
  | Return a => k a
  | Raise e => Raise e
  end.

Notation "x <- m ;; k" := (bind m (fun x => k))
  (at level 61, m at next level, right associativity).

(** ** Timeframe parser *)

Inductive TimeFrameUnit : Type := Minute | Hour | Day | Week | Month.

Record TimeFrame : Type := mkTimeFrame { amount : Z; unit : TimeFrameUnit }.

(** The constructor of the [TimeFrame] class of the market-data library
    (the class is not in the source file). It raises [ValueError] unless the
    amount is positive, at most 59 for minutes, at most 23 for hours,
    exactly 1 for days and weeks, and one of 1, 2, 3, 6, 12 for months. *)
Definition TimeFrame_init (a : Z) (u : TimeFrameUnit) : outcome TimeFrame :=
  if a <=? 0 then
    Raise (OtherError "ValueError" "Amount must be a positive integer value.")
  else
    match u with
    | Minute =>
        if 59 <? a then
          Raise (OtherError "ValueError"
                   "Second or Minute units can only be used with amounts between 1-59.")
        else Return (mkTimeFrame a u)
    | Hour =>
        if 23 <? a then
          Raise (OtherError "ValueError"
                   "Hour units can only be used with amounts 1-23")
        else Return (mkTimeFrame a u)
    | Day | Week =>
        if a =? 1 then Return (mkTimeFrame a u)
        else Raise (OtherError "ValueError"
                      "Day and Week units can only be used with amount 1")
    | Month =>
        if existsb (Z.eqb a) [1; 2; 3; 6; 12] then Return (mkTimeFrame a u)
        else Raise (OtherError "ValueError"
                      "Month units can only be used with amount 1, 2, 3, 6 and 12")
    end.

Fixpoint dict_get {V : Type} (d : list (string * V)) (k : string) : option V :=
  match d with
  | [] => None
  | (k', v) :: d' => if String.eqb k' k then Some v else dict_get d' k
  end.

Definition predefined_timeframes : list (string * TimeFrame) :=
  [ ("1Min", mkTimeFrame 1 Minute);
    ("1Hour", mkTimeFrame 1 Hour);
    ("1Day", mkTimeFrame 1 Day);
    ("1Week", mkTimeFrame 1 Week);
    ("1Month", mkTimeFrame 1 Month) ].

Definition unit_words : list string := ["min"; "hour"; "day"; "week"; "month"].

Definition unit_mapping : list (string * TimeFrameUnit) :=
  [ ("min", Minute); ("hour", Hour); ("day", Day); ("week", Week);
    ("month", Month) ].

Definition newline : string := String (PyStr.of_code 10) EmptyString.

(** [re.match(r"^(\d+)(Min|Hour|Day|Week|Month)$", s, re.IGNORECASE)]: the
    digits are taken greedily (no alternative starts with a digit, so giving
    one back never helps), the rest must be one of the alternatives up to
    letter case, and [$] also matches just before one final newline. The
    result is [(group(1), group(2))]. *)
Definition match_timeframe (s : string) : option (string * string) :=
  let (digits, rest) := PyStr.span PyStr.is_digit s in
  match digits with
  | EmptyString => None
  | _ =>
      if existsb (String.eqb (PyStr.lower rest)) unit_words
      then Some (digits, rest)
      else
        match
          find (fun w => String.eqb (PyStr.lower rest) (w ++ newline)) unit_words
        with
        | Some w => Some (digits, substring 0 (String.length w) rest)
        | None => None
        end
  end.

(** The body of the [try] block. *)
Definition parse_timeframe_body (timeframe_str : string) : outcome (option TimeFrame) :=
  let timeframe_str := PyStr.strip timeframe_str in
  match dict_get predefined_timeframes timeframe_str with
  | Some tf => Return (Some tf)
  | None =>
      match match_timeframe timeframe_str with
      | None => Return None
      | Some (g1, g2) =>
          let amount := PyStr.int g1 in
          let unit_str := PyStr.lower g2 in
          match dict_get unit_mapping unit_str with
          | None => Return None
          | Some unit =>
              if match unit with Minute => 59 <? amount | _ => false end
              then Return None
              else if match unit with Hour => 23 <? amount | _ => false end
              then Return None
              else if match unit with
                      | Day | Week | Month => 365 <? amount
                      | _ => false
                      end
              then Return None
              else tf <- TimeFrame_init amount unit ;; Return (Some tf)
          end
      end
  end.

(** [except (ValueError, AttributeError, TypeError): return None]; any other
    exception would leave the function. *)
Definition parse_timeframe_with_enums (timeframe_str : string) : outcome (option TimeFrame) :=
  match parse_timeframe_body timeframe_str with
  | Raise (OtherError class text) =>
      if existsb (String.eqb class) ["ValueError"; "AttributeError"; "TypeError"]
      then Return None
      else Raise (OtherError class text)
  | r => r
  end.

(** ** Trading enumerations and requests *)

Inductive OrderSide : Type := BUY | SELL.

Inductive OrderType : Type := MARKET | LIMIT | STOP | STOP_LIMIT | TRAILING_STOP.

Inductive TimeInForce : Type := DAY | GTC | OPG | CLS | IOC | FOK.

Inductive OrderClass : Type := SIMPLE | BRACKET | OCO | OTO | MLEG.

Definition OrderSide_eqb (a b : OrderSide) : bool :=
  match a, b with BUY, BUY | SELL, SELL => true | _, _ => false end.

Definition OrderClass_eqb (a b : OrderClass) : bool :=
  match a, b with
  | SIMPLE, SIMPLE | BRACKET, BRACKET | OCO, OCO | OTO, OTO | MLEG, MLEG => true
  | _, _ => false
  end.

Definition TimeInForce_eqb (a b : TimeInForce) : bool :=
  match a, b with
  | DAY, DAY | GTC, GTC | OPG, OPG | CLS, CLS | IOC, IOC | FOK, FOK => true
  | _, _ => false
  end.

(** The leg of an option order as the brokerage library takes it. *)
Record OptionLegRequest : Type := mkOptionLegRequest {
  leg_symbol : string;
  leg_side : OrderSide;
  leg_ratio_qty : Z
}.

(** A quantity is an [int] (option orders) or a [float] (stock orders). *)
Inductive number : Type :=
| Int (n : Z)
| Float (f : float).

(** The keyword arguments every request class is built with; arguments a
    call leaves out are [None]. *)
Record OrderFields : Type := mkOrderFields {
  req_symbol : option string;
  req_qty : number;
  req_side : option OrderSide;
  req_type : OrderType;
  req_time_in_force : TimeInForce;
  req_extended_hours : bool;
  req_client_order_id : string;
  req_order_class : option OrderClass;
  req_legs : option (list OptionLegRequest)
}.

Inductive OrderRequest : Type :=
| MarketOrderRequest (common : OrderFields)
| LimitOrderRequest (common : OrderFields) (limit_price : float)
| StopOrderRequest (common : OrderFields) (stop_price : float)
| StopLimitOrderRequest (common : OrderFields) (stop_price limit_price : float)
| TrailingStopOrderRequest (common : OrderFields)
    (trail_price trail_percent : option float).

Definition fields (r : OrderRequest) : OrderFields :=
  match r with
  | MarketOrderRequest c | LimitOrderRequest c _ | StopOrderRequest c _
  | StopLimitOrderRequest c _ _ | TrailingStopOrderRequest c _ _ => c
  end.

(** [len(set(l.symbol for l in legs)) == len(legs)]: no symbol occurs
    twice. *)
Fixpoint unique_symbols (legs : list OptionLegRequest) : bool :=
  match legs with
  | [] => true
  | leg :: rest =>
      negb (existsb (fun l => String.eqb (leg_symbol l) (leg_symbol leg)) rest)
      && unique_symbols rest
  end.

(** The constructor of the market order request class of the brokerage
    library, with the validator of the order request classes (the quantity
    is always given here). Under the order class MLEG the legs must be
    given, at most 4, at least 2, and with no symbol twice; under any other
    order class, or none, the symbol and the side must be given. *)
Definition MarketOrderRequest_init (common : OrderFields) : outcome OrderRequest :=
  let mleg :=
    match req_order_class common with
    | Some c => OrderClass_eqb c MLEG
    | None => false
    end in
  if mleg then
    match req_legs common with
    | None => Raise (ValidationError "legs is required for the mleg order class.")
    | Some legs =>
        if (4 <? List.length legs)%nat then
          Raise (ValidationError "At most 4 legs are allowed for the mleg order class.")
        else if (List.length legs <? 2)%nat then
          Raise (ValidationError "At least 2 legs are required for the mleg order class.")
        else if negb (unique_symbols legs) then
          Raise (ValidationError "All legs must have unique symbols.")
        else Return (MarketOrderRequest common)
    end
  else
    match req_symbol common, req_side common with
    | None, _ =>
        Raise (ValidationError
                 "symbol is required for all order classes other than mleg.")
    | _, None =>
        Raise (ValidationError
                 "side is required for all order classes other than mleg.")
    | Some _, Some _ => Return (MarketOrderRequest common)
    end.

(** The constructor of the trailing-stop request class of the brokerage
    library: its validator refuses a request with neither trail field and a
    request with both. *)
Definition TrailingStopOrderRequest_init
  (common : OrderFields) (trail_price trail_percent : option float)
  : outcome OrderRequest :=
  match trail_percent, trail_price with
  | None, None =>
      Raise (ValidationError "Either trail_percent or trail_price must be set.")
  | Some _, Some _ =>
      Raise (ValidationError "Both trail_percent and trail_price cannot be set.")
  | _, _ => Return (TrailingStopOrderRequest common trail_price trail_percent)
  end.

(** ** Python values and dictionaries *)

(** The values a leg dictionary can hold: any other object is given by the
    name of its type and its [str()]. *)
Inductive pyval : Type :=
| PyNone
| PyBool (b : bool)
| PyInt (n : Z)
| PyStr (s : string)
| PyOther (type_name : string) (text : string).

Definition type_name_of (v : pyval) : string :=
  match v with
  | PyNone => "NoneType"
  | PyBool _ => "bool"
  | PyInt _ => "int"
  | PyStr _ => "str"
  | PyOther t _ => t
  end.

(** [str(v)], as an f-string renders it. *)
Definition py_str (v : pyval) : string :=
  match v with
  | PyNone => "None"
  | PyBool true => "True"
  | PyBool false => "False"
  | PyInt n => PyStr.of_int n
  | PyStr s => s
  | PyOther _ t => t
  end.

(** [isinstance(v, int)] with the integer it stands for; [bool] is a
    subclass of [int]. *)
Definition as_int (v : pyval) : option Z :=
  match v with
  | PyInt n => Some n
  | PyBool b => Some (if b then 1 else 0)
  | _ => None
  end.

(** [v.lower()] *)
Definition py_lower (v : pyval) : outcome string :=
  match v with
  | PyStr s => Return (PyStr.lower s)
  | _ =>
      Raise (OtherError "AttributeError"
               ("'" ++ type_name_of v ++ "' object has no attribute 'lower'"))
  end.

Definition dict : Type := list (string * pyval).

(** [d[k]] *)
Definition getitem (d : dict) (k : string) : outcome pyval :=
  match dict_get d k with
  | Some v => Return v
  | None => Raise (OtherError "KeyError" ("'" ++ k ++ "'"))
  end.

(** [l[i]] *)
Definition index {A : Type} (l : list A) (i : nat) : outcome A :=
  match nth_error l i with
  | Some a => Return a
  | None => Raise (OtherError "IndexError" "list index out of range")
  end.

(** Modelled from the spec: the constructor of the leg request class, which
    is declared in the brokerage library and not in the source file. By the
    data model the symbol of a leg is a string; building a leg request from
    a value of another type raises the library's validation error. *)
Definition OptionLegRequest_init (symbol : pyval) (side : OrderSide) (ratio_qty : Z)
  : outcome OptionLegRequest :=
  match symbol with
  | PyStr s => Return (mkOptionLegRequest s side ratio_qty)
  | _ => Raise (OtherError "ValidationError" "Input should be a valid string")
  end.

(** ** Options trading helper functions *)

Definition _validate_option_order_inputs
  (legs : list dict) (quantity : Z) (time_in_force : TimeInForce) : option string :=
  match legs with
  | [] => Some "Error: No option legs provided"
  | _ =>
      if (4 <? List.length legs)%nat
      then Some "Error: Maximum of 4 legs allowed for option orders"
      else if quantity <=? 0 then Some "Error: Quantity must be positive"
      else if negb (TimeInForce_eqb time_in_force DAY)
      then Some "Error: Only DAY time_in_force is supported for options trading"
      else None
  end.

(** The [order_class] argument: a string, an enum value or [None]. *)
Inductive order_class_arg : Type :=
| ClassStr (s : string)
| ClassEnum (c : OrderClass)
| ClassNone.

Definition class_mapping : list (string * OrderClass) :=
  [ ("SIMPLE", SIMPLE); ("BRACKET", BRACKET); ("OCO", OCO); ("OTO", OTO);
    ("MLEG", MLEG) ].

(** The result is an enum value or [None] on the left, an error message on
    the right. *)
Definition _convert_order_class_string (order_class : order_class_arg)
  : option OrderClass + string :=
  match order_class with
  | ClassStr s =>
      let order_class_upper := PyStr.upper s in
      match dict_get class_mapping order_class_upper with
      | Some c => inl (Some c)
      | None =>
          inr ("Invalid order class: " ++ s ++
               ". Must be one of: simple, bracket, oco, oto, mleg")
      end
  | ClassEnum c => inl (Some c)
  | ClassNone => inl None
  end.

(** One turn of the loop of [_process_option_legs]: the leg request, or the
    message the function returns at once. *)
Definition process_leg (leg : dict) : outcome (OptionLegRequest + string) :=
  ratio_qty <- getitem leg "ratio_qty" ;;
  match as_int ratio_qty with
  | None =>
      symbol <- getitem leg "symbol" ;;
      Return (inr ("Error: Invalid ratio_qty for leg " ++ py_str symbol ++
                   ". Must be positive integer."))
  | Some n =>
      if n <=? 0 then
        symbol <- getitem leg "symbol" ;;
        Return (inr ("Error: Invalid ratio_qty for leg " ++ py_str symbol ++
                     ". Must be positive integer."))
      else
        side <- getitem leg "side" ;;
        side_lower <- py_lower side ;;
        if String.eqb side_lower "buy" then
          symbol <- getitem leg "symbol" ;;
          r <- OptionLegRequest_init symbol BUY n ;;
          Return (inl r)
        else if String.eqb side_lower "sell" then
          symbol <- getitem leg "symbol" ;;
          r <- OptionLegRequest_init symbol SELL n ;;
          Return (inl r)
        else
          Return (inr ("Invalid order side: " ++ py_str side ++
                       ". Must be 'buy' or 'sell'."))
  end.

(** The loop, with [order_legs] as the list built so far. *)
Fixpoint process_legs_from (order_legs : list OptionLegRequest) (legs : list dict)
  : outcome (list OptionLegRequest + string) :=
  match legs with
  | [] => Return (inl order_legs)
  | leg :: rest =>
      r <- process_leg leg ;;
      match r with
      | inr message => Return (inr message)
      | inl request => process_legs_from (order_legs ++ [request])%list rest
      end
  end.

Definition _process_option_legs (legs : list dict)
  : outcome (list OptionLegRequest + string) :=
  process_legs_from [] legs.

Section Clock.

(** [int(time.time())] at the moment a request is built. *)
Variable now : Z.

Definition _create_option_market_order_request
  (order_legs : list OptionLegRequest) (order_class : OrderClass)
  (quantity : Z) (time_in_force : TimeInForce) (extended_hours : bool)
  : outcome OrderRequest :=
  if OrderClass_eqb order_class MLEG then
    MarketOrderRequest_init
      {| req_symbol := None;
         req_qty := Int quantity;
         req_side := None;
         req_type := MARKET;
         req_time_in_force := time_in_force;
         req_extended_hours := extended_hours;
         req_client_order_id := "mcp_opt_" ++ PyStr.of_int now;
         req_order_class := Some order_class;
         req_legs := Some order_legs |}
  else
    first <- index order_legs 0 ;;
    MarketOrderRequest_init
      {| req_symbol := Some (leg_symbol first);
         req_qty := Int quantity;
         req_side := Some (leg_side first);
         req_type := MARKET;
         req_time_in_force := time_in_force;
         req_extended_hours := extended_hours;
         req_client_order_id := "mcp_opt_" ++ PyStr.of_int now;
         req_order_class := Some order_class;
         req_legs := None |}.

End Clock.

(** ["C" if "C" in symbol else "P"] *)
Definition option_type_of (symbol : string) : ascii :=
  if PyStr.contains "C" symbol then "C"%char else "P"%char.

(** The flags [(is_short_straddle, is_short_strangle, is_short_calendar)]. *)
Definition _analyze_option_strategy_type
  (order_legs : list OptionLegRequest) (order_class : OrderClass)
  : outcome (bool * bool * bool) :=
  if OrderClass_eqb order_class MLEG && (List.length order_legs =? 2)%nat then
    leg0 <- index order_legs 0 ;;
    leg1 <- index order_legs 1 ;;
    let both_short :=
      OrderSide_eqb (leg_side leg0) SELL && OrderSide_eqb (leg_side leg1) SELL in
    if both_short then
      prefix0 <- index (PyStr.split "C" (leg_symbol leg0)) 0 ;;
      prefix1 <- index (PyStr.split "P" (leg_symbol leg1)) 0 ;;
      let is_short_straddle := String.eqb prefix0 prefix1 in
      let is_short_strangle := negb (String.eqb prefix0 prefix1) in
      let leg1_type := option_type_of (leg_symbol leg0) in
      let leg2_type := option_type_of (leg_symbol leg1) in
      if Ascii.eqb leg1_type "C" && Ascii.eqb leg2_type "C" then
        after0 <- index (PyStr.split leg1_type (leg_symbol leg0)) 1 ;;
        after1 <- index (PyStr.split leg2_type (leg_symbol leg1)) 1 ;;
        let leg1_exp := PyStr.take 6 after0 in
        let leg2_exp := PyStr.take 6 after1 in
        if negb (String.eqb leg1_exp leg2_exp)
        then Return (is_short_straddle, false, true)
        else Return (is_short_straddle, is_short_strangle, false)
      else Return (is_short_straddle, is_short_strangle, false)
    else Return (false, false, false)
  else Return (false, false, false).

Definition join_lines (lines : list string) : string :=
  String.concat newline lines.

(** Explanation for short straddle permission issues. *)
Definition _get_short_straddle_error_message : string :=
  join_lines
    [ "";
      "    Error: Account not eligible to trade short straddles.";
      "";
      "    This error occurs because short straddles require Level 4 options trading permission.";
      "    A short straddle involves:";
      "    - Selling a call option";
      "    - Selling a put option";
      "    - Both options have the same strike price and expiration";
      "";
      "    Required Account Level:";
      "    - Level 4 options trading permission is required";
      "    - Please contact your broker to upgrade your account level if needed";
      "";
      "    Alternative Strategies:";
      "    - Consider using a long straddle instead";
      "    - Use a debit spread strategy";
      "    - Implement a covered call or cash-secured put";
      "    " ].

(** Explanation for short strangle permission issues. *)
Definition _get_short_strangle_error_message : string :=
  join_lines
    [ "";
      "    Error: Account not eligible to trade short strangles.";
      "";
      "    This error occurs because short strangles require Level 4 options trading permission.";
      "    A short strangle involves:";
      "    - Selling an out-of-the-money call option";
      "    - Selling an out-of-the-money put option";
      "    - Both options have the same expiration";
      "";
      "    Required Account Level:";
      "    - Level 4 options trading permission is required";
      "    - Please contact your broker to upgrade your account level if needed";
      "";
      "    Alternative Strategies:";
      "    - Consider using a long strangle instead";
      "    - Use a debit spread strategy";
      "    - Implement a covered call or cash-secured put";
      "    " ].

(** Explanation for short calendar spread permission issues. *)
Definition _get_short_calendar_error_message : string :=
  join_lines
    [ "";
      "    Error: Account not eligible to trade short calendar spreads.";
      "";
      "    This error occurs because short calendar spreads require Level 4 options trading permission.";
      "    A short calendar spread involves:";
      "    - Selling a longer-term option";
      "    - Selling a shorter-term option";
      "    - Both options have the same strike price";
      "";
      "    Required Account Level:";
      "    - Level 4 options trading permission is required";
      "    - Please contact your broker to upgrade your account level if needed";
      "";
      "    Alternative Strategies:";
      "    - Consider using a long calendar spread instead";
      "    - Use a debit spread strategy";
      "    - Implement a covered call or cash-secured put";
      "    " ].

(** Explanation for uncovered options permission issues. *)
Definition _get_uncovered_options_error_message : string :=
  join_lines
    [ "";
      "    Error: Account not eligible to trade uncovered option contracts.";
      "";
      "    This error occurs when attempting to place an order that could result in an uncovered position.";
      "    Common scenarios include:";
      "    1. Selling naked calls";
      "    2. Calendar spreads where the short leg expires after the long leg";
      "    3. Other strategies that could leave uncovered positions";
      "";
      "    Required Account Level:";
      "    - Level 4 options trading permission is required for uncovered options";
      "    - Please contact your broker to upgrade your account level if needed";
      "";
      "    Alternative Strategies:";
      "    - Consider using covered calls instead of naked calls";
      "    - Use debit spreads instead of calendar spreads";
      "    - Ensure all positions are properly hedged";
      "    " ].

(** The f-string of the [403] branch of [_handle_option_api_error]. *)
Definition permission_denied_message (error_message : string) : string :=
  join_lines
    [ "";
      "        Error: Permission denied for option trading.";
      "";
      "        Possible reasons:";
      "        1. Insufficient account level for the requested strategy";
      "        2. Account restrictions on option trading";
      "        3. Missing required permissions";
      "";
      "        Please check:";
      "        1. Your account's option trading level";
      "        2. Any specific restrictions on your account";
      "        3. Required permissions for the strategy you're trying to implement";
      "";
      "        Original error: " ++ error_message;
      "        " ].

(** The f-string of the last branch of [_handle_option_api_error]. *)
Definition order_failure_message (error_message : string) : string :=
  join_lines
    [ "";
      "        Error placing option order: " ++ error_message;
      "";
      "        Please check:";
      "        1. All option symbols are valid";
      "        2. Your account has sufficient buying power";
      "        3. The market is open for trading";
      "        4. Your account has the required permissions";
      "        " ].

(** The f-string of the [except Exception] clause of the option tool. *)
Definition unexpected_error_message (text : string) : string :=
  join_lines
    [ "";
      "        Unexpected error placing option order: " ++ text;
      "";
      "        Please try:";
      "        1. Verifying all input parameters";
      "        2. Checking your account status";
      "        3. Ensuring market is open";
      "        4. Contacting support if the issue persists";
      "        " ].

Definition _handle_option_api_error
  (error_message : string) (order_legs : list OptionLegRequest)
  (order_class : OrderClass) : outcome string :=
  if PyStr.contains "40310000" error_message
     && PyStr.contains "not eligible to trade uncovered option contracts" error_message
  then
    flags <- _analyze_option_strategy_type order_legs order_class ;;
    let '(is_short_straddle, is_short_strangle, is_short_calendar) := flags in
    if is_short_straddle then Return _get_short_straddle_error_message
    else if is_short_strangle then Return _get_short_strangle_error_message
    else if is_short_calendar then Return _get_short_calendar_error_message
    else Return _get_uncovered_options_error_message
  else if PyStr.contains "403" error_message
  then Return (permission_denied_message error_message)
  else Return (order_failure_message error_message).

(** ** The trading client and the tools *)

(** A leg of the order the client answers with, as the response template
    prints it: every attribute by its rendered text, the two fill attributes
    present or not. *)
Record OrderLeg : Type := mkOrderLeg {
  ol_symbol : string;
  ol_side : string;
  ol_ratio_qty : string;
  ol_status : string;
  ol_asset_class : string;
  ol_created_at : string;
  ol_updated_at : string;
  ol_filled_avg_price : option string;
  ol_filled_at : option string
}.

(** The order the client answers with, in the same way; [ord_legs] is empty
    when the order has no legs. *)
Record Order : Type := mkOrder {
  ord_id : string;
  ord_client_order_id : string;
  ord_symbol : string;
  ord_side : string;
  ord_qty : string;
  ord_type : string;
  ord_time_in_force : string;
  ord_status : string;
  ord_order_class : string;
  ord_created_at : string;
  ord_updated_at : string;
  ord_filled_avg_price : option string;
  ord_filled_at : option string;
  ord_legs : list OrderLeg
}.

Definition or_not_filled (attribute : option string) : string :=
  match attribute with
  | Some text => text
  | None => "Not filled"
  end.

(** The f-string returned by [place_stock_order] once the order is placed. *)
Definition stock_order_response (order : Order) : string :=
  join_lines
    [ "";
      "Order Placed Successfully:";
      "-------------------------";
      "Order ID: " ++ ord_id order;
      "Symbol: " ++ ord_symbol order;
      "Side: " ++ ord_side order;
      "Quantity: " ++ ord_qty order;
      "Type: " ++ ord_type order;
      "Time In Force: " ++ ord_time_in_force order;
      "Status: " ++ ord_status order;
      "Client Order ID: " ++ ord_client_order_id order;
      "" ].

(** First f-string of [_format_option_order_response]. *)
Definition option_order_header (order : Order) : string :=
  join_lines
    [ "";
      "            Option Market Order Placed Successfully:";
      "            --------------------------------------";
      "            Order ID: " ++ ord_id order;
      "            Client Order ID: " ++ ord_client_order_id order;
      "            Order Class: " ++ ord_order_class order;
      "            Order Type: " ++ ord_type order;
      "            Time In Force: " ++ ord_time_in_force order;
      "            Status: " ++ ord_status order;
      "            Quantity: " ++ ord_qty order;
      "            Created At: " ++ ord_created_at order;
      "            Updated At: " ++ ord_updated_at order;
      "            " ].

(** The f-string added for each leg of a placed multi-leg order. *)
Definition option_order_leg (leg : OrderLeg) : string :=
  join_lines
    [ "";
      "                    Symbol: " ++ ol_symbol leg;
      "                    Side: " ++ ol_side leg;
      "                    Ratio Quantity: " ++ ol_ratio_qty leg;
      "                    Status: " ++ ol_status leg;
      "                    Asset Class: " ++ ol_asset_class leg;
      "                    Created At: " ++ ol_created_at leg;
      "                    Updated At: " ++ ol_updated_at leg;
      "                    Filled Price: " ++ or_not_filled (ol_filled_avg_price leg);
      "                    Filled Time: " ++ or_not_filled (ol_filled_at leg);
      "                    -------------------------";
      "                    " ].

(** The f-string added for a placed single-leg order. *)
Definition option_order_single (order : Order) (side_text : string) : string :=
  join_lines
    [ "";
      "                Symbol: " ++ ord_symbol order;
      "                Side: " ++ side_text;
      "                Filled Price: " ++ or_not_filled (ord_filled_avg_price order);
      "                Filled Time: " ++ or_not_filled (ord_filled_at order);
      "                -------------------------";
      "                " ].

(** A computation that may raise and that records the requests handed to
    the trading client. *)
Definition Exec (A : Type) : Type :=
  list OrderRequest -> outcome A * list OrderRequest.

Definition ret {A : Type} (a : A) : Exec A := fun log => (Return a, log).

Definition lift {A : Type} (o : outcome A) : Exec A := fun log => (o, log).

Definition exec_bind {A B : Type} (m : Exec A) (k : A -> Exec B) : Exec B :=
  fun log =>
    match m log with
    | (Return a, log') => k a log'
    | (Raise e, log') => (Raise e, log')
    end.

Notation "x <<- m ;; k" := (exec_bind m (fun x => k))
  (at level 61, m at next level, right associativity).

(** [try: m except Exception as e: handler e] *)
Definition try_except {A : Type} (m : Exec A) (handler : exn -> Exec A) : Exec A :=
  fun log =>
    match m log with
    | (Return a, log') => (Return a, log')
    | (Raise e, log') => handler e log'
    end.

Definition run {A : Type} (m : Exec A) : outcome A * list OrderRequest := m [].

(** The [time_in_force] argument of the stock tool: an enum value, a string,
    or a value of another type (given by the name of its class). *)
Inductive time_in_force_arg : Type :=
| TifEnum (t : TimeInForce)
| TifStr (s : string)
| TifOther (class : string).

(** The side check at the head of [place_stock_order]: the enum value, or
    [None] when the tool answers with the invalid-side message. *)
Definition order_side_of (side : string) : option OrderSide :=
  let side_lower := PyStr.lower side in
  if String.eqb side_lower "buy" then Some BUY
  else if String.eqb side_lower "sell" then Some SELL
  else None.

(** The conversion of [time_in_force] in [place_stock_order]: the enum
    value, or the message the tool answers with. *)
Definition tif_enum_of (time_in_force : time_in_force_arg) : TimeInForce + string :=
  match time_in_force with
  | TifEnum t => inl t
  | TifStr text =>
      let time_in_force_upper := PyStr.upper text in
      if String.eqb time_in_force_upper "DAY" then inl DAY
      else if String.eqb time_in_force_upper "GTC" then inl GTC
      else if String.eqb time_in_force_upper "OPG" then inl OPG
      else if String.eqb time_in_force_upper "CLS" then inl CLS
      else if String.eqb time_in_force_upper "IOC" then inl IOC
      else if String.eqb time_in_force_upper "FOK" then inl FOK
      else inr ("Invalid time_in_force: " ++ text ++
                ". Valid options are: DAY, GTC, OPG, CLS, IOC, FOK")
  | TifOther class =>
      inr ("Invalid time_in_force type: <class '" ++ class ++
           "'>. Must be string or TimeInForce enum.")
  end.

Section Tools.

(** [trade_client.submit_order] *)
Variable trade_client : OrderRequest -> outcome Order.

(** [int(time.time())] *)
Variable now : Z.

(** How an f-string renders an [OrderSide]. *)
Variable OrderSide_format : OrderSide -> string.

Definition submit_order (order_data : OrderRequest) : Exec Order :=
  fun log => (trade_client order_data, (log ++ [order_data])%list).

(** [order.legs] is true when the order has legs. *)
Definition _format_option_order_response
  (order : Order) (order_class : OrderClass) (order_legs : list OptionLegRequest)
  : outcome string :=
  let result := option_order_header order in
  if OrderClass_eqb order_class MLEG
     && negb (Nat.eqb (List.length (ord_legs order)) 0)
  then
    Return (fold_left (fun result leg => result ++ option_order_leg leg)
              (ord_legs order)
              (result ++ join_lines [""; "Legs:"; ""]))
  else
    first <- index order_legs 0 ;;
    Return (result ++ option_order_single order (OrderSide_format (leg_side first))).

(** [client_order_id or f"order_{int(time.time())}"] *)
Definition client_order_id_or_default (client_order_id : option string) : string :=
  match client_order_id with
  | Some (String c s) => String c s
  | _ => "order_" ++ PyStr.of_int now
  end.

(** The part of [place_stock_order] before the submission: the request to
    submit, or the message the tool returns without submitting. The
    constructors of the market, limit, stop and stop-limit requests accept
    every argument list built here (symbol, side and quantity given, the
    prices given); the constructor of the trailing-stop request may raise,
    and the [except] clause of the tool then returns the message given
    here. *)
Definition build_order_request
  (symbol side : string) (quantity : float) (order_type : string)
  (time_in_force : time_in_force_arg)
  (limit_price stop_price trail_price trail_percent : option float)
  (extended_hours : bool) (client_order_id : option string)
  : OrderRequest + string :=
  match order_side_of side with
  | None => inr ("Invalid order side: " ++ side ++ ". Must be 'buy' or 'sell'.")
  | Some order_side =>
      match tif_enum_of time_in_force with
      | inr message => inr message
      | inl tif_enum =>
          let common (type : OrderType) :=
            {| req_symbol := Some symbol;
               req_qty := Float quantity;
               req_side := Some order_side;
               req_type := type;
               req_time_in_force := tif_enum;
               req_extended_hours := extended_hours;
               req_client_order_id := client_order_id_or_default client_order_id;
               req_order_class := None;
               req_legs := None |} in
          let order_type_upper := PyStr.upper order_type in
          if String.eqb order_type_upper "MARKET" then
            inl (MarketOrderRequest (common MARKET))
          else if String.eqb order_type_upper "LIMIT" then
            match limit_price with
            | None => inr "limit_price is required for LIMIT orders."
            | Some limit => inl (LimitOrderRequest (common LIMIT) limit)
            end
          else if String.eqb order_type_upper "STOP" then
            match stop_price with
            | None => inr "stop_price is required for STOP orders."
            | Some stop => inl (StopOrderRequest (common STOP) stop)
            end
          else if String.eqb order_type_upper "STOP_LIMIT" then
            match stop_price, limit_price with
            | Some stop, Some limit =>
                inl (StopLimitOrderRequest (common STOP_LIMIT) stop limit)
            | _, _ =>
                inr "Both stop_price and limit_price are required for STOP_LIMIT orders."
            end
          else if String.eqb order_type_upper "TRAILING_STOP" then
            match trail_price, trail_percent with
            | None, None =>
                inr "Either trail_price or trail_percent is required for TRAILING_STOP orders."
            | _, _ =>
                match
                  TrailingStopOrderRequest_init (common TRAILING_STOP)
                    trail_price trail_percent
                with
                | Return order_data => inl order_data
                | Raise e => inr ("Error placing order: " ++ exn_str e)
                end
            end
          else
            inr ("Invalid order type: " ++ order_type ++
                 ". Must be one of: MARKET, LIMIT, STOP, STOP_LIMIT, TRAILING_STOP.")
      end
  end.

(** [try: ... except Exception as e: return f"Error placing order: {str(e)}"] *)
Definition place_stock_order
  (symbol side : string) (quantity : float) (order_type : string)
  (time_in_force : time_in_force_arg)
  (limit_price stop_price trail_price trail_percent : option float)
  (extended_hours : bool) (client_order_id : option string) : Exec string :=
  try_except
    (match
       build_order_request symbol side quantity order_type time_in_force
         limit_price stop_price trail_price trail_percent extended_hours
         client_order_id
     with
     | inr message => ret message
     | inl order_data =>
         order <<- submit_order order_data ;;
         ret (stock_order_response order)
     end)
    (fun e => ret ("Error placing order: " ++ exn_str e)).

(** The two [except] clauses of the option tool, with the values
    [order_legs] and [order_class] have when the exception is raised. *)
Definition option_order_except
  (e : exn) (order_legs : list OptionLegRequest) (order_class : OrderClass)
  : Exec string :=
  match e with
  | APIError text => lift (_handle_option_api_error text order_legs order_class)
  | OtherError _ text => ret (unexpected_error_message text)
  end.

(** The whole body is inside the [try]. The checks before the leg
    processing cannot raise on arguments of the declared types; from there
    on an exception reaches the [except] clauses with [order_legs] still
    empty (raised by the leg processing) or holding the processed legs
    (raised later), and with [order_class] already an enum value. *)
Definition place_option_market_order
  (legs : list dict) (order_class : order_class_arg) (quantity : Z)
  (time_in_force : TimeInForce) (extended_hours : bool) : Exec string :=
  match _validate_option_order_inputs legs quantity time_in_force with
  | Some validation_error => ret validation_error
  | None =>
      match _convert_order_class_string order_class with
      | inr message => ret message
      | inl converted_order_class =>
          let order_class :=
            match converted_order_class with
            | Some c => c
            | None => if (1 <? List.length legs)%nat then MLEG else SIMPLE
            end in
          fun log =>
            match _process_option_legs legs with
            | Raise e => option_order_except e [] order_class log
            | Return (inr message) => ret message log
            | Return (inl order_legs) =>
                try_except
                  (order_data <<-
                     lift (_create_option_market_order_request now order_legs
                             order_class quantity time_in_force extended_hours) ;;
                   order <<- submit_order order_data ;;
                   lift (_format_option_order_response order order_class order_legs))
                  (fun e => option_order_except e order_legs order_class)
                  log
            end
      end
  end.

End Tools.

(** * Properties *)

(** ** Strings *)

Module PyStrFacts.
Import PyStr.

Lemma digit_not_space (c : ascii) : is_digit c = true -> is_space c = false.
Proof. unfold is_digit, is_space. lia. Qed.

Lemma lower_char_space (c : ascii) :
  is_space (lower_char c) = false -> is_space c = false.
Proof.
  unfold lower_char. destruct (is_upper c) eqn:U; auto.
  intros _. unfold is_upper, is_space in *. lia.
Qed.

Lemma lower_char_digit (c : ascii) :
  is_digit (lower_char c) = false -> is_digit c = false.
Proof.
  unfold lower_char. destruct (is_upper c) eqn:U; auto.
  intros _. unfold is_upper, is_digit in *. lia.
Qed.

Lemma all_lower (p : ascii -> bool) (s : string) :
  (forall c, p (lower_char c) = true -> p c = true) ->
  all p (lower s) = true -> all p s = true.
Proof.
  intros H. induction s as [|c s IH]; simpl; auto.
  rewrite !andb_true_iff. intros [Hc Hs]. auto.
Qed.

Lemma lower_length (s : string) : String.length (lower s) = String.length s.
Proof.
  unfold lower. induction s as [|c s IH]; simpl; [reflexivity | now rewrite IH].
Qed.

Lemma span_split (p : ascii -> bool) (s a b : string) :
  span p s = (a, b) -> s = a ++ b /\ all p a = true.
Proof.
  revert a b. induction s as [|c s IH]; simpl; intros a b H.
  - inversion H; auto.
  - destruct (p c) eqn:Pc.
    + destruct (span p s) as [a' b'] eqn:E. inversion H; subst.
      destruct (IH a' b eq_refl) as [-> Ha]. simpl. rewrite Pc. auto.
    + inversion H; auto.
Qed.

(** What follows the digits does not start with a character of [p]. *)
Definition stops (p : ascii -> bool) (b : string) : bool :=
  match b with
  | EmptyString => true
  | String c _ => negb (p c)
  end.

Lemma span_app (p : ascii -> bool) (a b : string) :
  all p a = true -> stops p b = true -> span p (a ++ b) = (a, b).
Proof.
  intros Ha Hb. induction a as [|c a IH]; simpl in *.
  - destruct b as [|c b]; simpl in *; auto.
    destruct (p c); simpl in *; congruence.
  - apply andb_true_iff in Ha as [Hc Ha]. rewrite Hc, (IH Ha). reflexivity.
Qed.

Lemma rstrip_clean (s : string) :
  all (fun c => negb (is_space c)) s = true -> rstrip s = s.
Proof.
  induction s as [|c s IH]; simpl; auto.
  rewrite andb_true_iff, negb_true_iff. intros [Hc Hs].
  rewrite (IH Hs), Hc. destruct s; reflexivity.
Qed.

Lemma rstrip_app (a b : string) :
  b <> EmptyString -> rstrip b = b -> rstrip (a ++ b) = a ++ b.
Proof.
  intros Hne Hb. induction a as [|c a IH]; simpl; auto.
  rewrite IH. destruct (a ++ b) eqn:E; auto.
  destruct a; simpl in E; congruence.
Qed.

(** The last character is a whitespace character. *)
Fixpoint ends_space (s : string) : bool :=
  match s with
  | EmptyString => false
  | String c EmptyString => is_space c
  | String _ s' => ends_space s'
  end.

Lemma rstrip_ends (s : string) : ends_space (rstrip s) = false.
Proof.
  induction s as [|c s IH]; simpl; auto.
  destruct (rstrip s) as [|c' r] eqn:E.
  - destruct (is_space c) eqn:Hc; simpl; auto.
  - exact IH.
Qed.

Lemma strip_ends (s : string) : ends_space (strip s) = false.
Proof. apply rstrip_ends. Qed.

Lemma ends_space_app (a b : string) :
  b <> EmptyString -> ends_space (a ++ b) = ends_space b.
Proof.
  intros Hb. induction a as [|c a IH]; simpl; auto.
  rewrite IH. destruct (a ++ b) eqn:E; auto.
  destruct a; simpl in E; congruence.
Qed.

Lemma code_of_code (z : Z) : 0 <= z < 256 -> code (of_code z) = z.
Proof.
  intros H. unfold code, of_code. rewrite nat_ascii_embedding; lia.
Qed.

Lemma lower_char_is_space (c : ascii) : is_space (lower_char c) = is_space c.
Proof.
  unfold lower_char. destruct (is_upper c) eqn:U; auto.
  unfold is_upper in U. unfold is_space. rewrite code_of_code; lia.
Qed.

Lemma lower_ends_space (s : string) : ends_space (lower s) = ends_space s.
Proof.
  induction s as [|c s IH]; simpl; auto.
  destruct s as [|c' s]; simpl in *.
  - apply lower_char_is_space.
  - exact IH.
Qed.

Lemma prefix_app (a b : string) : prefix a (a ++ b) = true.
Proof.
  induction a as [|c a IH]; simpl.
  - destruct b; reflexivity.
  - destruct (ascii_dec c c); [exact IH | congruence].
Qed.

Lemma contains_prefix (sub s : string) :
  prefix sub s = true -> contains sub s = true.
Proof. intros H. destruct s; cbn [contains]; rewrite H; reflexivity. Qed.

Lemma contains_app (sub a b : string) : contains sub (a ++ sub ++ b) = true.
Proof.
  induction a as [|c a IH]; simpl.
  - apply contains_prefix, prefix_app.
  - rewrite IH. apply orb_true_r.
Qed.

Lemma int_acc_nonneg (s : string) (acc : Z) :
  all is_digit s = true -> 0 <= acc -> 0 <= int_acc acc s.
Proof.
  revert acc. induction s as [|c s IH]; cbn [int_acc all]; intros acc H Hacc; auto.
  apply andb_true_iff in H as [Hc Hs]. apply IH; auto.
  unfold is_digit in Hc. apply andb_true_iff in Hc as [Hlo _].
  apply Z.leb_le in Hlo. lia.
Qed.

End PyStrFacts.

(** ** Timeframe strings *)

Module TimeframeSpec.
Import PyStr PyStrFacts.

(** The unit words of the pattern, with the unit each stands for. *)
Definition unit_names : list (string * TimeFrameUnit) :=
  [ ("Min", Minute); ("Hour", Hour); ("Day", Day); ("Week", Week);
    ("Month", Month) ].

(** [word] is the unit word of [u], up to letter case. *)
Definition is_unit_word (word : string) (u : TimeFrameUnit) : Prop :=
  exists name, In (name, u) unit_names /\ lower word = lower name.

(** A non-empty string of decimal digits. *)
Definition is_number (digits : string) : Prop :=
  digits <> EmptyString /\ all is_digit digits = true.

(** The per-unit ceiling the parser tests. *)
Definition ceiling (u : TimeFrameUnit) : Z :=
  match u with
  | Minute => 59
  | Hour => 23
  | Day | Week | Month => 365
  end.

(** [text] is a positive integer followed by a unit word and nothing
    else. *)
Definition timeframe_form (text : string) : Prop :=
  exists digits word u,
    text = digits ++ word /\ is_number digits /\ is_unit_word word u
    /\ 0 < int digits.

Lemma unit_word_mapping (word : string) (u : TimeFrameUnit) :
  is_unit_word word u <-> dict_get unit_mapping (lower word) = Some u.
Proof.
  split.
  - intros [name [Hin Hl]]. rewrite Hl. simpl in Hin.
    repeat (destruct Hin as [Hin | Hin]; [inversion Hin; subst; reflexivity |]).
    contradiction.
  - unfold unit_mapping, dict_get. intros H.
    destruct (String.eqb "min" (lower word)) eqn:E1;
      [ apply String.eqb_eq in E1; inversion H; subst; exists "Min";
        split; [simpl; tauto | now rewrite <- E1] |].
    destruct (String.eqb "hour" (lower word)) eqn:E2;
      [ apply String.eqb_eq in E2; inversion H; subst; exists "Hour";
        split; [simpl; tauto | now rewrite <- E2] |].
    destruct (String.eqb "day" (lower word)) eqn:E3;
      [ apply String.eqb_eq in E3; inversion H; subst; exists "Day";
        split; [simpl; tauto | now rewrite <- E3] |].
    destruct (String.eqb "week" (lower word)) eqn:E4;
      [ apply String.eqb_eq in E4; inversion H; subst; exists "Week";
        split; [simpl; tauto | now rewrite <- E4] |].
    destruct (String.eqb "month" (lower word)) eqn:E5;
      [ apply String.eqb_eq in E5; inversion H; subst; exists "Month";
        split; [simpl; tauto | now rewrite <- E5] |].
    discriminate.
Qed.

Lemma unit_word_listed (word : string) (u : TimeFrameUnit) :
  is_unit_word word u -> existsb (String.eqb (lower word)) unit_words = true.
Proof.
  intros [name [Hin Hl]]. rewrite Hl. simpl in Hin.
  repeat (destruct Hin as [Hin | Hin]; [inversion Hin; subst; reflexivity |]).
  contradiction.
Qed.

Lemma listed_unit_word (word : string) :
  existsb (String.eqb (lower word)) unit_words = true ->
  exists u, is_unit_word word u.
Proof.
  intros H. apply existsb_exists in H as [w [Hin Hw]].
  apply String.eqb_eq in Hw. simpl in Hin.
  repeat (destruct Hin as [Hin | Hin];
          [ subst w; eexists; apply unit_word_mapping; rewrite Hw; reflexivity |]).
  contradiction.
Qed.

(** A unit word starts with a letter and holds no whitespace. *)
Lemma unit_word_shape (word : string) (u : TimeFrameUnit) :
  is_unit_word word u ->
  word <> EmptyString /\ stops is_digit word = true /\ rstrip word = word.
Proof.
  intros [name [Hin Hl]].
  assert (Hclean : all (fun c => negb (is_space c)) (lower word) = true
                   /\ stops is_digit (lower word) = true
                   /\ lower word <> EmptyString).
  { rewrite Hl. simpl in Hin.
    repeat (destruct Hin as [Hin | Hin];
            [ inversion Hin; subst; repeat split; discriminate |]).
    contradiction. }
  destruct Hclean as [Hsp [Hst Hne]]. repeat split.
  - intros ->. apply Hne. reflexivity.
  - destruct word as [|c w]; [reflexivity|]. simpl in *.
    apply negb_true_iff in Hst. apply negb_true_iff.
    now apply lower_char_digit.
  - apply rstrip_clean. apply all_lower; [| exact Hsp].
    intros c Hc. apply negb_true_iff in Hc. apply negb_true_iff.
    now apply lower_char_space.
Qed.

(** Trimming leaves a string of the pattern as it is. *)
Lemma strip_form (digits word : string) (u : TimeFrameUnit) :
  is_number digits -> is_unit_word word u ->
  strip (digits ++ word) = digits ++ word.
Proof.
  intros [Hne Hd] Hw. destruct (unit_word_shape _ _ Hw) as [Hwne [_ Hr]].
  unfold strip. destruct digits as [|c ds]; [congruence|].
  simpl in Hd. apply andb_true_iff in Hd as [Hc _].
  assert (Hl : lstrip (String c ds ++ word) = String c ds ++ word).
  { simpl. now rewrite (digit_not_space c Hc). }
  rewrite Hl. now apply rstrip_app.
Qed.

Lemma match_form (digits word : string) (u : TimeFrameUnit) :
  is_number digits -> is_unit_word word u ->
  match_timeframe (digits ++ word) = Some (digits, word).
Proof.
  intros [Hne Hd] Hw. destruct (unit_word_shape _ _ Hw) as [_ [Hst _]].
  unfold match_timeframe. rewrite (span_app _ _ _ Hd Hst).
  rewrite (unit_word_listed _ _ Hw). destruct digits; congruence.
Qed.

(** What the [try] block computes on a string whose trimmed text is a
    number followed by a unit word. *)
Lemma body_form (s digits word : string) (u : TimeFrameUnit) :
  strip s = digits ++ word -> is_number digits -> is_unit_word word u ->
  parse_timeframe_body s =
    if ceiling u <? int digits then Return None
    else tf <- TimeFrame_init (int digits) u ;; Return (Some tf).
Proof.
  intros Hs Hd Hw. unfold parse_timeframe_body. rewrite Hs.
  pose proof (match_form _ _ _ Hd Hw) as Hm.
  destruct (dict_get predefined_timeframes (digits ++ word)) as [tf|] eqn:P.
  - assert (Hsp : span is_digit (digits ++ word) = (digits, word)).
    { destruct Hd as [_ Hd]. destruct (unit_word_shape _ _ Hw) as [_ [Hst _]].
      now apply span_app. }
    apply unit_word_mapping in Hw.
    unfold predefined_timeframes, dict_get in P.
    repeat match type of P with
           | (if String.eqb ?k ?w then _ else _) = _ =>
               destruct (String.eqb k w) eqn:E;
               [ apply String.eqb_eq in E; rewrite <- E in Hsp;
                 inversion Hsp; subst; inversion P; subst;
                 inversion Hw; subst; reflexivity
               | clear E ]
           end.
    discriminate.
  - rewrite Hm. apply unit_word_mapping in Hw. rewrite Hw.
    destruct u; simpl; destruct (_ <? int digits); reflexivity.
Qed.

End TimeframeSpec.

Section TimeframeClaims.
Import PyStr PyStrFacts TimeframeSpec.

(** A decision procedure for [timeframe_form]. *)
Definition timeframe_formb (text : string) : bool :=
  let (digits, word) := span is_digit text in
  negb (String.eqb digits EmptyString)
  && match dict_get unit_mapping (lower word) with
     | Some _ => true
     | None => false
     end
  && (0 <? int digits).

Lemma timeframe_form_spec (text : string) :
  timeframe_form text <-> timeframe_formb text = true.
Proof.
  unfold timeframe_formb. split.
  - intros (digits & word & u & -> & [Hne Hd] & Hw & Hpos).
    destruct (unit_word_shape _ _ Hw) as [_ [Hst _]].
    rewrite (span_app _ _ _ Hd Hst).
    apply unit_word_mapping in Hw. rewrite Hw.
    apply String.eqb_neq in Hne. rewrite Hne.
    apply Z.ltb_lt in Hpos. rewrite Hpos. reflexivity.
  - destruct (span is_digit text) as [digits word] eqn:Sp.
    apply span_split in Sp as [-> Hd].
    destruct (dict_get unit_mapping (lower word)) as [u|] eqn:Hu;
      [| rewrite andb_false_r; discriminate].
    rewrite !andb_true_iff, negb_true_iff, Z.ltb_lt, String.eqb_neq.
    intros [[Hne _] Hpos]. exists digits, word, u.
    repeat split; auto. now apply unit_word_mapping.
Qed.

(** The amounts the [TimeFrame] constructor accepts for a unit. *)
Definition accepted_amount (u : TimeFrameUnit) (a : Z) : Prop :=
  match u with
  | Minute => 1 <= a <= 59
  | Hour => 1 <= a <= 23
  | Day | Week => a = 1
  | Month => a = 1 \/ a = 2 \/ a = 3 \/ a = 6 \/ a = 12
  end.

Lemma parse_form (s digits word : string) (u : TimeFrameUnit) :
  strip s = digits ++ word -> is_number digits -> is_unit_word word u ->
  (accepted_amount u (int digits) ->
   parse_timeframe_with_enums s = Return (Some (mkTimeFrame (int digits) u)))
  /\ (~ accepted_amount u (int digits) ->
      parse_timeframe_with_enums s = Return None).
Proof.
  intros Hs Hd Hw. unfold parse_timeframe_with_enums.
  rewrite (body_form _ _ _ _ Hs Hd Hw). unfold TimeFrame_init, accepted_amount.
  generalize (int digits) as a. intros a.
  split; intros H; destruct u; cbn [ceiling existsb];
    repeat match goal with
           | |- context [?x <? ?y] => destruct (Z.ltb_spec x y)
           | |- context [?x <=? ?y] => destruct (Z.leb_spec x y)
           | |- context [?x =? ?y] => destruct (Z.eqb_spec x y)
           end;
    cbn [bind orb];
    try reflexivity; try lia; exfalso; apply H; lia.
Qed.

Lemma parse_above_ceiling (s digits word : string) (u : TimeFrameUnit) :
  strip s = digits ++ word -> is_number digits -> is_unit_word word u ->
  ceiling u < int digits -> parse_timeframe_with_enums s = Return None.
Proof.
  intros Hs Hd Hw H. apply (parse_form s digits word u Hs Hd Hw).
  unfold accepted_amount. destruct u; cbn [ceiling] in H; lia.
Qed.

Lemma parse_no_form (s : string) :
  ~ timeframe_form (strip s) -> parse_timeframe_with_enums s = Return None.
Proof.
  intros Hnot. unfold parse_timeframe_with_enums, parse_timeframe_body.
  pose proof (strip_ends s) as Hend. set (t := strip s) in *.
  destruct (dict_get predefined_timeframes t) as [tf|] eqn:P.
  - exfalso. apply Hnot. apply timeframe_form_spec.
    unfold predefined_timeframes, dict_get in P.
    repeat match type of P with
           | (if String.eqb ?k ?w then _ else _) = _ =>
               destruct (String.eqb k w) eqn:E;
               [ apply String.eqb_eq in E; rewrite <- E; reflexivity | clear E ]
           end.
    discriminate.
  - destruct (match_timeframe t) as [[g1 g2]|] eqn:M; [| reflexivity].
    unfold match_timeframe in M.
    destruct (span is_digit t) as [digits rest] eqn:Sp.
    destruct digits as [|d ds]; [discriminate|].
    apply span_split in Sp as [Ht Hd].
    destruct (existsb (String.eqb (lower rest)) unit_words) eqn:Ex.
    + inversion M; subst g1 g2; clear M.
      apply listed_unit_word in Ex as [u Hu].
      pose proof Hu as Hmap. apply unit_word_mapping in Hmap. rewrite Hmap.
      destruct (0 <? int (String d ds)) eqn:Pos.
      * exfalso. apply Hnot. exists (String d ds), rest, u.
        repeat split; auto; [discriminate | now apply Z.ltb_lt].
      * apply Z.ltb_ge in Pos. unfold TimeFrame_init.
        replace (int (String d ds) <=? 0) with true
          by (symmetry; apply Z.leb_le; lia).
        destruct u; cbv beta iota;
          match goal with
          | |- context [?n <? ?a] =>
              replace (n <? a) with false by (symmetry; apply Z.ltb_ge; lia)
          end; reflexivity.
    + exfalso.
      destruct (find (fun w => String.eqb (lower rest) (w ++ newline)) unit_words)
        as [w|] eqn:F; [| discriminate].
      apply find_some in F as [Hin Hw]. apply String.eqb_eq in Hw.
      assert (Hrest : ends_space rest = true).
      { rewrite <- lower_ends_space, Hw. simpl in Hin.
        repeat (destruct Hin as [Hin | Hin]; [subst w; reflexivity |]).
        contradiction. }
      assert (rest <> EmptyString) by (intros ->; discriminate).
      rewrite Ht, ends_space_app, Hrest in Hend by assumption. discriminate.
Qed.

(** What the parser does on every string: whenever the trimmed text is a
    number followed by a unit word, it returns that amount and that unit
    when the [TimeFrame] constructor accepts the amount, and the failure
    value otherwise, in particular for every amount above the ceiling of
    the unit; whenever the trimmed text is not a positive number followed
    by a unit word, it returns the failure value. It never raises. *)
Lemma parse_timeframe_cases :
  (forall s digits word u,
      strip s = digits ++ word -> is_number digits -> is_unit_word word u ->
      (accepted_amount u (int digits) ->
       parse_timeframe_with_enums s = Return (Some (mkTimeFrame (int digits) u)))
      /\ (~ accepted_amount u (int digits) ->
          parse_timeframe_with_enums s = Return None)
      /\ (ceiling u < int digits ->
          parse_timeframe_with_enums s = Return None))
  /\ (forall s,
         ~ timeframe_form (strip s) ->
         parse_timeframe_with_enums s = Return None).
Proof.
  split.
  - intros s digits word u Hs Hd Hw.
    destruct (parse_form s digits word u Hs Hd Hw) as [Hin Hout].
    split; [exact Hin |]. split; [exact Hout |].
    apply (parse_above_ceiling s digits word u Hs Hd Hw).
  - apply parse_no_form.
Qed.

End TimeframeClaims.

(** C4 (the inputs on which the code departs from the claim). The strings
    300Day and 2Day are a positive integer followed by a unit word, with the
    amount within the ceiling of 365 that the parser tests, yet the parser
    returns the failure value on them: the [TimeFrame] constructor refuses a
    day amount other than 1 and the parser turns its ValueError into the
    failure value. The other examples of the claim behave as it says. *)
Theorem C4_day_amount_within_ceiling_refused :
  parse_timeframe_with_enums "300Day" = Return None
  /\ parse_timeframe_with_enums "2Day" = Return None
  /\ parse_timeframe_with_enums "1Day" = Return (Some (mkTimeFrame 1 Day))
  /\ parse_timeframe_with_enums "45Min" = Return (Some (mkTimeFrame 45 Minute))
  /\ parse_timeframe_with_enums "12Hour" = Return (Some (mkTimeFrame 12 Hour))
  /\ parse_timeframe_with_enums "60Min" = Return None
  /\ parse_timeframe_with_enums "24Hour" = Return None
  /\ parse_timeframe_with_enums "400Day" = Return None.
Proof. repeat split. Qed.

(** ** Strategy classification *)

Module StrategyFacts.
Import PyStr PyStrFacts.

(** [s.split(sep)[0]] *)
Definition before (sep : ascii) (s : string) : string :=
  hd EmptyString (split sep s).

(** [s.split(sep)[1]], when [sep] occurs in [s]. *)
Definition after (sep : ascii) (s : string) : string :=
  nth 1 (split sep s) EmptyString.

Lemma split_first (sep : ascii) (s : string) :
  index (split sep s) 0 = Return (before sep s).
Proof.
  unfold before. destruct s as [|c s]; simpl; [reflexivity|].
  destruct (Ascii.eqb c sep); [reflexivity|].
  destruct (split sep s); reflexivity.
Qed.

Lemma split_second (sep : ascii) (s : string) :
  contains (String sep EmptyString) s = true ->
  index (split sep s) 1 = Return (after sep s).
Proof.
  unfold after. induction s as [|c s IH]; cbn [contains split].
  - discriminate.
  - intros H. destruct (Ascii.eqb c sep) eqn:E.
    + destruct s as [|c' s]; simpl; [reflexivity|].
      destruct (Ascii.eqb c' sep); [reflexivity|].
      destruct (split sep s); reflexivity.
    + assert (Hs : contains (String sep EmptyString) s = true).
      { apply orb_true_iff in H as [H | H]; [| exact H].
        simpl in H. destruct (ascii_dec sep c) as [->|]; [| discriminate].
        rewrite Ascii.eqb_refl in E. discriminate. }
      specialize (IH Hs). destruct (split sep s) as [|p [|q ps]]; simpl in *;
        try discriminate; exact IH.
Qed.

(** The flags as a function of the two symbols of a two-leg order whose
    legs are both short. *)
Definition short_pair_flags (symbol0 symbol1 : string) : bool * bool * bool :=
  let same_prefix := String.eqb (before "C" symbol0) (before "P" symbol1) in
  let calendar :=
    contains "C" symbol0 && contains "C" symbol1
    && negb (String.eqb (take 6 (after "C" symbol0)) (take 6 (after "C" symbol1))) in
  (same_prefix, negb same_prefix && negb calendar, calendar).

Lemma option_type_call (s : string) :
  Ascii.eqb (option_type_of s) "C" = contains "C" s.
Proof. unfold option_type_of. destruct (contains "C" s); reflexivity. Qed.

Lemma analyze_short_pair (l0 l1 : OptionLegRequest) :
  leg_side l0 = SELL -> leg_side l1 = SELL ->
  _analyze_option_strategy_type [l0; l1] MLEG
  = Return (short_pair_flags (leg_symbol l0) (leg_symbol l1)).
Proof.
  intros H0 H1. unfold _analyze_option_strategy_type, short_pair_flags.
  cbn [OrderClass_eqb List.length Nat.eqb andb index nth_error bind].
  rewrite H0, H1. cbn [OrderSide_eqb andb].
  rewrite !split_first. cbn [bind]. rewrite !option_type_call.
  destruct (contains "C" (leg_symbol l0)) eqn:C0;
    destruct (contains "C" (leg_symbol l1)) eqn:C1; cbn [andb];
    try (destruct (String.eqb _ _); reflexivity).
  unfold option_type_of. rewrite C0, C1.
  rewrite (split_second _ _ C0), (split_second _ _ C1). cbn [bind].
  destruct (String.eqb (take 6 _) (take 6 _)); cbn [negb];
    destruct (String.eqb (before _ _) (before _ _)); reflexivity.
Qed.

(** A leg list that is not two short legs under MLEG has no flag set. *)
Definition short_pair (order_legs : list OptionLegRequest) (order_class : OrderClass)
  : bool :=
  OrderClass_eqb order_class MLEG
  && match order_legs with
     | [l0; l1] => OrderSide_eqb (leg_side l0) SELL && OrderSide_eqb (leg_side l1) SELL
     | _ => false
     end.

Lemma analyze_other (order_legs : list OptionLegRequest) (order_class : OrderClass) :
  short_pair order_legs order_class = false ->
  _analyze_option_strategy_type order_legs order_class = Return (false, false, false).
Proof.
  unfold short_pair, _analyze_option_strategy_type.
  destruct (OrderClass_eqb order_class MLEG); [| reflexivity].
  destruct order_legs as [|l0 [|l1 [|l2 rest]]]; try reflexivity.
  cbn [andb List.length Nat.eqb index nth_error bind]. intros ->. reflexivity.
Qed.

(** The classifier never raises. *)
Lemma analyze_total (order_legs : list OptionLegRequest) (order_class : OrderClass) :
  exists flags, _analyze_option_strategy_type order_legs order_class = Return flags.
Proof.
  destruct (short_pair order_legs order_class) eqn:S.
  - unfold short_pair in S. apply andb_true_iff in S as [Hc Hl].
    destruct order_class; try discriminate.
    destruct order_legs as [|l0 [|l1 [|l2 rest]]]; try discriminate.
    apply andb_true_iff in Hl as [H0 H1].
    eexists. apply analyze_short_pair.
    + destruct (leg_side l0); [discriminate | reflexivity].
    + destruct (leg_side l1); [discriminate | reflexivity].
  - eexists. now apply analyze_other.
Qed.

End StrategyFacts.

(** The strategy shape the flags stand for, in the order the error mapper
    tests them. *)
Inductive StrategyShape : Type :=
| SHORT_STRADDLE
| SHORT_STRANGLE
| SHORT_CALENDAR
| NONE.

Definition classify (flags : bool * bool * bool) : StrategyShape :=
  let '(is_short_straddle, is_short_strangle, is_short_calendar) := flags in
  if is_short_straddle then SHORT_STRADDLE
  else if is_short_strangle then SHORT_STRANGLE
  else if is_short_calendar then SHORT_CALENDAR
  else NONE.

(** The explanation of each shape; [NONE] has the generic uncovered-options
    explanation. *)
Definition explanation (shape : StrategyShape) : string :=
  match shape with
  | SHORT_STRADDLE => _get_short_straddle_error_message
  | SHORT_STRANGLE => _get_short_strangle_error_message
  | SHORT_CALENDAR => _get_short_calendar_error_message
  | NONE => _get_uncovered_options_error_message
  end.

(** The error text carries the uncovered-options code and phrase. *)
Definition uncovered_options_error (error_message : string) : bool :=
  PyStr.contains "40310000" error_message
  && PyStr.contains "not eligible to trade uncovered option contracts" error_message.

Lemma contains_cons (sub s : string) (c : ascii) :
  PyStr.contains sub s = true -> PyStr.contains sub (String c s) = true.
Proof. intros H. cbn [PyStr.contains]. rewrite H. apply orb_true_r. Qed.

Lemma order_failure_echo (error_message : string) :
  PyStr.contains error_message (order_failure_message error_message) = true.
Proof.
  unfold order_failure_message, join_lines, newline.
  cbn [String.concat append].
  repeat apply contains_cons.
  apply PyStrFacts.contains_prefix, PyStrFacts.prefix_app.
Qed.

Lemma permission_denied_echo (error_message : string) :
  PyStr.contains error_message (permission_denied_message error_message) = true.
Proof.
  unfold permission_denied_message, join_lines, newline.
  cbn [String.concat append].
  repeat apply contains_cons.
  apply PyStrFacts.contains_prefix, PyStrFacts.prefix_app.
Qed.

Lemma explanation_injective (a b : StrategyShape) :
  explanation a = explanation b -> a = b.
Proof.
  destruct a, b; intros H; try reflexivity;
    apply String.eqb_eq in H; vm_compute in H; discriminate H.
Qed.

Lemma handle_total (error_message : string) (order_legs : list OptionLegRequest)
  (order_class : OrderClass) :
  exists text,
    _handle_option_api_error error_message order_legs order_class = Return text.
Proof.
  unfold _handle_option_api_error.
  destruct (StrategyFacts.analyze_total order_legs order_class) as [[[a b] c] ->].
  cbn [bind].
  repeat match goal with
         | |- context [if ?b then _ else _] => destruct b
         end; eexists; reflexivity.
Qed.

(** C1. The error mapper never raises. When the error text holds the code
    40310000 and the phrase about uncovered option contracts, it returns the
    explanation of the strategy shape of the legs: short straddle, else short
    strangle, else short calendar, and the generic uncovered-options
    explanation when no flag is set. Otherwise, when the text holds 403, it
    returns the permission-denied explanation; otherwise the order-failure
    explanation, which holds the error text verbatim. The four explanations
    of the first case are pairwise different. *)
Theorem C1_error_mapper :
  forall (error_message : string) (order_legs : list OptionLegRequest)
         (order_class : OrderClass),
  exists flags,
    _analyze_option_strategy_type order_legs order_class = Return flags
    /\ _handle_option_api_error error_message order_legs order_class
       = Return
           (if uncovered_options_error error_message
            then explanation (classify flags)
            else if PyStr.contains "403" error_message
                 then permission_denied_message error_message
                 else order_failure_message error_message)
    /\ PyStr.contains error_message (order_failure_message error_message) = true
    /\ (forall a b, explanation a = explanation b -> a = b).
Proof.
  intros error_message order_legs order_class.
  destruct (StrategyFacts.analyze_total order_legs order_class) as [flags Hflags].
  exists flags. split; [exact Hflags |]. split; [| split].
  - unfold _handle_option_api_error, uncovered_options_error. rewrite Hflags.
    destruct (_ && _).
    + destruct flags as [[[] []] []]; reflexivity.
    + destruct (PyStr.contains "403" error_message); reflexivity.
  - apply order_failure_echo.
  - apply explanation_injective.
Qed.

(** C2 (the input on which the code departs from the claim). Two short legs
    under MLEG, a put and a call with the same underlying, expiration and
    strike, the put listed first: the classifier sets the strangle flag and
    not the straddle flag. *)
Theorem C2_put_first_straddle_is_strangle :
  _analyze_option_strategy_type
    [ mkOptionLegRequest "TSLA230616P00150000" SELL 1;
      mkOptionLegRequest "TSLA230616C00150000" SELL 1 ] MLEG
  = Return (false, true, false).
Proof. reflexivity. Qed.

(** With the call listed first the same pair is a straddle. *)
Example call_first_straddle :
  _analyze_option_strategy_type
    [ mkOptionLegRequest "TSLA230616C00150000" SELL 1;
      mkOptionLegRequest "TSLA230616P00150000" SELL 1 ] MLEG
  = Return (true, false, false).
Proof. reflexivity. Qed.


(** ** Validation of the tool arguments *)

(** [side] names the order side [order_side], in any letter case. *)
Definition valid_side (side : string) (order_side : OrderSide) : Prop :=
  (PyStr.lower side = "buy" /\ order_side = BUY)
  \/ (PyStr.lower side = "sell" /\ order_side = SELL).

Definition TimeInForce_name (t : TimeInForce) : string :=
  match t with
  | DAY => "DAY"
  | GTC => "GTC"
  | OPG => "OPG"
  | CLS => "CLS"
  | IOC => "IOC"
  | FOK => "FOK"
  end.

(** [time_in_force] is the enum value [t] or a string that names it, in any
    letter case. *)
Definition valid_time_in_force (time_in_force : time_in_force_arg) (t : TimeInForce)
  : Prop :=
  time_in_force = TifEnum t
  \/ exists text, time_in_force = TifStr text /\ PyStr.upper text = TimeInForce_name t.

Definition OrderType_name (t : OrderType) : string :=
  match t with
  | MARKET => "MARKET"
  | LIMIT => "LIMIT"
  | STOP => "STOP"
  | STOP_LIMIT => "STOP_LIMIT"
  | TRAILING_STOP => "TRAILING_STOP"
  end.

(** [order_type] names the order type [t], in any letter case. *)
Definition valid_order_type (order_type : string) (t : OrderType) : Prop :=
  PyStr.upper order_type = OrderType_name t.

(** The names of the price fields a message mentions. *)
Definition price_fields : list string :=
  ["limit_price"; "stop_price"; "trail_price"; "trail_percent"].

Definition named_fields (message : string) : list string :=
  filter (fun field => PyStr.contains field message) price_fields.

(** A leg dictionary with a string symbol, a side name and a positive
    integer ratio, and the leg request it stands for. *)
Definition valid_leg (leg : dict) (request : OptionLegRequest) : Prop :=
  dict_get leg "symbol" = Some (PyStr (leg_symbol request))
  /\ (exists side,
         dict_get leg "side" = Some (PyStr side) /\ valid_side side (leg_side request))
  /\ (exists v,
         dict_get leg "ratio_qty" = Some v /\ as_int v = Some (leg_ratio_qty request))
  /\ 0 < leg_ratio_qty request.

(** The ratio of the leg is present and is not a positive integer. *)
Definition invalid_ratio_qty (leg : dict) : Prop :=
  exists v,
    dict_get leg "ratio_qty" = Some v
    /\ (as_int v = None \/ exists n, as_int v = Some n /\ n <= 0).

(** The side of the leg is a string that names neither side. *)
Definition invalid_leg_side (leg : dict) : Prop :=
  exists side,
    dict_get leg "side" = Some (PyStr side)
    /\ PyStr.lower side <> "buy" /\ PyStr.lower side <> "sell".

Lemma process_leg_valid (leg : dict) (request : OptionLegRequest) :
  valid_leg leg request -> process_leg leg = Return (inl request).
Proof.
  intros (Hsym & (side & Hside & Hname) & (v & Hv & Hint) & Hpos).
  unfold process_leg, getitem. rewrite Hv. cbn [bind]. rewrite Hint.
  replace (leg_ratio_qty request <=? 0) with false by (symmetry; apply Z.leb_gt; lia).
  rewrite Hside. cbn [bind py_lower]. rewrite Hsym.
  destruct request as [symbol order_side ratio]. cbn in *.
  destruct Hname as [[-> ->] | [-> ->]]; reflexivity.
Qed.

Lemma process_leg_accepts (leg : dict) (request : OptionLegRequest) :
  process_leg leg = Return (inl request) -> valid_leg leg request.
Proof.
  unfold process_leg, getitem, valid_leg.
  destruct (dict_get leg "ratio_qty") as [v|]; [| discriminate]. cbn [bind].
  destruct (as_int v) as [n|] eqn:Hint.
  - destruct (n <=? 0) eqn:Hn.
    + destruct (dict_get leg "symbol"); discriminate.
    + apply Z.leb_gt in Hn.
      destruct (dict_get leg "side") as [side|]; [| discriminate]. cbn [bind].
      destruct side as [| | |side|]; try discriminate. cbn [py_lower bind].
      destruct (String.eqb (PyStr.lower side) "buy") eqn:Hb.
      * apply String.eqb_eq in Hb.
        destruct (dict_get leg "symbol") as [symbol|]; [| discriminate].
        destruct symbol; try discriminate. cbn. intros H; inversion H; subst; cbn.
        repeat split; eauto. exists side. split; [reflexivity | left; auto].
      * destruct (String.eqb (PyStr.lower side) "sell") eqn:Hs; [| discriminate].
        apply String.eqb_eq in Hs.
        destruct (dict_get leg "symbol") as [symbol|]; [| discriminate].
        destruct symbol; try discriminate. cbn. intros H; inversion H; subst; cbn.
        repeat split; eauto. exists side. split; [reflexivity | right; auto].
  - destruct (dict_get leg "symbol"); discriminate.
Qed.

Lemma process_legs_valid (legs : list dict) (requests : list OptionLegRequest) :
  Forall2 valid_leg legs requests ->
  forall order_legs,
    process_legs_from order_legs legs = Return (inl (order_legs ++ requests)%list).
Proof.
  induction 1 as [|leg request legs requests Hleg _ IH]; intros order_legs;
    cbn [process_legs_from].
  - now rewrite app_nil_r.
  - rewrite (process_leg_valid _ _ Hleg). cbn [bind].
    rewrite IH, <- app_assoc. reflexivity.
Qed.

Lemma process_legs_accepts (legs : list dict) :
  forall order_legs result,
    process_legs_from order_legs legs = Return (inl result) ->
    exists requests,
      result = (order_legs ++ requests)%list /\ Forall2 valid_leg legs requests.
Proof.
  induction legs as [|leg legs IH]; intros order_legs result; cbn [process_legs_from].
  - intros H; inversion H; subst. exists []. rewrite app_nil_r. auto.
  - destruct (process_leg leg) as [[request | message] | e] eqn:Hleg;
      cbn [bind]; try discriminate.
    intros H. apply IH in H as (requests & -> & Hall).
    exists (request :: requests). rewrite <- app_assoc. split; [reflexivity |].
    constructor; [now apply process_leg_accepts | exact Hall].
Qed.

Lemma invalid_leg_rejected (leg : dict) (request : OptionLegRequest) :
  invalid_ratio_qty leg \/ invalid_leg_side leg -> ~ valid_leg leg request.
Proof.
  intros Hbad (Hsym & (side & Hside & Hname) & (v & Hv & Hint) & Hpos).
  destruct Hbad as [(v' & Hv' & Hbad) | (side' & Hside' & Hb & Hs)].
  - rewrite Hv in Hv'. inversion Hv'; subst v'.
    destruct Hbad as [Hnone | (n & Hn & Hle)]; rewrite Hint in *;
      [discriminate | inversion Hn; lia].
  - rewrite Hside in Hside'. inversion Hside'; subst side'.
    destruct Hname as [[H _] | [H _]]; congruence.
Qed.

Lemma order_side_of_spec (side : string) (order_side : OrderSide) :
  valid_side side order_side <-> order_side_of side = Some order_side.
Proof.
  unfold valid_side, order_side_of. cbv zeta. split.
  - intros [[-> ->] | [-> ->]]; reflexivity.
  - destruct (String.eqb (PyStr.lower side) "buy") eqn:Hb.
    + apply String.eqb_eq in Hb. intros H; inversion H. auto.
    + destruct (String.eqb (PyStr.lower side) "sell") eqn:Hs; [| discriminate].
      apply String.eqb_eq in Hs. intros H; inversion H. auto.
Qed.

Lemma tif_enum_of_spec (time_in_force : time_in_force_arg) (t : TimeInForce) :
  valid_time_in_force time_in_force t <-> tif_enum_of time_in_force = inl t.
Proof.
  unfold valid_time_in_force, tif_enum_of. split.
  - intros [-> | (text & -> & Hup)]; [reflexivity |].
    cbv zeta. rewrite Hup. destruct t; reflexivity.
  - destruct time_in_force as [t' | text | class]; [| | discriminate].
    + intros H; inversion H. auto.
    + cbv zeta. intros H. right. exists text. split; [reflexivity |].
      repeat match type of H with
             | (if String.eqb ?u ?name then _ else _) = _ =>
                 destruct (String.eqb u name) eqn:E;
                 [ apply String.eqb_eq in E; inversion H; subst; exact E
                 | clear E ]
             end.
      discriminate.
Qed.

(** The order type a string names, if any. *)
Definition order_type_of (order_type : string) : option OrderType :=
  find (fun type => String.eqb (PyStr.upper order_type) (OrderType_name type))
    [MARKET; LIMIT; STOP; STOP_LIMIT; TRAILING_STOP].

Lemma order_type_of_spec (order_type : string) (type : OrderType) :
  valid_order_type order_type type <-> order_type_of order_type = Some type.
Proof.
  unfold valid_order_type, order_type_of. split.
  - intros H. cbn [find]. rewrite H. destruct type; reflexivity.
  - intros H. apply find_some in H as [_ H]. now apply String.eqb_eq in H.
Qed.

(** ** The stock order tool *)

Section StockOrders.

Variable trade_client : OrderRequest -> outcome Order.
Variable now : Z.

(** The arguments that no check looks at. *)
Variable symbol : string.
Variable quantity : float.
Variable extended_hours : bool.
Variable client_order_id : option string.

(** The fields every stock request is built with. *)
Definition stock_fields (order_side : OrderSide) (type : OrderType) (t : TimeInForce)
  : OrderFields :=
  {| req_symbol := Some symbol;
     req_qty := Float quantity;
     req_side := Some order_side;
     req_type := type;
     req_time_in_force := t;
     req_extended_hours := extended_hours;
     req_client_order_id := client_order_id_or_default now client_order_id;
     req_order_class := None;
     req_legs := None |}.

(** What the builder returns once side, time in force and order type are
    recognised. *)
Definition built (order_side : OrderSide) (type : OrderType) (t : TimeInForce)
  (limit_price stop_price trail_price trail_percent : option float)
  : OrderRequest + string :=
  let common := stock_fields order_side type t in
  match type with
  | MARKET => inl (MarketOrderRequest common)
  | LIMIT =>
      match limit_price with
      | Some limit => inl (LimitOrderRequest common limit)
      | None => inr "limit_price is required for LIMIT orders."
      end
  | STOP =>
      match stop_price with
      | Some stop => inl (StopOrderRequest common stop)
      | None => inr "stop_price is required for STOP orders."
      end
  | STOP_LIMIT =>
      match stop_price, limit_price with
      | Some stop, Some limit => inl (StopLimitOrderRequest common stop limit)
      | _, _ => inr "Both stop_price and limit_price are required for STOP_LIMIT orders."
      end
  | TRAILING_STOP =>
      match trail_price, trail_percent with
      | None, None =>
          inr "Either trail_price or trail_percent is required for TRAILING_STOP orders."
      | Some _, Some _ =>
          inr "Error placing order: Both trail_percent and trail_price cannot be set."
      | _, _ => inl (TrailingStopOrderRequest common trail_price trail_percent)
      end
  end.

Lemma build_recognised
  (side order_type : string) (time_in_force : time_in_force_arg)
  (order_side : OrderSide) (type : OrderType) (t : TimeInForce)
  (limit_price stop_price trail_price trail_percent : option float) :
  valid_side side order_side ->
  valid_time_in_force time_in_force t ->
  valid_order_type order_type type ->
  build_order_request now symbol side quantity order_type time_in_force
    limit_price stop_price trail_price trail_percent extended_hours client_order_id
  = built order_side type t limit_price stop_price trail_price trail_percent.
Proof.
  intros Hside Htif Htype. unfold build_order_request, built, stock_fields.
  unfold valid_order_type in Htype. rewrite Htype.
  apply order_side_of_spec in Hside. apply tif_enum_of_spec in Htif.
  rewrite Hside, Htif.
  destruct type; try reflexivity. destruct trail_price, trail_percent; reflexivity.
Qed.

Lemma place_stock_order_run
  (side order_type : string) (time_in_force : time_in_force_arg)
  (limit_price stop_price trail_price trail_percent : option float) :
  run (place_stock_order trade_client now symbol side quantity order_type
         time_in_force limit_price stop_price trail_price trail_percent
         extended_hours client_order_id)
  = match
      build_order_request now symbol side quantity order_type time_in_force
        limit_price stop_price trail_price trail_percent extended_hours
        client_order_id
    with
    | inr message => (Return message, [])
    | inl order_data =>
        (Return match trade_client order_data with
                | Return order => stock_order_response order
                | Raise e => "Error placing order: " ++ exn_str e
                end,
         [order_data])
    end.
Proof.
  unfold run, place_stock_order, try_except, exec_bind, submit_order, ret.
  destruct (build_order_request _ _ _ _ _ _ _ _ _ _ _ _); [| reflexivity].
  cbn [app]. destruct (trade_client o); reflexivity.
Qed.

End StockOrders.

(** ** The option order tool *)

Section OptionOrders.

Variable trade_client : OrderRequest -> outcome Order.
Variable now : Z.
Variable OrderSide_format : OrderSide -> string.

(** The order class the tool works with once the argument is converted. *)
Definition resolved_class (converted : option OrderClass) (legs : list dict)
  : OrderClass :=
  match converted with
  | Some c => c
  | None => if (1 <? List.length legs)%nat then MLEG else SIMPLE
  end.

(** The [except] clauses always produce a string and submit nothing. *)
Lemma except_run (e : exn) (order_legs : list OptionLegRequest)
  (order_class : OrderClass) (log : list OrderRequest) :
  exists text,
    option_order_except e order_legs order_class log = (Return text, log).
Proof.
  destruct e as [text | class text]; cbn [option_order_except].
  - destruct (handle_total text order_legs order_class) as [result H].
    exists result. unfold lift. now rewrite H.
  - eexists. reflexivity.
Qed.

(** The run of the tool when the legs are accepted. *)
Lemma accepted_run
  (legs : list dict) (order_class : order_class_arg) (quantity : Z)
  (time_in_force : TimeInForce) (extended_hours : bool)
  (converted : option OrderClass) (order_legs : list OptionLegRequest)
  (order_data : OrderRequest) :
  _validate_option_order_inputs legs quantity time_in_force = None ->
  _convert_order_class_string order_class = inl converted ->
  _process_option_legs legs = Return (inl order_legs) ->
  _create_option_market_order_request now order_legs
    (resolved_class converted legs) quantity time_in_force extended_hours
  = Return order_data ->
  exists text,
    run (place_option_market_order trade_client now OrderSide_format legs
           order_class quantity time_in_force extended_hours)
    = (Return text, [order_data]).
Proof.
  intros Hv Hc Hp Hd. unfold run, place_option_market_order.
  rewrite Hv, Hc, Hp. fold (resolved_class converted legs).
  unfold try_except, exec_bind, lift, submit_order. rewrite Hd. cbn [app].
  destruct (trade_client order_data) as [order | e].
  - destruct (_format_option_order_response _ _ _ _) as [text | e].
    + eexists. reflexivity.
    + apply except_run.
  - apply except_run.
Qed.

(** The run of the tool when the legs are not accepted: nothing is
    submitted. *)
Lemma rejected_run
  (legs : list dict) (order_class : order_class_arg) (quantity : Z)
  (time_in_force : TimeInForce) (extended_hours : bool) :
  (forall converted order_legs,
      _validate_option_order_inputs legs quantity time_in_force = None ->
      _convert_order_class_string order_class = inl converted ->
      _process_option_legs legs <> Return (inl order_legs)) ->
  exists text,
    run (place_option_market_order trade_client now OrderSide_format legs
           order_class quantity time_in_force extended_hours)
    = (Return text, []).
Proof.
  intros H. unfold run, place_option_market_order.
  destruct (_validate_option_order_inputs legs quantity time_in_force) as [message|];
    [eexists; reflexivity |].
  destruct (_convert_order_class_string order_class) as [converted | message];
    [| eexists; reflexivity].
  specialize (H converted).
  destruct (_process_option_legs legs) as [[order_legs | message] | e].
  - exfalso. now apply (H order_legs).
  - eexists. reflexivity.
  - apply except_run.
Qed.

(** The request of an order class other than MLEG. *)
Lemma create_single
  (first : OptionLegRequest) (others : list OptionLegRequest)
  (order_class : OrderClass) (quantity : Z) (time_in_force : TimeInForce)
  (extended_hours : bool) :
  order_class <> MLEG ->
  _create_option_market_order_request now (first :: others) order_class quantity
    time_in_force extended_hours
  = Return (MarketOrderRequest
              {| req_symbol := Some (leg_symbol first);
                 req_qty := Int quantity;
                 req_side := Some (leg_side first);
                 req_type := MARKET;
                 req_time_in_force := time_in_force;
                 req_extended_hours := extended_hours;
                 req_client_order_id := "mcp_opt_" ++ PyStr.of_int now;
                 req_order_class := Some order_class;
                 req_legs := None |}).
Proof.
  intros H. unfold _create_option_market_order_request, MarketOrderRequest_init.
  destruct order_class; try reflexivity. congruence.
Qed.

(** The tool always returns a string. *)
Lemma place_option_total
  (legs : list dict) (order_class : order_class_arg) (quantity : Z)
  (time_in_force : TimeInForce) (extended_hours : bool) :
  exists text,
    fst (run (place_option_market_order trade_client now OrderSide_format legs
                order_class quantity time_in_force extended_hours))
    = Return text.
Proof.
  unfold run, place_option_market_order.
  destruct (_validate_option_order_inputs legs quantity time_in_force) as [message|];
    [eexists; reflexivity |].
  destruct (_convert_order_class_string order_class) as [converted | message];
    [| eexists; reflexivity].
  fold (resolved_class converted legs).
  destruct (_process_option_legs legs) as [[order_legs | message] | e].
  - unfold try_except, exec_bind, lift, submit_order.
    destruct (_create_option_market_order_request _ _ _ _ _ _) as [order_data | e].
    + destruct (trade_client order_data) as [order | e].
      * destruct (_format_option_order_response _ _ _ _) as [text | e].
        -- eexists. reflexivity.
        -- destruct (except_run e order_legs (resolved_class converted legs)
                       ([] ++ [order_data])%list) as [text ->].
           eexists. reflexivity.
      * destruct (except_run e order_legs (resolved_class converted legs)
                    ([] ++ [order_data])%list) as [text ->].
        eexists. reflexivity.
    + destruct (except_run e order_legs (resolved_class converted legs) [])
        as [text ->].
      eexists. reflexivity.
  - eexists. reflexivity.
  - destruct (except_run e [] (resolved_class converted legs) []) as [text ->].
    eexists. reflexivity.
Qed.

End OptionOrders.

(** ** The claims about the stock order builder *)

(** C3 (amended). With a recognised side and time in force: a LIMIT order
    without limit_price is refused with a message that names limit_price and
    no other price field; a STOP order without stop_price is refused with a
    message that names stop_price and no other price field; a STOP_LIMIT
    order without stop_price or without limit_price is refused with one
    message that names both fields, whichever is absent. Nothing is submitted
    in these cases. When the builder does build a request, its type is the
    requested order type and it is the request that is submitted. *)
Theorem C3_missing_price_fields :
  forall (trade_client : OrderRequest -> outcome Order) (now : Z)
         (symbol : string) (quantity : float) (extended_hours : bool)
         (client_order_id : option string)
         (side order_type : string) (time_in_force : time_in_force_arg)
         (order_side : OrderSide) (t : TimeInForce)
         (limit_price stop_price trail_price trail_percent : option float),
    valid_side side order_side ->
    valid_time_in_force time_in_force t ->
    let request :=
      build_order_request now symbol side quantity order_type time_in_force
        limit_price stop_price trail_price trail_percent extended_hours
        client_order_id in
    let tool :=
      run (place_stock_order trade_client now symbol side quantity order_type
             time_in_force limit_price stop_price trail_price trail_percent
             extended_hours client_order_id) in
    (valid_order_type order_type LIMIT -> limit_price = None ->
     tool = (Return "limit_price is required for LIMIT orders.", []))
    /\ (valid_order_type order_type STOP -> stop_price = None ->
        tool = (Return "stop_price is required for STOP orders.", []))
    /\ (valid_order_type order_type STOP_LIMIT ->
        stop_price = None \/ limit_price = None ->
        tool = (Return "Both stop_price and limit_price are required for STOP_LIMIT orders.",
                []))
    /\ (forall limit,
           valid_order_type order_type LIMIT -> limit_price = Some limit ->
           request
           = inl (LimitOrderRequest
                    (stock_fields now symbol quantity extended_hours client_order_id
                       order_side LIMIT t) limit))
    /\ (forall stop,
           valid_order_type order_type STOP -> stop_price = Some stop ->
           request
           = inl (StopOrderRequest
                    (stock_fields now symbol quantity extended_hours client_order_id
                       order_side STOP t) stop))
    /\ (forall stop limit,
           valid_order_type order_type STOP_LIMIT ->
           stop_price = Some stop -> limit_price = Some limit ->
           request
           = inl (StopLimitOrderRequest
                    (stock_fields now symbol quantity extended_hours client_order_id
                       order_side STOP_LIMIT t) stop limit))
    /\ (forall type order_data,
           valid_order_type order_type type -> request = inl order_data ->
           req_type (fields order_data) = type /\ snd tool = [order_data])
    /\ named_fields "limit_price is required for LIMIT orders." = ["limit_price"]
    /\ named_fields "stop_price is required for STOP orders." = ["stop_price"]
    /\ named_fields "Both stop_price and limit_price are required for STOP_LIMIT orders."
       = ["limit_price"; "stop_price"].
Proof.
  intros trade_client now symbol quantity extended_hours client_order_id
    side order_type time_in_force order_side t
    limit_price stop_price trail_price trail_percent Hside Htif request tool.
  assert (Hbuild : forall type,
             valid_order_type order_type type ->
             request = built now symbol quantity extended_hours client_order_id
                         order_side type t limit_price stop_price trail_price
                         trail_percent).
  { intros type Htype. now apply build_recognised. }
  assert (Htool : tool = match request with
                         | inr message => (Return message, [])
                         | inl order_data =>
                             (Return match trade_client order_data with
                                     | Return order => stock_order_response order
                                     | Raise e => "Error placing order: " ++ exn_str e
                                     end, [order_data])
                         end).
  { apply place_stock_order_run. }
  repeat match goal with |- _ /\ _ => split end.
  - intros Htype ->. rewrite Htool, (Hbuild _ Htype). reflexivity.
  - intros Htype ->. rewrite Htool, (Hbuild _ Htype). reflexivity.
  - intros Htype Hnone. rewrite Htool, (Hbuild _ Htype).
    destruct Hnone as [-> | ->]; [| destruct stop_price]; reflexivity.
  - intros limit Htype ->. now rewrite (Hbuild _ Htype).
  - intros stop Htype ->. now rewrite (Hbuild _ Htype).
  - intros stop limit Htype -> ->. now rewrite (Hbuild _ Htype).
  - intros type order_data Htype Hreq. rewrite Htool, Hreq. split; [| reflexivity].
    rewrite (Hbuild _ Htype) in Hreq. unfold built in Hreq.
    destruct type, limit_price, stop_price, trail_price, trail_percent;
      inversion Hreq; reflexivity.
  - reflexivity.
  - reflexivity.
  - reflexivity.
Qed.

Lemma C3_missing_price_fields_witness :
  run (place_stock_order (fun _ => Raise (APIError "")) 0 "AAPL" "buy" 1%float
         "limit" (TifStr "day") None None None None false None)
  = (Return "limit_price is required for LIMIT orders.", []).
Proof.
  apply (C3_missing_price_fields (fun _ => Raise (APIError "")) 0 "AAPL" 1%float
           false None "buy" "limit" (TifStr "day") BUY DAY None None None None).
  - left. split; reflexivity.
  - right. exists "day". split; reflexivity.
  - reflexivity.
  - reflexivity.
Defined.

(** C3 as stated fails for a STOP_LIMIT order: here stop_price is supplied
    and limit_price alone is absent, and the message names stop_price as
    well. *)
Lemma C3_stop_limit_names_both_fields :
  exists message,
    build_order_request 0 "AAPL" "buy" 1%float "STOP_LIMIT" (TifStr "day")
      None (Some 10%float) None None false None
    = inr message
    /\ named_fields message = ["limit_price"; "stop_price"]
    /\ named_fields message <> ["limit_price"].
Proof.
  eexists. split; [reflexivity |]. split; [reflexivity | discriminate].
Qed.

(** C6 (amended). With a recognised side and time in force, a TRAILING_STOP
    order is refused with the validation message of the tool exactly when
    neither trail_price nor trail_percent is supplied. With both supplied
    the order fails as well: the constructor of the request raises, the
    tool returns a message that begins with [Error placing order: ], and
    nothing is submitted. With exactly one of the two supplied the builder
    builds a TRAILING_STOP request that carries the supplied value, and
    that request is submitted. So the call fails exactly when the number of
    trail fields supplied is not one. *)
Theorem C6_trailing_stop :
  forall (trade_client : OrderRequest -> outcome Order) (now : Z)
         (symbol : string) (quantity : float) (extended_hours : bool)
         (client_order_id : option string)
         (side order_type : string) (time_in_force : time_in_force_arg)
         (order_side : OrderSide) (t : TimeInForce)
         (limit_price stop_price trail_price trail_percent : option float),
    valid_side side order_side ->
    valid_time_in_force time_in_force t ->
    valid_order_type order_type TRAILING_STOP ->
    let request :=
      build_order_request now symbol side quantity order_type time_in_force
        limit_price stop_price trail_price trail_percent extended_hours
        client_order_id in
    let tool :=
      run (place_stock_order trade_client now symbol side quantity order_type
             time_in_force limit_price stop_price trail_price trail_percent
             extended_hours client_order_id) in
    let order_data :=
      TrailingStopOrderRequest
        (stock_fields now symbol quantity extended_hours client_order_id
           order_side TRAILING_STOP t) trail_price trail_percent in
    (request
     = inr "Either trail_price or trail_percent is required for TRAILING_STOP orders."
     <-> trail_price = None /\ trail_percent = None)
    /\ (trail_price = None /\ trail_percent = None ->
        tool = (Return "Either trail_price or trail_percent is required for TRAILING_STOP orders.",
                []))
    /\ (trail_price <> None /\ trail_percent <> None ->
        exists text,
          request = inr ("Error placing order: " ++ text)
          /\ tool = (Return ("Error placing order: " ++ text), []))
    /\ ((trail_price = None /\ trail_percent <> None)
        \/ (trail_price <> None /\ trail_percent = None) ->
        request = inl order_data
        /\ req_type (fields order_data) = TRAILING_STOP
        /\ snd tool = [order_data])
    /\ ((exists message, request = inr message)
        <-> (trail_price = None <-> trail_percent = None)).
Proof.
  intros trade_client now symbol quantity extended_hours client_order_id
    side order_type time_in_force order_side t
    limit_price stop_price trail_price trail_percent Hside Htif Htype
    request tool order_data.
  assert (Hreq : request = built now symbol quantity extended_hours client_order_id
                             order_side TRAILING_STOP t limit_price stop_price
                             trail_price trail_percent)
    by (now apply build_recognised).
  assert (Htool : tool = match request with
                         | inr message => (Return message, [])
                         | inl order_data =>
                             (Return match trade_client order_data with
                                     | Return order => stock_order_response order
                                     | Raise e => "Error placing order: " ++ exn_str e
                                     end, [order_data])
                         end)
    by apply place_stock_order_run.
  rewrite Htool, Hreq. unfold built. subst order_data.
  destruct trail_price as [price|], trail_percent as [percent|].
  - split; [split; [discriminate | intros [H _]; discriminate] |].
    split; [intros [H _]; discriminate |].
    split; [intros _; eexists; split; reflexivity |].
    split; [intros [[H _] | [_ H]]; discriminate |].
    split; [intros _; split; discriminate | intros _; eexists; reflexivity].
  - split; [split; [discriminate | intros [H _]; discriminate] |].
    split; [intros [H _]; discriminate |].
    split; [intros [_ H]; congruence |].
    split; [intros _; repeat split |].
    split; [intros [message H]; discriminate | intros [_ H]; discriminate (H eq_refl)].
  - split; [split; [discriminate | intros [_ H]; discriminate] |].
    split; [intros [_ H]; discriminate |].
    split; [intros [H _]; congruence |].
    split; [intros _; repeat split |].
    split; [intros [message H]; discriminate | intros [H _]; discriminate (H eq_refl)].
  - split; [split; [auto | reflexivity] |].
    split; [reflexivity |].
    split; [intros [H _]; congruence |].
    split; [intros [[_ H] | [H _]]; congruence |].
    split; [intros _; split; reflexivity | intros _; eexists; reflexivity].
Qed.

Lemma C6_trailing_stop_witness :
  snd (run (place_stock_order (fun _ => Raise (APIError "")) 0 "AAPL" "sell" 1%float
              "trailing_stop" (TifStr "gtc") None None None (Some 1%float)
              false None))
  = [TrailingStopOrderRequest
       (stock_fields 0 "AAPL" 1%float false None SELL TRAILING_STOP GTC)
       None (Some 1%float)].
Proof.
  apply (C6_trailing_stop (fun _ => Raise (APIError "")) 0 "AAPL" 1%float
           false None "sell" "trailing_stop" (TifStr "gtc") SELL GTC None None
           None (Some 1%float)).
  - right. split; reflexivity.
  - right. exists "gtc". split; reflexivity.
  - reflexivity.
  - left. split; [reflexivity | discriminate].
Defined.

(** C6 as stated fails when both trail fields are supplied: no request is
    built, nothing is submitted, and the tool returns a failure message. *)
Lemma C6_both_trail_fields_fail :
  exists text,
    build_order_request 0 "AAPL" "sell" 1%float "trailing_stop" (TifStr "gtc")
      None None (Some 2%float) (Some 1%float) false None
    = inr ("Error placing order: " ++ text)
    /\ run (place_stock_order
              (fun _ => Return (mkOrder "" "" "" "" "" "" "" "" "" "" "" None None []))
              0 "AAPL"
              "sell" 1%float "trailing_stop" (TifStr "gtc") None None
              (Some 2%float) (Some 1%float) false None)
       = (Return ("Error placing order: " ++ text), []).
Proof.
  eexists. split; reflexivity.
Qed.

(** ** The claims about the option order tool *)

Lemma validate_too_many (legs : list dict) (quantity : Z) (time_in_force : TimeInForce) :
  (4 < List.length legs)%nat ->
  _validate_option_order_inputs legs quantity time_in_force
  = Some "Error: Maximum of 4 legs allowed for option orders".
Proof.
  intros H. unfold _validate_option_order_inputs.
  destruct legs as [|leg legs]; [simpl in H; lia |].
  replace (4 <? List.length (leg :: legs))%nat with true
    by (symmetry; now apply Nat.ltb_lt).
  reflexivity.
Qed.

Lemma validate_passes (legs : list dict) (quantity : Z) :
  legs <> [] -> (List.length legs <= 4)%nat -> 0 < quantity ->
  _validate_option_order_inputs legs quantity DAY = None.
Proof.
  intros Hne Hlen Hq. unfold _validate_option_order_inputs.
  destruct legs as [|leg legs]; [congruence |].
  replace (4 <? List.length (leg :: legs))%nat with false
    by (symmetry; now apply Nat.ltb_ge).
  replace (quantity <=? 0) with false by (symmetry; apply Z.leb_gt; lia).
  reflexivity.
Qed.

(** C5. With more than 4 legs the validator refuses the order whatever the
    other arguments are, and the tool returns that message without
    submitting anything. With exactly 4 legs that each hold a string symbol,
    a side name and a positive integer ratio, a positive quantity and DAY,
    the validator passes and the leg processor returns exactly 4 leg
    requests, the i-th built from the i-th leg. *)
Theorem C5_leg_count :
  (forall (trade_client : OrderRequest -> outcome Order) (now : Z)
          (OrderSide_format : OrderSide -> string)
          (legs : list dict) (order_class : order_class_arg) (quantity : Z)
          (time_in_force : TimeInForce) (extended_hours : bool),
      (4 < List.length legs)%nat ->
      _validate_option_order_inputs legs quantity time_in_force
      = Some "Error: Maximum of 4 legs allowed for option orders"
      /\ run (place_option_market_order trade_client now OrderSide_format legs
                order_class quantity time_in_force extended_hours)
         = (Return "Error: Maximum of 4 legs allowed for option orders", []))
  /\ (forall (legs : list dict) (requests : list OptionLegRequest) (quantity : Z),
         List.length legs = 4%nat ->
         Forall2 valid_leg legs requests ->
         0 < quantity ->
         _validate_option_order_inputs legs quantity DAY = None
         /\ _process_option_legs legs = Return (inl requests)
         /\ List.length requests = 4%nat).
Proof.
  split.
  - intros trade_client now OrderSide_format legs order_class quantity
      time_in_force extended_hours Hlen.
    pose proof (validate_too_many legs quantity time_in_force Hlen) as Hv.
    split; [exact Hv |]. unfold run, place_option_market_order. now rewrite Hv.
  - intros legs requests quantity Hlen Hall Hq. split; [| split].
    + apply validate_passes; [intros -> | lia | exact Hq]. discriminate.
    + unfold _process_option_legs. now rewrite (process_legs_valid _ _ Hall).
    + rewrite <- Hlen. symmetry. eapply Forall2_length. exact Hall.
Qed.

(** A leg dictionary as the caller writes it. *)
Definition leg_of (symbol side : string) (ratio_qty : pyval) : dict :=
  [ ("symbol", PyStr symbol); ("side", PyStr side); ("ratio_qty", ratio_qty) ].

Lemma leg_of_valid (symbol side : string) (order_side : OrderSide) (n : Z) :
  valid_side side order_side -> 0 < n ->
  valid_leg (leg_of symbol side (PyInt n)) (mkOptionLegRequest symbol order_side n).
Proof.
  intros Hside Hn. unfold valid_leg, leg_of. cbn.
  repeat split; eauto.
Qed.

Lemma C5_leg_count_witness :
  _process_option_legs
    [ leg_of "TSLA230616C00150000" "buy" (PyInt 1);
      leg_of "TSLA230616C00160000" "sell" (PyInt 2);
      leg_of "TSLA230616P00140000" "Sell" (PyInt 2);
      leg_of "TSLA230616P00130000" "BUY" (PyInt 1) ]
  = Return (inl [ mkOptionLegRequest "TSLA230616C00150000" BUY 1;
                  mkOptionLegRequest "TSLA230616C00160000" SELL 2;
                  mkOptionLegRequest "TSLA230616P00140000" SELL 2;
                  mkOptionLegRequest "TSLA230616P00130000" BUY 1 ])
  /\ fst (run (place_option_market_order (fun _ => Raise (APIError "")) 0
                 (fun _ => "")
                 (repeat (leg_of "TSLA230616C00150000" "buy" (PyInt 1)) 5)
                 ClassNone 1 DAY false))
     = Return "Error: Maximum of 4 legs allowed for option orders".
Proof.
  destruct C5_leg_count as [Hmany Hfour]. split.
  - apply (Hfour _ _ 1); [reflexivity | | lia].
    repeat constructor; apply leg_of_valid;
      try lia; (left + right); split; reflexivity.
  - destruct (Hmany (fun _ => Raise (APIError "")) 0 (fun _ => "")
                (repeat (leg_of "TSLA230616C00150000" "buy" (PyInt 1)) 5)
                ClassNone 1 DAY false) as [_ H].
    + simpl. lia.
    + rewrite H. reflexivity.
Defined.

(** C7 (the input on which the code departs from the claim). A leg with
    ratio_qty 5 is accepted by the leg processor. *)
Theorem C7_ratio_above_four_accepted :
  _process_option_legs [ leg_of "AAPL230616C00150000" "buy" (PyInt 5) ]
  = Return (inl [ mkOptionLegRequest "AAPL230616C00150000" BUY 5 ]).
Proof. reflexivity. Qed.

(** What the leg processor does ensure: every accepted leg has a positive
    integer ratio, and a leg whose ratio is not an integer or is not positive
    is refused with a message naming its symbol when the legs before it are
    valid. *)
Lemma accepted_ratio_positive (legs : list dict) (requests : list OptionLegRequest) :
  _process_option_legs legs = Return (inl requests) ->
  Forall (fun request => 0 < leg_ratio_qty request) requests.
Proof.
  intros H. apply process_legs_accepts in H as (result & -> & Hall). simpl.
  induction Hall as [|leg request legs' requests' Hleg _ IH]; constructor; auto.
  now destruct Hleg as (_ & _ & _ & Hpos).
Qed.

Lemma bad_ratio_refused
  (before : list dict) (requests : list OptionLegRequest)
  (leg : dict) (rest : list dict) (symbol : pyval) :
  Forall2 valid_leg before requests ->
  invalid_ratio_qty leg ->
  dict_get leg "symbol" = Some symbol ->
  _process_option_legs (before ++ leg :: rest)%list
  = Return (inr ("Error: Invalid ratio_qty for leg " ++ py_str symbol ++
                 ". Must be positive integer.")).
Proof.
  intros Hbefore (v & Hv & Hbad) Hsym. unfold _process_option_legs.
  generalize (@nil OptionLegRequest).
  induction Hbefore as [|l r ls rs Hl _ IH]; intros order_legs; cbn [app process_legs_from].
  - unfold process_leg, getitem. rewrite Hv. cbn [bind].
    destruct Hbad as [-> | (n & -> & Hn)].
    + now rewrite Hsym.
    + replace (n <=? 0) with true by (symmetry; now apply Z.leb_le).
      now rewrite Hsym.
  - rewrite (process_leg_valid _ _ Hl). cbn [bind]. apply IH.
Qed.

Lemma validate_none (legs : list dict) (quantity : Z) (time_in_force : TimeInForce) :
  _validate_option_order_inputs legs quantity time_in_force = None ->
  legs <> [] /\ (List.length legs <= 4)%nat /\ 0 < quantity /\ time_in_force = DAY.
Proof.
  unfold _validate_option_order_inputs.
  destruct legs as [|leg legs]; [discriminate |].
  destruct (4 <? List.length (leg :: legs))%nat eqn:Hlen; [discriminate |].
  destruct (quantity <=? 0) eqn:Hq; [discriminate |].
  destruct time_in_force; try discriminate. intros _.
  apply Nat.ltb_ge in Hlen. apply Z.leb_gt in Hq. repeat split; auto. discriminate.
Qed.

Lemma Forall2_In_left {A B : Type} (R : A -> B -> Prop) (l : list A) (l' : list B) (x : A) :
  Forall2 R l l' -> In x l -> exists y, R x y.
Proof.
  induction 1 as [|a b l l' Hab _ IH]; intros Hin; [contradiction |].
  destruct Hin as [-> | Hin]; eauto.
Qed.

(** One of the checks of the option tool fails. *)
Definition option_check_fails
  (legs : list dict) (order_class : order_class_arg) (quantity : Z)
  (time_in_force : TimeInForce) : Prop :=
  legs = []
  \/ (4 < List.length legs)%nat
  \/ quantity <= 0
  \/ time_in_force <> DAY
  \/ (exists text,
         order_class = ClassStr text
         /\ dict_get class_mapping (PyStr.upper text) = None)
  \/ (exists leg, In leg legs /\ (invalid_ratio_qty leg \/ invalid_leg_side leg)).

(** One of the checks of the stock tool fails. *)
Definition stock_check_fails
  (side order_type : string) (time_in_force : time_in_force_arg)
  (limit_price stop_price trail_price trail_percent : option float) : Prop :=
  (forall order_side, ~ valid_side side order_side)
  \/ (forall t, ~ valid_time_in_force time_in_force t)
  \/ (forall type, ~ valid_order_type order_type type)
  \/ (valid_order_type order_type LIMIT /\ limit_price = None)
  \/ (valid_order_type order_type STOP /\ stop_price = None)
  \/ (valid_order_type order_type STOP_LIMIT
      /\ (stop_price = None \/ limit_price = None))
  \/ (valid_order_type order_type TRAILING_STOP
      /\ trail_price = None /\ trail_percent = None).

(** The builder returns a message, or it has recognised the side, the time
    in force and the order type. *)
Lemma build_shape
  (now : Z) (symbol side : string) (quantity : float) (order_type : string)
  (time_in_force : time_in_force_arg)
  (limit_price stop_price trail_price trail_percent : option float)
  (extended_hours : bool) (client_order_id : option string) :
  (exists message,
      build_order_request now symbol side quantity order_type time_in_force
        limit_price stop_price trail_price trail_percent extended_hours
        client_order_id = inr message)
  \/ (exists order_side t type,
         valid_side side order_side
         /\ valid_time_in_force time_in_force t
         /\ valid_order_type order_type type).
Proof.
  unfold build_order_request.
  destruct (order_side_of side) as [order_side|] eqn:Hs;
    [| left; eexists; reflexivity].
  destruct (tif_enum_of time_in_force) as [t | message] eqn:Ht;
    [| left; eexists; reflexivity].
  destruct (order_type_of order_type) as [type|] eqn:Hty.
  - right. exists order_side, t, type.
    now rewrite order_side_of_spec, tif_enum_of_spec, order_type_of_spec.
  - left. pose proof (find_none _ _ Hty) as Hn. cbv beta in Hn.
    assert (E1 : String.eqb (PyStr.upper order_type) "MARKET" = false)
      by (apply (Hn MARKET); simpl; tauto).
    assert (E2 : String.eqb (PyStr.upper order_type) "LIMIT" = false)
      by (apply (Hn LIMIT); simpl; tauto).
    assert (E3 : String.eqb (PyStr.upper order_type) "STOP" = false)
      by (apply (Hn STOP); simpl; tauto).
    assert (E4 : String.eqb (PyStr.upper order_type) "STOP_LIMIT" = false)
      by (apply (Hn STOP_LIMIT); simpl; tauto).
    assert (E5 : String.eqb (PyStr.upper order_type) "TRAILING_STOP" = false)
      by (apply (Hn TRAILING_STOP); simpl; tauto).
    cbv zeta. rewrite E1, E2, E3, E4, E5. eexists. reflexivity.
Qed.

Lemma valid_order_type_unique (order_type : string) (a b : OrderType) :
  valid_order_type order_type a -> valid_order_type order_type b -> a = b.
Proof.
  unfold valid_order_type. intros Ha Hb. rewrite Ha in Hb.
  destruct a, b; try reflexivity; discriminate.
Qed.

Lemma build_refuses
  (now : Z) (symbol side : string) (quantity : float) (order_type : string)
  (time_in_force : time_in_force_arg)
  (limit_price stop_price trail_price trail_percent : option float)
  (extended_hours : bool) (client_order_id : option string) :
  stock_check_fails side order_type time_in_force limit_price stop_price
    trail_price trail_percent ->
  exists message,
    build_order_request now symbol side quantity order_type time_in_force
      limit_price stop_price trail_price trail_percent extended_hours
      client_order_id = inr message.
Proof.
  intros Hfail.
  destruct (build_shape now symbol side quantity order_type time_in_force
              limit_price stop_price trail_price trail_percent extended_hours
              client_order_id)
    as [H | (order_side & t & type & Hside & Htif & Htype)]; [exact H |].
  rewrite (build_recognised now symbol quantity extended_hours client_order_id
             side order_type time_in_force order_side type t
             limit_price stop_price trail_price trail_percent Hside Htif Htype).
  unfold built.
  destruct Hfail as [H | [H | [H | [[H ->] | [[H ->] | [[H Hnone] | [H [-> ->]]]]]]]].
  - exfalso. apply (H order_side Hside).
  - exfalso. apply (H t Htif).
  - exfalso. apply (H type Htype).
  - rewrite (valid_order_type_unique _ _ _ Htype H). eexists. reflexivity.
  - rewrite (valid_order_type_unique _ _ _ Htype H). eexists. reflexivity.
  - rewrite (valid_order_type_unique _ _ _ Htype H).
    destruct Hnone as [-> | ->]; [| destruct stop_price]; eexists; reflexivity.
  - rewrite (valid_order_type_unique _ _ _ Htype H). eexists. reflexivity.
Qed.

(** C9. When a check of the stock tool fails (side, time in force or order
    type not recognised, or a price field the order type requires absent),
    and when a check of the option tool fails (no leg, more than 4 legs,
    quantity not positive, time in force other than DAY, order class string
    not recognised, a leg whose ratio is not a positive integer or whose side
    names neither side), the tool returns a string and the log of requests
    submitted to the trading client is empty. *)
Theorem C9_no_submission_on_invalid_input :
  (forall (trade_client : OrderRequest -> outcome Order) (now : Z)
          (symbol side : string) (quantity : float) (order_type : string)
          (time_in_force : time_in_force_arg)
          (limit_price stop_price trail_price trail_percent : option float)
          (extended_hours : bool) (client_order_id : option string),
      stock_check_fails side order_type time_in_force limit_price stop_price
        trail_price trail_percent ->
      exists message,
        run (place_stock_order trade_client now symbol side quantity order_type
               time_in_force limit_price stop_price trail_price trail_percent
               extended_hours client_order_id)
        = (Return message, []))
  /\ (forall (trade_client : OrderRequest -> outcome Order) (now : Z)
             (OrderSide_format : OrderSide -> string)
             (legs : list dict) (order_class : order_class_arg) (quantity : Z)
             (time_in_force : TimeInForce) (extended_hours : bool),
         option_check_fails legs order_class quantity time_in_force ->
         exists message,
           run (place_option_market_order trade_client now OrderSide_format legs
                  order_class quantity time_in_force extended_hours)
           = (Return message, [])).
Proof.
  split.
  - intros trade_client now symbol side quantity order_type time_in_force
      limit_price stop_price trail_price trail_percent extended_hours
      client_order_id Hfail.
    destruct (build_refuses now symbol side quantity order_type time_in_force
                limit_price stop_price trail_price trail_percent extended_hours
                client_order_id Hfail) as [message H].
    exists message. rewrite place_stock_order_run, H. reflexivity.
  - intros trade_client now OrderSide_format legs order_class quantity
      time_in_force extended_hours Hfail.
    apply rejected_run. intros converted order_legs Hv Hc Hp.
    apply validate_none in Hv as (Hne & Hlen & Hq & Htif).
    destruct Hfail as [H | [H | [H | [H | [(text & -> & H) | (leg & Hin & Hbad)]]]]];
      try contradiction; try lia.
    + unfold _convert_order_class_string in Hc. rewrite H in Hc. discriminate.
    + apply process_legs_accepts in Hp as (requests & _ & Hall).
      destruct (Forall2_In_left _ _ _ _ Hall Hin) as [request Hvalid].
      exact (invalid_leg_rejected leg request Hbad Hvalid).
Qed.

Lemma C9_no_submission_on_invalid_input_witness :
  snd (run (place_stock_order (fun _ => Return (mkOrder "" "" "" "" "" "" "" "" "" "" "" None None []))
              0 "AAPL" "buy" 1%float "limit" (TifStr "day") None None None None
              false None))
  = []
  /\ snd (run (place_option_market_order
                 (fun _ => Return (mkOrder "" "" "" "" "" "" "" "" "" "" "" None None []))
                 0 (fun _ => "")
                 [ leg_of "TSLA230616C00150000" "buy" (PyInt 1);
                   leg_of "TSLA230616C00160000" "sell" (PyInt 0) ]
                 ClassNone 1 DAY false))
     = [].
Proof.
  destruct C9_no_submission_on_invalid_input as [Hstock Hoption]. split.
  - destruct (Hstock (fun _ => Return (mkOrder "" "" "" "" "" "" "" "" "" "" "" None None []))
                0 "AAPL" "buy" 1%float "limit" (TifStr "day") None None None None
                false None) as [message H].
    + right. right. right. left. split; reflexivity.
    + rewrite H. reflexivity.
  - destruct (Hoption (fun _ => Return (mkOrder "" "" "" "" "" "" "" "" "" "" "" None None []))
                0 (fun _ => "")
                [ leg_of "TSLA230616C00150000" "buy" (PyInt 1);
                  leg_of "TSLA230616C00160000" "sell" (PyInt 0) ]
                ClassNone 1 DAY false) as [message H].
    + do 5 right. exists (leg_of "TSLA230616C00160000" "sell" (PyInt 0)).
      split; [simpl; tauto |]. left. exists (PyInt 0).
      split; [reflexivity |]. right. exists 0. split; [reflexivity | lia].
    + rewrite H. reflexivity.
Defined.

(** How the failure messages begin. *)
Lemma tif_message (time_in_force : time_in_force_arg) (message : string) :
  tif_enum_of time_in_force = inr message ->
  prefix "Invalid time_in_force" message = true.
Proof.
  unfold tif_enum_of. destruct time_in_force as [t | text | class]; cbv zeta.
  - discriminate.
  - repeat match goal with
           | |- context [if ?b then _ else _] => destruct b; [discriminate |]
           end.
    intros H; inversion H; reflexivity.
  - intros H; inversion H; reflexivity.
Qed.

Lemma build_message
  (now : Z) (symbol side : string) (quantity : float) (order_type : string)
  (time_in_force : time_in_force_arg)
  (limit_price stop_price trail_price trail_percent : option float)
  (extended_hours : bool) (client_order_id : option string) (message : string) :
  build_order_request now symbol side quantity order_type time_in_force
    limit_price stop_price trail_price trail_percent extended_hours
    client_order_id = inr message ->
  prefix "Error:" message = false.
Proof.
  unfold build_order_request.
  destruct (order_side_of side) as [order_side|];
    [| intros H; inversion H; reflexivity].
  destruct (tif_enum_of time_in_force) as [t | tif_text] eqn:Ht.
  - cbv zeta.
    unfold TrailingStopOrderRequest_init.
    repeat match goal with
           | |- context [match ?x with _ => _ end] => destruct x
           end;
      try discriminate; intros H; inversion H; reflexivity.
  - intros H; inversion H; subst. apply tif_message in Ht.
    destruct message as [|c message]; [discriminate |].
    cbn [prefix] in *. destruct (ascii_dec "I" c) as [<- |]; [reflexivity | discriminate].
Qed.

Lemma process_leg_message (leg : dict) (message : string) :
  process_leg leg = Return (inr message) ->
  prefix "Error: Invalid ratio_qty for leg " message = true
  \/ prefix "Invalid order side: " message = true.
Proof.
  unfold process_leg.
  destruct (getitem leg "ratio_qty") as [ratio_qty | e]; cbn [bind]; [| discriminate].
  destruct (as_int ratio_qty) as [n|].
  - destruct (n <=? 0).
    + destruct (getitem leg "symbol") as [symbol | e]; cbn [bind]; [| discriminate].
      intros H; inversion H; subst. left.
      apply (PyStrFacts.prefix_app "Error: Invalid ratio_qty for leg ").
    + destruct (getitem leg "side") as [side | e]; cbn [bind]; [| discriminate].
      destruct (py_lower side) as [side_lower | e]; cbn [bind]; [| discriminate].
      destruct (String.eqb side_lower "buy");
        [| destruct (String.eqb side_lower "sell")].
      * destruct (getitem leg "symbol") as [symbol | e]; cbn [bind]; [| discriminate].
        destruct (OptionLegRequest_init symbol BUY n); cbn [bind]; discriminate.
      * destruct (getitem leg "symbol") as [symbol | e]; cbn [bind]; [| discriminate].
        destruct (OptionLegRequest_init symbol SELL n); cbn [bind]; discriminate.
      * intros H; inversion H; subst. right.
        apply (PyStrFacts.prefix_app "Invalid order side: ").
  - destruct (getitem leg "symbol") as [symbol | e]; cbn [bind]; [| discriminate].
    intros H; inversion H; subst. left.
      apply (PyStrFacts.prefix_app "Error: Invalid ratio_qty for leg ").
Qed.

Lemma process_legs_message (legs : list dict) (message : string) :
  _process_option_legs legs = Return (inr message) ->
  prefix "Error: Invalid ratio_qty for leg " message = true
  \/ prefix "Invalid order side: " message = true.
Proof.
  unfold _process_option_legs. generalize (@nil OptionLegRequest).
  induction legs as [|leg legs IH]; intros order_legs; cbn [process_legs_from];
    [discriminate |].
  destruct (process_leg leg) as [[request | text] | e] eqn:E; cbn [bind].
  - apply IH.
  - intros H; inversion H; subst. now apply process_leg_message in E.
  - discriminate.
Qed.

Lemma except_message
  (e : exn) (order_legs : list OptionLegRequest)
  (order_class : OrderClass) (log log' : list OrderRequest) (text : string) :
  option_order_except e order_legs order_class log = (Return text, log') ->
  prefix newline text = true /\ prefix "Error:" text = false.
Proof.
  destruct e as [error_message | class error_text]; cbn [option_order_except].
  - unfold lift, _handle_option_api_error.
    destruct (PyStr.contains "40310000" error_message
              && PyStr.contains "not eligible to trade uncovered option contracts"
                   error_message).
    + destruct (_analyze_option_strategy_type order_legs order_class)
        as [[[straddle strangle] calendar] | e]; cbn [bind]; [| discriminate].
      destruct straddle, strangle, calendar;
        intros H; inversion H; split; reflexivity.
    + destruct (PyStr.contains "403" error_message);
        intros H; inversion H; split; reflexivity.
  - unfold ret. intros H; inversion H; split; reflexivity.
Qed.

(** C8 (amended). Both order tools return a string on every input and never
    let an exception out: a refused input, an error raised while the request
    is built, an error raised by the trading client and any other exception
    all end in a returned string. The failure strings do not all begin with
    [Error:]. Those of the input checks of the option tool (no leg, more
    than 4 legs, quantity not positive, time in force other than DAY) do,
    and a leg the leg processor refuses is answered with a message that
    begins with [Error: Invalid ratio_qty for leg ] or with
    [Invalid order side: ]; an order class string that is not recognised is
    answered with a message that begins with [Invalid order class: ]; the
    strings the [except] clauses of the option tool return begin with a
    line break. No failure string of the stock tool begins with [Error:]:
    a stock order refused before the submission is answered with the
    message of the builder, and one the client refuses with
    [Error placing order: ] followed by the text of the error. *)
Theorem C8_failures_are_returned :
  (forall (trade_client : OrderRequest -> outcome Order) (now : Z)
          (symbol side : string) (quantity : float) (order_type : string)
          (time_in_force : time_in_force_arg)
          (limit_price stop_price trail_price trail_percent : option float)
          (extended_hours : bool) (client_order_id : option string),
      exists text,
        fst (run (place_stock_order trade_client now symbol side quantity
                    order_type time_in_force limit_price stop_price trail_price
                    trail_percent extended_hours client_order_id))
        = Return text)
  /\ (forall (trade_client : OrderRequest -> outcome Order) (now : Z)
             (OrderSide_format : OrderSide -> string)
             (legs : list dict) (order_class : order_class_arg) (quantity : Z)
             (time_in_force : TimeInForce) (extended_hours : bool),
         exists text,
           fst (run (place_option_market_order trade_client now OrderSide_format
                       legs order_class quantity time_in_force extended_hours))
           = Return text)
  /\ (forall (legs : list dict) (quantity : Z) (time_in_force : TimeInForce)
             (message : string),
         _validate_option_order_inputs legs quantity time_in_force = Some message ->
         prefix "Error:" message = true)
  /\ (forall (trade_client : OrderRequest -> outcome Order) (now : Z)
             (symbol side : string) (quantity : float) (order_type : string)
             (time_in_force : time_in_force_arg)
             (limit_price stop_price trail_price trail_percent : option float)
             (extended_hours : bool) (client_order_id : option string)
             (order_data : OrderRequest) (e : exn),
         build_order_request now symbol side quantity order_type time_in_force
           limit_price stop_price trail_price trail_percent extended_hours
           client_order_id = inl order_data ->
         trade_client order_data = Raise e ->
         fst (run (place_stock_order trade_client now symbol side quantity
                     order_type time_in_force limit_price stop_price trail_price
                     trail_percent extended_hours client_order_id))
         = Return ("Error placing order: " ++ exn_str e)
         /\ prefix "Error:" ("Error placing order: " ++ exn_str e) = false)
  /\ (forall (trade_client : OrderRequest -> outcome Order) (now : Z)
             (symbol side : string) (quantity : float) (order_type : string)
             (time_in_force : time_in_force_arg)
             (limit_price stop_price trail_price trail_percent : option float)
             (extended_hours : bool) (client_order_id : option string)
             (message : string),
         build_order_request now symbol side quantity order_type time_in_force
           limit_price stop_price trail_price trail_percent extended_hours
           client_order_id = inr message ->
         run (place_stock_order trade_client now symbol side quantity
                order_type time_in_force limit_price stop_price trail_price
                trail_percent extended_hours client_order_id)
         = (Return message, [])
         /\ prefix "Error:" message = false)
  /\ (forall (legs : list dict) (message : string),
         _process_option_legs legs = Return (inr message) ->
         prefix "Error: Invalid ratio_qty for leg " message = true
         \/ prefix "Invalid order side: " message = true)
  /\ (forall (order_class : order_class_arg) (message : string),
         _convert_order_class_string order_class = inr message ->
         prefix "Invalid order class: " message = true)
  /\ (forall (e : exn) (order_legs : list OptionLegRequest)
             (order_class : OrderClass) (log log' : list OrderRequest)
             (text : string),
         option_order_except e order_legs order_class log = (Return text, log') ->
         prefix newline text = true /\ prefix "Error:" text = false).
Proof.
  split; [| split; [| split; [| split; [| split; [| split; [| split]]]]]].
  - intros. rewrite place_stock_order_run.
    destruct (build_order_request _ _ _ _ _ _ _ _ _ _ _ _); eexists; reflexivity.
  - intros. apply place_option_total.
  - intros legs quantity time_in_force message.
    unfold _validate_option_order_inputs.
    destruct legs as [|leg legs]; [intros H; inversion H; reflexivity |].
    destruct (4 <? List.length (leg :: legs))%nat;
      [intros H; inversion H; reflexivity |].
    destruct (quantity <=? 0); [intros H; inversion H; reflexivity |].
    destruct (negb (TimeInForce_eqb time_in_force DAY));
      [intros H; inversion H; reflexivity | discriminate].
  - intros trade_client now symbol side quantity order_type time_in_force
      limit_price stop_price trail_price trail_percent extended_hours
      client_order_id order_data e Hbuild Hraise.
    rewrite place_stock_order_run, Hbuild. cbn [fst]. rewrite Hraise.
    split; reflexivity.
  - intros trade_client now symbol side quantity order_type time_in_force
      limit_price stop_price trail_price trail_percent extended_hours
      client_order_id message Hbuild.
    rewrite place_stock_order_run, Hbuild. split; [reflexivity |].
    exact (build_message _ _ _ _ _ _ _ _ _ _ _ _ _ Hbuild).
  - apply process_legs_message.
  - intros order_class message. unfold _convert_order_class_string.
    destruct order_class as [text | c |]; try discriminate. cbv zeta.
    destruct (dict_get class_mapping (PyStr.upper text)); [discriminate |].
    intros H; inversion H; subst.
    apply (PyStrFacts.prefix_app "Invalid order class: ").
  - intros e order_legs order_class log log' text.
    apply except_message.
Qed.

Lemma C8_failures_are_returned_witness :
  prefix "Error:" "Error: No option legs provided" = true
  /\ fst (run (place_stock_order (fun _ => Raise (APIError "insufficient buying power"))
                 0 "AAPL" "buy" 1%float "market" (TifStr "day") None None None None
                 false None))
     = Return "Error placing order: insufficient buying power"
  /\ prefix "Error:" "Invalid order type: swap. Must be one of: MARKET, LIMIT, STOP, STOP_LIMIT, TRAILING_STOP."
     = false
  /\ prefix "Invalid order class: "
       "Invalid order class: combo. Must be one of: simple, bracket, oco, oto, mleg"
     = true.
Proof.
  destruct C8_failures_are_returned
    as (_ & _ & Hprefix & Hclient & Hbuilder & _ & Hclass & _).
  split; [| split; [| split]].
  - apply (Hprefix [] 1 DAY). reflexivity.
  - apply (Hclient (fun _ => Raise (APIError "insufficient buying power"))
             0 "AAPL" "buy" 1%float "market" (TifStr "day") None None None None
             false None
             (MarketOrderRequest (stock_fields 0 "AAPL" 1%float false None BUY MARKET DAY))
             (APIError "insufficient buying power")); reflexivity.
  - apply (Hbuilder (fun _ => Raise (APIError "")) 0 "AAPL" "buy" 1%float "swap"
             (TifStr "day") None None None None false None). reflexivity.
  - apply (Hclass (ClassStr "combo")). reflexivity.
Defined.

(** C8 as stated fails on a stock order with an unknown side: the tool
    returns a message that does not begin with [Error:]. *)
Lemma C8_invalid_side_message_has_no_error_prefix :
  exists message,
    fst (run (place_stock_order (fun _ => Raise (APIError "")) 0 "AAPL" "hold"
                1%float "market" (TifStr "day") None None None None false None))
    = Return message
    /\ message = "Invalid order side: hold. Must be 'buy' or 'sell'."
    /\ prefix "Error:" message = false.
Proof.
  eexists. split; [reflexivity |]. split; reflexivity.
Qed.

(** C10. When the order class is given and is not MLEG, the legs pass the
    checks and the leg processor accepts them, the tool submits exactly one
    request: it holds the symbol and the side of the first leg and no leg
    list. The request is the same whatever the legs after the first are,
    provided they are accepted too. *)
Theorem C10_single_request_from_first_leg :
  forall (trade_client : OrderRequest -> outcome Order) (now : Z)
         (OrderSide_format : OrderSide -> string)
         (leg : dict) (rest : list dict) (order_class : order_class_arg)
         (c : OrderClass) (quantity : Z) (time_in_force : TimeInForce)
         (extended_hours : bool) (order_legs : list OptionLegRequest),
    _convert_order_class_string order_class = inl (Some c) ->
    c <> MLEG ->
    _validate_option_order_inputs (leg :: rest) quantity time_in_force = None ->
    _process_option_legs (leg :: rest) = Return (inl order_legs) ->
    exists first,
      valid_leg leg first
      /\ snd (run (place_option_market_order trade_client now OrderSide_format
                     (leg :: rest) order_class quantity time_in_force
                     extended_hours))
         = [ MarketOrderRequest
               {| req_symbol := Some (leg_symbol first);
                  req_qty := Int quantity;
                  req_side := Some (leg_side first);
                  req_type := MARKET;
                  req_time_in_force := time_in_force;
                  req_extended_hours := extended_hours;
                  req_client_order_id := "mcp_opt_" ++ PyStr.of_int now;
                  req_order_class := Some c;
                  req_legs := None |} ]
      /\ (forall (rest' : list dict) (order_legs' : list OptionLegRequest),
             _validate_option_order_inputs (leg :: rest') quantity time_in_force
             = None ->
             _process_option_legs (leg :: rest') = Return (inl order_legs') ->
             snd (run (place_option_market_order trade_client now OrderSide_format
                         (leg :: rest') order_class quantity time_in_force
                         extended_hours))
             = snd (run (place_option_market_order trade_client now
                           OrderSide_format (leg :: rest) order_class quantity
                           time_in_force extended_hours))).
Proof.
  intros trade_client now OrderSide_format leg rest order_class c quantity
    time_in_force extended_hours order_legs Hc Hne Hv Hp.
  assert (Hrun : forall rest0 legs0,
             _validate_option_order_inputs (leg :: rest0) quantity time_in_force
             = None ->
             _process_option_legs (leg :: rest0) = Return (inl legs0) ->
             exists first,
               process_leg leg = Return (inl first)
               /\ snd (run (place_option_market_order trade_client now
                              OrderSide_format (leg :: rest0) order_class quantity
                              time_in_force extended_hours))
                  = [ MarketOrderRequest
                        {| req_symbol := Some (leg_symbol first);
                           req_qty := Int quantity;
                           req_side := Some (leg_side first);
                           req_type := MARKET;
                           req_time_in_force := time_in_force;
                           req_extended_hours := extended_hours;
                           req_client_order_id := "mcp_opt_" ++ PyStr.of_int now;
                           req_order_class := Some c;
                           req_legs := None |} ]).
  { intros rest0 legs0 Hv0 Hp0.
    pose proof Hp0 as Hacc.
    apply process_legs_accepts in Hacc as (requests & -> & Hall).
    inversion Hall as [| ? first ? others Hfirst Hothers]; subst.
    exists first. split; [now apply process_leg_valid |].
    destruct (accepted_run trade_client now OrderSide_format (leg :: rest0)
                order_class quantity time_in_force extended_hours (Some c)
                (first :: others) _ Hv0 Hc Hp0
                (create_single now first others c quantity time_in_force
                   extended_hours Hne)) as [text ->].
    reflexivity. }
  destruct (Hrun rest order_legs Hv Hp) as (first & Hfirst & Hsub).
  exists first. split; [now apply process_leg_accepts |]. split; [exact Hsub |].
  intros rest' order_legs' Hv' Hp'.
  destruct (Hrun rest' order_legs' Hv' Hp') as (first' & Hfirst' & Hsub').
  rewrite Hfirst in Hfirst'. inversion Hfirst'; subst first'.
  now rewrite Hsub, Hsub'.
Qed.

Lemma C10_single_request_from_first_leg_witness :
  exists first,
    valid_leg (leg_of "TSLA230616C00150000" "buy" (PyInt 1)) first
    /\ snd (run (place_option_market_order (fun _ => Raise (APIError "")) 0
                   (fun _ => "")
                   [ leg_of "TSLA230616C00150000" "buy" (PyInt 1);
                     leg_of "TSLA230616C00160000" "sell" (PyInt 1) ]
                   (ClassStr "simple") 1 DAY false))
       = [ MarketOrderRequest
             {| req_symbol := Some (leg_symbol first);
                req_qty := Int 1;
                req_side := Some (leg_side first);
                req_type := MARKET;
                req_time_in_force := DAY;
                req_extended_hours := false;
                req_client_order_id := "mcp_opt_" ++ PyStr.of_int 0;
                req_order_class := Some SIMPLE;
                req_legs := None |} ].
Proof.
  destruct (C10_single_request_from_first_leg (fun _ => Raise (APIError "")) 0
              (fun _ => "")
              (leg_of "TSLA230616C00150000" "buy" (PyInt 1))
              [ leg_of "TSLA230616C00160000" "sell" (PyInt 1) ]
              (ClassStr "simple") SIMPLE 1 DAY false
              [ mkOptionLegRequest "TSLA230616C00150000" BUY 1;
                mkOptionLegRequest "TSLA230616C00160000" SELL 1 ])
    as (first & Hfirst & Hsub & _).
  - reflexivity.
  - discriminate.
  - reflexivity.
  - reflexivity.
  - exists first. split; assumption.
Defined.

Lemma C1_error_mapper_witness :
  _handle_option_api_error "403 Forbidden" [] SIMPLE
  = Return (permission_denied_message "403 Forbidden")
  /\ explanation (classify (true, false, true)) = _get_short_straddle_error_message.
Proof.
  destruct (C1_error_mapper "403 Forbidden" [] SIMPLE) as (flags & _ & H & _ & Hinj).
  split; [exact H |].
  rewrite (Hinj (classify (true, false, true)) SHORT_STRADDLE eq_refl).
  reflexivity.
Defined.

(** * Further properties of the modelled code *)

(** ** The timeframe parser *)

Lemma timeframe_form_dec (text : string) :
  TimeframeSpec.timeframe_form text \/ ~ TimeframeSpec.timeframe_form text.
Proof.
  destruct (timeframe_formb text) eqn:E.
  - left. now apply timeframe_form_spec.
  - right. intros H. apply timeframe_form_spec in H. congruence.
Qed.

Lemma accepted_amount_dec (u : TimeFrameUnit) (a : Z) :
  accepted_amount u a \/ ~ accepted_amount u a.
Proof. unfold accepted_amount. destruct u; lia. Qed.

(** X1. The parser returns a timeframe exactly for the strings whose trimmed
    text is a number followed by a unit word with a number that the
    [TimeFrame] constructor accepts for the unit; the timeframe holds that
    number and that unit. So every timeframe it returns is of 1-59 minutes,
    1-23 hours, 1 day, 1 week, or 1, 2, 3, 6 or 12 months. *)
Theorem parse_timeframe_complete :
  forall (s : string) (tf : TimeFrame),
    parse_timeframe_with_enums s = Return (Some tf)
    <-> (exists digits word,
            PyStr.strip s = digits ++ word
            /\ TimeframeSpec.is_number digits
            /\ TimeframeSpec.is_unit_word word (unit tf)
            /\ amount tf = PyStr.int digits
            /\ accepted_amount (unit tf) (amount tf)).
Proof.
  intros s tf. split.
  - intros Hparse.
    destruct (timeframe_form_dec (PyStr.strip s))
      as [(digits & word & u & Hs & Hd & Hw & Hpos) | Hnot].
    + destruct (parse_form s digits word u Hs Hd Hw) as [Hin Hout].
      destruct (accepted_amount_dec u (PyStr.int digits)) as [Hacc | Hno].
      * rewrite (Hin Hacc) in Hparse. inversion Hparse; subst tf. cbn [amount unit].
        exists digits, word.
        split; [exact Hs |]. split; [exact Hd |]. split; [exact Hw |].
        split; [reflexivity | exact Hacc].
      * rewrite (Hout Hno) in Hparse. discriminate.
    + rewrite (parse_no_form s Hnot) in Hparse. discriminate.
  - intros (digits & word & Hs & Hd & Hw & Ha & Hacc).
    destruct (parse_form s digits word (unit tf) Hs Hd Hw) as [Hin _].
    rewrite Ha in Hacc. rewrite (Hin Hacc). rewrite <- Ha. now destruct tf.
Qed.

Lemma parse_timeframe_complete_witness :
  accepted_amount (unit (mkTimeFrame 15 Minute)) (amount (mkTimeFrame 15 Minute))
  /\ parse_timeframe_with_enums "6Month" = Return (Some (mkTimeFrame 6 Month)).
Proof.
  split.
  - destruct (proj1 (parse_timeframe_complete " 15min" (mkTimeFrame 15 Minute)))
      as (digits & word & _ & _ & _ & _ & H).
    + reflexivity.
    + exact H.
  - apply (proj2 (parse_timeframe_complete "6Month" (mkTimeFrame 6 Month))).
    exists "6", "Month".
    split; [reflexivity |]. split; [split; [discriminate | reflexivity] |].
    split; [exists "Month"; split; [simpl; tauto | reflexivity] |].
    split; [reflexivity |]. cbn. lia.
Defined.

Lemma lstrip_spaces (a t : string) :
  PyStr.all PyStr.is_space a = true -> PyStr.lstrip (a ++ t) = PyStr.lstrip t.
Proof.
  induction a as [|c a IH]; cbn [PyStr.all append]; [reflexivity |].
  intros H. apply andb_true_iff in H as [Hc Ha].
  cbn [PyStr.lstrip]. rewrite Hc. auto.
Qed.

Lemma rstrip_all_spaces (b : string) :
  PyStr.all PyStr.is_space b = true -> PyStr.rstrip b = EmptyString.
Proof.
  induction b as [|c b IH]; cbn [PyStr.all PyStr.rstrip]; [reflexivity |].
  intros H. apply andb_true_iff in H as [Hc Hb]. now rewrite (IH Hb), Hc.
Qed.

Lemma rstrip_spaces (t b : string) :
  PyStr.all PyStr.is_space b = true -> PyStr.rstrip (t ++ b) = PyStr.rstrip t.
Proof.
  intros Hb. induction t as [|c t IH]; cbn [append PyStr.rstrip].
  - now apply rstrip_all_spaces.
  - now rewrite IH.
Qed.

Lemma lstrip_all_spaces (b : string) :
  PyStr.all PyStr.is_space b = true -> PyStr.lstrip b = EmptyString.
Proof.
  induction b as [|c b IH]; cbn [PyStr.all PyStr.lstrip]; [reflexivity |].
  intros H. apply andb_true_iff in H as [Hc Hb]. rewrite Hc. auto.
Qed.

Lemma strip_right_spaces (s b : string) :
  PyStr.all PyStr.is_space b = true -> PyStr.strip (s ++ b) = PyStr.strip s.
Proof.
  intros Hb. unfold PyStr.strip. induction s as [|c s IH]; cbn [append PyStr.lstrip].
  - now rewrite (lstrip_all_spaces b Hb).
  - destruct (PyStr.is_space c); [exact IH |].
    change (String c (s ++ b)) with (String c s ++ b). now apply rstrip_spaces.
Qed.

Lemma strip_padded (a s b : string) :
  PyStr.all PyStr.is_space a = true -> PyStr.all PyStr.is_space b = true ->
  PyStr.strip (a ++ s ++ b) = PyStr.strip s.
Proof.
  intros Ha Hb. unfold PyStr.strip. rewrite (lstrip_spaces a _ Ha).
  now apply strip_right_spaces.
Qed.

(** X2. Whitespace around a timeframe string does not change what the
    parser returns. *)
Theorem parse_timeframe_ignores_padding :
  forall (before s after : string),
    PyStr.all PyStr.is_space before = true ->
    PyStr.all PyStr.is_space after = true ->
    parse_timeframe_with_enums (before ++ s ++ after) = parse_timeframe_with_enums s.
Proof.
  intros before s after Ha Hb.
  unfold parse_timeframe_with_enums, parse_timeframe_body.
  now rewrite (strip_padded before s after Ha Hb).
Qed.

Lemma parse_timeframe_ignores_padding_witness :
  parse_timeframe_with_enums ("  " ++ "5Min" ++ newline)
  = parse_timeframe_with_enums "5Min".
Proof.
  apply parse_timeframe_ignores_padding; reflexivity.
Defined.

(** X3. The letter case of the unit word and leading zeros of the amount do
    not matter: two strings whose numbers have the same value and whose unit
    words are equal up to letter case parse to the same result. *)
Theorem parse_timeframe_normal_form :
  forall (digits digits' word word' : string) (u : TimeFrameUnit),
    TimeframeSpec.is_number digits -> TimeframeSpec.is_number digits' ->
    PyStr.int digits = PyStr.int digits' ->
    TimeframeSpec.is_unit_word word u ->
    PyStr.lower word = PyStr.lower word' ->
    parse_timeframe_with_enums (digits ++ word)
    = parse_timeframe_with_enums (digits' ++ word').
Proof.
  intros digits digits' word word' u Hd Hd' Hint Hw Hlow.
  assert (Hw' : TimeframeSpec.is_unit_word word' u).
  { destruct Hw as [name [Hin Hl]]. exists name. split; [exact Hin | congruence]. }
  unfold parse_timeframe_with_enums.
  rewrite (TimeframeSpec.body_form _ digits word u
             (TimeframeSpec.strip_form _ _ _ Hd Hw) Hd Hw).
  rewrite (TimeframeSpec.body_form _ digits' word' u
             (TimeframeSpec.strip_form _ _ _ Hd' Hw') Hd' Hw').
  now rewrite Hint.
Qed.

Lemma parse_timeframe_normal_form_witness :
  parse_timeframe_with_enums ("007" ++ "HOUR") = parse_timeframe_with_enums ("7" ++ "hour").
Proof.
  apply (parse_timeframe_normal_form "007" "7" "HOUR" "hour" Hour).
  - split; [discriminate | reflexivity].
  - split; [discriminate | reflexivity].
  - reflexivity.
  - exists "Hour". split; [simpl; tauto | reflexivity].
  - reflexivity.
Defined.

(** ** The order class and the strategy flags *)

Definition OrderClass_name (c : OrderClass) : string :=
  match c with
  | SIMPLE => "SIMPLE"
  | BRACKET => "BRACKET"
  | OCO => "OCO"
  | OTO => "OTO"
  | MLEG => "MLEG"
  end.

Lemma class_mapping_lookup (text : string) (c : OrderClass) :
  dict_get class_mapping text = Some c <-> text = OrderClass_name c.
Proof.
  unfold class_mapping, dict_get. split.
  - intros H.
    repeat match type of H with
           | (if String.eqb ?k ?w then _ else _) = _ =>
               destruct (String.eqb k w) eqn:E;
               [ apply String.eqb_eq in E; inversion H; subst; reflexivity
               | clear E ]
           end.
    discriminate.
  - intros ->. destruct c; reflexivity.
Qed.

(** X4. A string is converted to an order class exactly when it is the name
    of that class in some letter case; any other string is refused with a
    message that repeats it. A string is never converted to "no class". *)
Theorem convert_order_class_names :
  forall (text : string),
    (forall c,
        _convert_order_class_string (ClassStr text) = inl (Some c)
        <-> PyStr.upper text = OrderClass_name c)
    /\ (_convert_order_class_string (ClassStr text) <> inl None)
    /\ (forall message,
           _convert_order_class_string (ClassStr text) = inr message ->
           (forall c, PyStr.upper text <> OrderClass_name c)
           /\ message
              = "Invalid order class: " ++ text ++
                ". Must be one of: simple, bracket, oco, oto, mleg").
Proof.
  intros text. unfold _convert_order_class_string. cbv zeta.
  destruct (dict_get class_mapping (PyStr.upper text)) as [c0|] eqn:E.
  - apply class_mapping_lookup in E. split; [| split].
    + intros c. split.
      * intros H. inversion H; subst. exact E.
      * intros H. rewrite E in H. destruct c0, c; try discriminate; reflexivity.
    + discriminate.
    + discriminate.
  - split; [| split].
    + intros c. split; [discriminate |].
      intros H. apply class_mapping_lookup in H. congruence.
    + discriminate.
    + intros message H. inversion H; subst. split; [| reflexivity].
      intros c Hc. apply class_mapping_lookup in Hc. congruence.
Qed.

Lemma convert_order_class_names_witness :
  _convert_order_class_string (ClassStr "Mleg") = inl (Some MLEG).
Proof.
  apply (proj1 (convert_order_class_names "Mleg")). reflexivity.
Defined.

(** X5. Whatever the legs and the order class: the strategy classifier sets
    at least one flag exactly for two SELL legs under MLEG; the strangle flag
    is never set together with the straddle flag or the calendar flag. So
    for an uncovered-options error the generic explanation is returned
    exactly for the orders that are not two short legs under MLEG. *)
Theorem strategy_flags_invariant :
  forall (order_legs : list OptionLegRequest) (order_class : OrderClass),
  exists straddle strangle calendar,
    _analyze_option_strategy_type order_legs order_class
    = Return (straddle, strangle, calendar)
    /\ (strangle = true -> straddle = false /\ calendar = false)
    /\ (classify (straddle, strangle, calendar) = NONE
        <-> StrategyFacts.short_pair order_legs order_class = false).
Proof.
  intros order_legs order_class.
  destruct (StrategyFacts.short_pair order_legs order_class) eqn:S.
  - unfold StrategyFacts.short_pair in S. apply andb_true_iff in S as [Hc Hl].
    destruct order_class; try discriminate.
    destruct order_legs as [|l0 [|l1 [|l2 rest]]]; try discriminate.
    apply andb_true_iff in Hl as [H0 H1].
    assert (S0 : leg_side l0 = SELL) by (destruct (leg_side l0); [discriminate | reflexivity]).
    assert (S1 : leg_side l1 = SELL) by (destruct (leg_side l1); [discriminate | reflexivity]).
    rewrite (StrategyFacts.analyze_short_pair _ _ S0 S1).
    unfold StrategyFacts.short_pair_flags. do 3 eexists. split; [reflexivity |].
    destruct (String.eqb _ _); destruct (_ && _ && _); cbn;
      (split; [intros H; try discriminate; auto | split; intros H; discriminate]).
  - rewrite (StrategyFacts.analyze_other _ _ S). exists false, false, false.
    split; [reflexivity |]. split; [discriminate |]. split; reflexivity.
Qed.

Lemma strategy_flags_invariant_witness :
  exists straddle strangle calendar,
    _analyze_option_strategy_type
      [ mkOptionLegRequest "TSLA230616C00150000" SELL 1;
        mkOptionLegRequest "TSLA230616C00160000" BUY 1 ] MLEG
    = Return (straddle, strangle, calendar)
    /\ classify (straddle, strangle, calendar) = NONE.
Proof.
  destruct (strategy_flags_invariant
              [ mkOptionLegRequest "TSLA230616C00150000" SELL 1;
                mkOptionLegRequest "TSLA230616C00160000" BUY 1 ] MLEG)
    as (straddle & strangle & calendar & Hrun & _ & Hnone).
  exists straddle, strangle, calendar. split; [exact Hrun |].
  apply Hnone. reflexivity.
Defined.

(** ** The option order tool, end to end *)

Section OptionToolProperties.

Variable trade_client : OrderRequest -> outcome Order.
Variable now : Z.
Variable OrderSide_format : OrderSide -> string.

(** The multi-leg request of the tool. *)
Definition mleg_request (order_legs : list OptionLegRequest) (quantity : Z)
  (time_in_force : TimeInForce) (extended_hours : bool) : OrderRequest :=
  MarketOrderRequest
    {| req_symbol := None;
       req_qty := Int quantity;
       req_side := None;
       req_type := MARKET;
       req_time_in_force := time_in_force;
       req_extended_hours := extended_hours;
       req_client_order_id := "mcp_opt_" ++ PyStr.of_int now;
       req_order_class := Some MLEG;
       req_legs := Some order_legs |}.

(** The single-symbol request of the tool. *)
Definition single_request (first : OptionLegRequest) (order_class : OrderClass)
  (quantity : Z) (time_in_force : TimeInForce) (extended_hours : bool)
  : OrderRequest :=
  MarketOrderRequest
    {| req_symbol := Some (leg_symbol first);
       req_qty := Int quantity;
       req_side := Some (leg_side first);
       req_type := MARKET;
       req_time_in_force := time_in_force;
       req_extended_hours := extended_hours;
       req_client_order_id := "mcp_opt_" ++ PyStr.of_int now;
       req_order_class := Some order_class;
       req_legs := None |}.

(** The request built from accepted legs, when its constructor accepts
    it. *)
Definition request_of (order_legs : list OptionLegRequest) (order_class : OrderClass)
  (quantity : Z) (time_in_force : TimeInForce) (extended_hours : bool)
  : option OrderRequest :=
  match order_class, order_legs with
  | MLEG, _ => Some (mleg_request order_legs quantity time_in_force extended_hours)
  | _, first :: _ =>
      Some (single_request first order_class quantity time_in_force extended_hours)
  | _, [] => None
  end.

(** What the constructor of the request asks of the legs: under MLEG two to
    four legs with no symbol twice, under another order class nothing. *)
Definition request_accepted (order_class : OrderClass)
  (order_legs : list OptionLegRequest) : bool :=
  if OrderClass_eqb order_class MLEG then
    (2 <=? List.length order_legs)%nat && (List.length order_legs <=? 4)%nat
    && unique_symbols order_legs
  else true.

Lemma create_request_of
  (order_legs : list OptionLegRequest) (order_class : OrderClass) (quantity : Z)
  (time_in_force : TimeInForce) (extended_hours : bool) :
  order_legs <> [] ->
  request_accepted order_class order_legs = true ->
  exists order_data,
    request_of order_legs order_class quantity time_in_force extended_hours
    = Some order_data
    /\ _create_option_market_order_request now order_legs order_class quantity
         time_in_force extended_hours = Return order_data.
Proof.
  intros Hne Hacc. destruct order_legs as [|first others]; [congruence |].
  unfold request_accepted in Hacc.
  destruct order_class; try (eexists; split; reflexivity).
  cbn [OrderClass_eqb] in Hacc.
  apply andb_true_iff in Hacc as [Hacc Huniq].
  apply andb_true_iff in Hacc as [Hlow Hhigh].
  apply Nat.leb_le in Hlow, Hhigh.
  eexists. split; [reflexivity |].
  unfold _create_option_market_order_request, MarketOrderRequest_init.
  cbn [OrderClass_eqb req_order_class req_legs].
  replace (4 <? List.length (first :: others))%nat with false
    by (symmetry; apply Nat.ltb_ge; lia).
  replace (List.length (first :: others) <? 2)%nat with false
    by (symmetry; apply Nat.ltb_ge; lia).
  rewrite Huniq. reflexivity.
Qed.

Lemma create_refused
  (order_legs : list OptionLegRequest) (order_class : OrderClass) (quantity : Z)
  (time_in_force : TimeInForce) (extended_hours : bool) :
  request_accepted order_class order_legs = false ->
  exists sentence,
    _create_option_market_order_request now order_legs order_class quantity
      time_in_force extended_hours = Raise (ValidationError sentence).
Proof.
  unfold request_accepted. intros Hacc.
  destruct order_class; cbn [OrderClass_eqb] in Hacc; try discriminate.
  unfold _create_option_market_order_request, MarketOrderRequest_init.
  cbn [OrderClass_eqb req_order_class req_legs].
  destruct (4 <? List.length order_legs)%nat eqn:Hhigh; [eexists; reflexivity |].
  destruct (List.length order_legs <? 2)%nat eqn:Hlow; [eexists; reflexivity |].
  destruct (unique_symbols order_legs) eqn:Huniq; [| eexists; reflexivity].
  apply Nat.ltb_ge in Hhigh, Hlow.
  replace (2 <=? List.length order_legs)%nat with true in Hacc
    by (symmetry; apply Nat.leb_le; lia).
  replace (List.length order_legs <=? 4)%nat with true in Hacc
    by (symmetry; apply Nat.leb_le; lia).
  discriminate.
Qed.

(** The run of the tool on legs that are all valid: the request is
    submitted when its constructor accepts it, and nothing is submitted
    when it does not. *)
Lemma valid_run
  (legs : list dict) (requests : list OptionLegRequest)
  (order_class : order_class_arg) (converted : option OrderClass)
  (quantity : Z) (time_in_force : TimeInForce) (extended_hours : bool) :
  _validate_option_order_inputs legs quantity time_in_force = None ->
  _convert_order_class_string order_class = inl converted ->
  Forall2 valid_leg legs requests ->
  (request_accepted (resolved_class converted legs) requests = true ->
   exists order_data,
     request_of requests (resolved_class converted legs) quantity time_in_force
       extended_hours = Some order_data
     /\ run (place_option_market_order trade_client now OrderSide_format legs
               order_class quantity time_in_force extended_hours)
        = (match trade_client order_data with
           | Return order =>
               match
                 _format_option_order_response OrderSide_format order
                   (resolved_class converted legs) requests
               with
               | Return text => Return text
               | Raise e =>
                   fst (option_order_except e requests
                          (resolved_class converted legs) [])
               end
           | Raise e =>
               fst (option_order_except e requests (resolved_class converted legs) [])
           end,
           [order_data]))
  /\ (request_accepted (resolved_class converted legs) requests = false ->
      exists text,
        run (place_option_market_order trade_client now OrderSide_format legs
               order_class quantity time_in_force extended_hours)
        = (Return (unexpected_error_message text), [])).
Proof.
  intros Hv Hc Hall.
  assert (Hne : requests <> []).
  { apply validate_none in Hv as [Hlegs _]. intros ->. inversion Hall. congruence. }
  split; intros Hacc.
  - destruct (create_request_of requests (resolved_class converted legs) quantity
                time_in_force extended_hours Hne Hacc) as (order_data & Hreq & Hcreate).
    exists order_data. split; [exact Hreq |].
    unfold run, place_option_market_order. rewrite Hv, Hc.
    unfold _process_option_legs. rewrite (process_legs_valid _ _ Hall). cbn [app].
    fold (resolved_class converted legs).
    unfold try_except, exec_bind, lift, submit_order. rewrite Hcreate. cbn [app].
    destruct (trade_client order_data) as [order | e].
    + destruct (_format_option_order_response _ _ _ _) as [text | e]; [reflexivity |].
      destruct (except_run e requests (resolved_class converted legs) [order_data])
        as [text Ht].
      destruct (except_run e requests (resolved_class converted legs) [])
        as [text' Ht'].
      rewrite Ht, Ht'. cbn [fst]. f_equal.
      destruct e; cbn [option_order_except lift ret] in Ht, Ht';
        inversion Ht; inversion Ht'; congruence.
    + destruct (except_run e requests (resolved_class converted legs) [order_data])
        as [text Ht].
      destruct (except_run e requests (resolved_class converted legs) [])
        as [text' Ht'].
      rewrite Ht, Ht'. cbn [fst]. f_equal.
      destruct e; cbn [option_order_except lift ret] in Ht, Ht';
        inversion Ht; inversion Ht'; congruence.
  - destruct (create_refused requests (resolved_class converted legs) quantity
                time_in_force extended_hours Hacc) as [sentence Hcreate].
    exists sentence.
    unfold run, place_option_market_order. rewrite Hv, Hc.
    unfold _process_option_legs. rewrite (process_legs_valid _ _ Hall). cbn [app].
    fold (resolved_class converted legs).
    unfold try_except, exec_bind, lift. rewrite Hcreate. reflexivity.
Qed.

End OptionToolProperties.

(** X6. When the order class is left out and the legs, the quantity and the
    time in force are valid: for one leg the tool submits a SIMPLE request
    with the symbol and side of that leg and no leg list; for two to four
    legs with no symbol twice it submits an MLEG request that carries all
    the leg requests in the order of the legs and no symbol or side; for
    legs that repeat a symbol the constructor of the request raises, the
    tool returns the unexpected-error text and submits nothing. It never
    submits more than this one request. *)
Theorem option_default_order_class :
  forall (trade_client : OrderRequest -> outcome Order) (now : Z)
         (OrderSide_format : OrderSide -> string)
         (legs : list dict) (requests : list OptionLegRequest) (quantity : Z)
         (extended_hours : bool),
    legs <> [] -> (List.length legs <= 4)%nat -> 0 < quantity ->
    Forall2 valid_leg legs requests ->
    let tool :=
      run (place_option_market_order trade_client now OrderSide_format legs
             ClassNone quantity DAY extended_hours) in
    (unique_symbols requests = true ->
     snd tool
     = match requests with
       | [first] => [single_request now first SIMPLE quantity DAY extended_hours]
       | _ => [mleg_request now requests quantity DAY extended_hours]
       end)
    /\ (unique_symbols requests = false ->
        exists text, tool = (Return (unexpected_error_message text), [])).
Proof.
  intros trade_client now OrderSide_format legs requests quantity extended_hours
    Hne Hlen Hq Hall tool.
  pose proof (Forall2_length Hall) as Hsame.
  destruct (valid_run trade_client now OrderSide_format legs requests ClassNone None
              quantity DAY extended_hours (validate_passes legs quantity Hne Hlen Hq)
              eq_refl Hall) as [Hyes Hno].
  assert (Hacc : request_accepted (resolved_class None legs) requests
                 = unique_symbols requests).
  { unfold request_accepted, resolved_class.
    destruct legs as [|l0 [|l1 ls]]; [congruence | |].
    - destruct requests as [|first [|second others]]; try discriminate. reflexivity.
    - destruct requests as [|first [|second others]]; try discriminate.
      replace (1 <? List.length (l0 :: l1 :: ls))%nat with true
        by (symmetry; apply Nat.ltb_lt; simpl; lia).
      cbn [OrderClass_eqb].
      replace (2 <=? List.length (first :: second :: others))%nat with true
        by (symmetry; apply Nat.leb_le; simpl; lia).
      replace (List.length (first :: second :: others) <=? 4)%nat with true
        by (symmetry; apply Nat.leb_le; lia).
      reflexivity. }
  rewrite Hacc in Hyes, Hno. split.
  - intros Huniq. destruct (Hyes Huniq) as (order_data & Hreq & Hrun).
    subst tool. rewrite Hrun. cbn [snd]. unfold resolved_class in Hreq.
    destruct requests as [|first [|second others]];
      destruct legs as [|l0 [|l1 ls]]; try discriminate; try congruence;
      cbn in Hreq; inversion Hreq; reflexivity.
  - intros Huniq. exact (Hno Huniq).
Qed.

Lemma option_default_order_class_witness :
  snd (run (place_option_market_order (fun _ => Raise (APIError "")) 0 (fun _ => "")
              [ leg_of "TSLA230616C00150000" "sell" (PyInt 1);
                leg_of "TSLA230616P00150000" "sell" (PyInt 1) ]
              ClassNone 2 DAY false))
  = [ mleg_request 0
        [ mkOptionLegRequest "TSLA230616C00150000" SELL 1;
          mkOptionLegRequest "TSLA230616P00150000" SELL 1 ] 2 DAY false ]
  /\ snd (run (place_option_market_order (fun _ => Raise (APIError "")) 0
                 (fun _ => "")
                 [ leg_of "TSLA230616C00150000" "buy" (PyInt 1);
                   leg_of "TSLA230616C00150000" "sell" (PyInt 1) ]
                 ClassNone 2 DAY false))
     = [].
Proof.
  split.
  - apply (option_default_order_class (fun _ => Raise (APIError "")) 0 (fun _ => "")
             [ leg_of "TSLA230616C00150000" "sell" (PyInt 1);
               leg_of "TSLA230616P00150000" "sell" (PyInt 1) ]
             [ mkOptionLegRequest "TSLA230616C00150000" SELL 1;
               mkOptionLegRequest "TSLA230616P00150000" SELL 1 ] 2 false).
    + discriminate.
    + simpl. lia.
    + lia.
    + repeat constructor; apply leg_of_valid; try lia; right; split; reflexivity.
    + reflexivity.
  - destruct (option_default_order_class (fun _ => Raise (APIError "")) 0
                (fun _ => "")
                [ leg_of "TSLA230616C00150000" "buy" (PyInt 1);
                  leg_of "TSLA230616C00150000" "sell" (PyInt 1) ]
                [ mkOptionLegRequest "TSLA230616C00150000" BUY 1;
                  mkOptionLegRequest "TSLA230616C00150000" SELL 1 ] 2 false)
      as [_ Hrepeat].
    + discriminate.
    + simpl. lia.
    + lia.
    + constructor; [apply leg_of_valid; try lia; left; split; reflexivity |].
      constructor; [apply leg_of_valid; try lia; right; split; reflexivity |].
      constructor.
    + destruct (Hrepeat eq_refl) as [text Hrun]. rewrite Hrun. reflexivity.
Defined.

(** X7. The option tool submits a request exactly when the leg list has one
    to four legs, the quantity is positive, the time in force is DAY, the
    order class is absent or recognised, every leg is valid and, when the
    order class the tool works with is MLEG, there are at least two legs
    and no symbol occurs twice; it never submits more than one request. *)
Theorem option_submission_condition :
  forall (trade_client : OrderRequest -> outcome Order) (now : Z)
         (OrderSide_format : OrderSide -> string)
         (legs : list dict) (order_class : order_class_arg) (quantity : Z)
         (time_in_force : TimeInForce) (extended_hours : bool),
    let submitted :=
      snd (run (place_option_market_order trade_client now OrderSide_format legs
                  order_class quantity time_in_force extended_hours)) in
    (List.length submitted <= 1)%nat
    /\ (submitted <> []
        <-> legs <> [] /\ (List.length legs <= 4)%nat /\ 0 < quantity
            /\ time_in_force = DAY
            /\ (exists converted requests,
                   _convert_order_class_string order_class = inl converted
                   /\ Forall2 valid_leg legs requests
                   /\ (resolved_class converted legs = MLEG ->
                       (2 <= List.length requests)%nat
                       /\ unique_symbols requests = true))).
Proof.
  intros trade_client now OrderSide_format legs order_class quantity
    time_in_force extended_hours submitted.
  destruct (_validate_option_order_inputs legs quantity time_in_force)
    as [message|] eqn:Hv.
  - assert (Hs : submitted = []).
    { subst submitted. unfold run, place_option_market_order. now rewrite Hv. }
    rewrite Hs. split; [simpl; lia |]. split; [congruence |].
    intros (Hne & Hlen & Hq & -> & _). rewrite validate_passes in Hv by assumption.
    discriminate.
  - destruct (_convert_order_class_string order_class) as [converted | message] eqn:Hc.
    + destruct (_process_option_legs legs) as [[order_legs | message] | e] eqn:Hp.
      * pose proof Hp as Hacc.
        apply process_legs_accepts in Hacc as (requests & Heq & Hall).
        pose proof (Forall2_length Hall) as Hsame.
        pose proof Hv as Hchecks.
        apply validate_none in Hchecks as (Hne & Hlen & Hq & Htif).
        destruct (valid_run trade_client now OrderSide_format legs requests
                    order_class converted quantity time_in_force extended_hours
                    Hv Hc Hall) as [Hyes Hno].
        assert (Hcond : request_accepted (resolved_class converted legs) requests = true
                        <-> (resolved_class converted legs = MLEG ->
                             (2 <= List.length requests)%nat
                             /\ unique_symbols requests = true)).
        { unfold request_accepted.
          destruct (resolved_class converted legs); cbn [OrderClass_eqb];
            try (split; [discriminate | reflexivity]).
          rewrite !andb_true_iff, !Nat.leb_le. split.
          - intros [[H1 H2] H3] _. auto.
          - intros H. destruct (H eq_refl) as [H1 H2]. repeat split; auto. lia. }
        destruct (request_accepted (resolved_class converted legs) requests) eqn:Hacc.
        -- destruct (Hyes eq_refl) as (order_data & _ & Hrun).
           subst submitted. rewrite Hrun. cbn [snd]. split; [simpl; lia |].
           split; [| discriminate]. intros _.
           split; [exact Hne |]. split; [exact Hlen |]. split; [exact Hq |].
           split; [exact Htif |]. exists converted, requests.
           split; [reflexivity |]. split; [exact Hall |]. now apply Hcond.
        -- destruct (Hno eq_refl) as (text & Hrun).
           subst submitted. rewrite Hrun. cbn [snd]. split; [simpl; lia |].
           split; [congruence |].
           intros (_ & _ & _ & _ & converted' & requests' & Hc' & Hall' & Hm).
           inversion Hc'; subst converted'.
           assert (requests' = requests).
           { pose proof (process_legs_valid _ _ Hall' []) as H1.
             pose proof (process_legs_valid _ _ Hall []) as H2.
             rewrite H1 in H2. now inversion H2. }
           subst requests'. apply Hcond in Hm. discriminate.
      * assert (Hs : submitted = []).
        { subst submitted. unfold run, place_option_market_order.
          now rewrite Hv, Hc, Hp. }
        rewrite Hs. split; [simpl; lia |]. split; [congruence |].
        intros (_ & _ & _ & _ & converted' & requests & _ & Hall & _).
        unfold _process_option_legs in Hp.
        rewrite (process_legs_valid _ _ Hall) in Hp. discriminate.
      * assert (Hs : submitted = []).
        { subst submitted. unfold run, place_option_market_order.
          rewrite Hv, Hc, Hp.
          destruct (except_run e [] (resolved_class converted legs) [])
            as [text Ht].
          unfold resolved_class in Ht. now rewrite Ht. }
        rewrite Hs. split; [simpl; lia |]. split; [congruence |].
        intros (_ & _ & _ & _ & converted' & requests & _ & Hall & _).
        unfold _process_option_legs in Hp.
        rewrite (process_legs_valid _ _ Hall) in Hp. discriminate.
    + assert (Hs : submitted = []).
      { subst submitted. unfold run, place_option_market_order. now rewrite Hv, Hc. }
      rewrite Hs. split; [simpl; lia |]. split; [congruence |].
      intros (_ & _ & _ & _ & converted & requests & H & _). discriminate.
Qed.

Lemma option_submission_condition_witness :
  snd (run (place_option_market_order (fun _ => Raise (APIError "")) 0 (fun _ => "")
              [ leg_of "TSLA230616C00150000" "buy" (PyInt 1) ]
              (ClassStr "simple") 1 DAY false))
  <> [].
Proof.
  apply (proj2 (option_submission_condition (fun _ => Raise (APIError "")) 0
                  (fun _ => "") [ leg_of "TSLA230616C00150000" "buy" (PyInt 1) ]
                  (ClassStr "simple") 1 DAY false)).
  split; [discriminate |]. split; [simpl; lia |]. split; [lia |].
  split; [reflexivity |].
  exists (Some SIMPLE), [ mkOptionLegRequest "TSLA230616C00150000" BUY 1 ].
  split; [reflexivity |].
  split; [repeat constructor; apply leg_of_valid; try lia; left; split; reflexivity |].
  discriminate.
Defined.

(** X8. A leg that has no ratio_qty entry, after legs that are valid: the
    lookup raises KeyError, the tool answers with the unexpected-error text
    that names the key, and nothing is submitted. *)
Theorem option_missing_ratio_key :
  forall (trade_client : OrderRequest -> outcome Order) (now : Z)
         (OrderSide_format : OrderSide -> string)
         (before : list dict) (requests : list OptionLegRequest)
         (leg : dict) (rest : list dict) (order_class : order_class_arg)
         (converted : option OrderClass) (quantity : Z)
         (time_in_force : TimeInForce) (extended_hours : bool),
    _validate_option_order_inputs (before ++ leg :: rest)%list quantity time_in_force
    = None ->
    _convert_order_class_string order_class = inl converted ->
    Forall2 valid_leg before requests ->
    dict_get leg "ratio_qty" = None ->
    run (place_option_market_order trade_client now OrderSide_format
           (before ++ leg :: rest)%list order_class quantity time_in_force
           extended_hours)
    = (Return (unexpected_error_message "'ratio_qty'"), []).
Proof.
  intros trade_client now OrderSide_format before requests leg rest order_class
    converted quantity time_in_force extended_hours Hv Hc Hbefore Hkey.
  assert (Hp : _process_option_legs (before ++ leg :: rest)%list
               = Raise (OtherError "KeyError" "'ratio_qty'")).
  { clear Hv. unfold _process_option_legs. generalize (@nil OptionLegRequest).
    induction Hbefore as [|l r ls rs Hl _ IH]; intros order_legs;
      cbn [app process_legs_from].
    - unfold process_leg, getitem. now rewrite Hkey.
    - rewrite (process_leg_valid _ _ Hl). cbn [bind]. apply IH. }
  unfold run, place_option_market_order. rewrite Hv, Hc, Hp. reflexivity.
Qed.

Lemma option_missing_ratio_key_witness :
  run (place_option_market_order (fun _ => Raise (APIError "")) 0 (fun _ => "")
         [ leg_of "TSLA230616C00150000" "buy" (PyInt 1);
           [ ("symbol", PyStr "TSLA230616P00150000"); ("side", PyStr "sell") ] ]
         ClassNone 1 DAY false)
  = (Return (unexpected_error_message "'ratio_qty'"), []).
Proof.
  apply (option_missing_ratio_key (fun _ => Raise (APIError "")) 0 (fun _ => "")
           [ leg_of "TSLA230616C00150000" "buy" (PyInt 1) ]
           [ mkOptionLegRequest "TSLA230616C00150000" BUY 1 ]
           [ ("symbol", PyStr "TSLA230616P00150000"); ("side", PyStr "sell") ]
           [] ClassNone None 1 DAY false).
  - reflexivity.
  - reflexivity.
  - repeat constructor; apply leg_of_valid; try lia; left; split; reflexivity.
  - reflexivity.
Defined.

(** X9. When the legs are valid, the constructor of the request accepts them
    (under MLEG: at least two legs, no symbol twice) and the trading client
    answers the request with an API error, the tool returns what the error
    mapper returns for the text of the error, the processed legs and the
    order class the tool worked with; when the client raises any other
    exception, the tool returns the unexpected-error text with the text of
    the exception. In both cases the request was submitted once. *)
Theorem option_client_error :
  forall (trade_client : OrderRequest -> outcome Order) (now : Z)
         (OrderSide_format : OrderSide -> string)
         (legs : list dict) (requests : list OptionLegRequest)
         (order_class : order_class_arg) (converted : option OrderClass)
         (quantity : Z) (time_in_force : TimeInForce) (extended_hours : bool)
         (e : exn),
    _validate_option_order_inputs legs quantity time_in_force = None ->
    _convert_order_class_string order_class = inl converted ->
    Forall2 valid_leg legs requests ->
    (resolved_class converted legs = MLEG ->
     (2 <= List.length requests)%nat /\ unique_symbols requests = true) ->
    (forall order_data, trade_client order_data = Raise e) ->
    exists order_data,
      request_of now requests (resolved_class converted legs) quantity
        time_in_force extended_hours = Some order_data
      /\ run (place_option_market_order trade_client now OrderSide_format legs
                order_class quantity time_in_force extended_hours)
         = (match e with
            | APIError text =>
                _handle_option_api_error text requests (resolved_class converted legs)
            | OtherError _ text => Return (unexpected_error_message text)
            end,
            [order_data]).
Proof.
  intros trade_client now OrderSide_format legs requests order_class converted
    quantity time_in_force extended_hours e Hv Hc Hall Hmleg Hraise.
  assert (Hacc : request_accepted (resolved_class converted legs) requests = true).
  { unfold request_accepted.
    destruct (resolved_class converted legs); cbn [OrderClass_eqb]; try reflexivity.
    destruct (Hmleg eq_refl) as [Hlow Huniq].
    pose proof (Forall2_length Hall) as Hsame.
    apply validate_none in Hv as (_ & Hlen & _).
    rewrite Huniq, !andb_true_iff, !Nat.leb_le. repeat split; lia. }
  destruct (valid_run trade_client now OrderSide_format legs requests order_class
              converted quantity time_in_force extended_hours Hv Hc Hall)
    as [Hyes _].
  destruct (Hyes Hacc) as (order_data & Hreq & Hrun).
  exists order_data. split; [exact Hreq |].
  rewrite Hrun, Hraise. destruct e; reflexivity.
Qed.

Lemma option_client_error_witness :
  fst (run (place_option_market_order
              (fun _ => Raise (APIError "40310000: account not eligible to trade uncovered option contracts"))
              0 (fun _ => "")
              [ leg_of "TSLA230616C00150000" "sell" (PyInt 1);
                leg_of "TSLA230616P00150000" "sell" (PyInt 1) ]
              ClassNone 1 DAY false))
  = Return _get_short_straddle_error_message.
Proof.
  destruct (option_client_error
              (fun _ => Raise (APIError "40310000: account not eligible to trade uncovered option contracts"))
              0 (fun _ => "")
              [ leg_of "TSLA230616C00150000" "sell" (PyInt 1);
                leg_of "TSLA230616P00150000" "sell" (PyInt 1) ]
              [ mkOptionLegRequest "TSLA230616C00150000" SELL 1;
                mkOptionLegRequest "TSLA230616P00150000" SELL 1 ]
              ClassNone None 1 DAY false
              (APIError "40310000: account not eligible to trade uncovered option contracts"))
    as (order_data & _ & H).
  - reflexivity.
  - reflexivity.
  - repeat constructor; apply leg_of_valid; try lia; right; split; reflexivity.
  - intros _. split; [simpl; lia | reflexivity].
  - reflexivity.
  - rewrite H. reflexivity.
Defined.

(** ** The stock order builder, further *)

(** The price fields an order type uses. *)
Definition used_limit (type : OrderType) (limit_price : option float) : option float :=
  match type with
  | LIMIT | STOP_LIMIT => limit_price
  | _ => None
  end.

Definition used_stop (type : OrderType) (stop_price : option float) : option float :=
  match type with
  | STOP | STOP_LIMIT => stop_price
  | _ => None
  end.

Definition used_trail (type : OrderType) (trail : option float) : option float :=
  match type with
  | TRAILING_STOP => trail
  | _ => None
  end.

(** X10. The builder ignores the price fields the order type does not use:
    a MARKET order ignores all four, a LIMIT order everything but
    limit_price, a STOP order everything but stop_price, a STOP_LIMIT order
    the two trail fields, a TRAILING_STOP order limit_price and stop_price.
    Supplying them changes neither the request nor the message. *)
Theorem unused_price_fields_ignored :
  forall (now : Z) (symbol side : string) (quantity : float) (order_type : string)
         (time_in_force : time_in_force_arg) (type : OrderType)
         (limit_price stop_price trail_price trail_percent : option float)
         (extended_hours : bool) (client_order_id : option string),
    valid_order_type order_type type ->
    build_order_request now symbol side quantity order_type time_in_force
      limit_price stop_price trail_price trail_percent extended_hours
      client_order_id
    = build_order_request now symbol side quantity order_type time_in_force
        (used_limit type limit_price) (used_stop type stop_price)
        (used_trail type trail_price) (used_trail type trail_percent)
        extended_hours client_order_id.
Proof.
  intros now symbol side quantity order_type time_in_force type
    limit_price stop_price trail_price trail_percent extended_hours
    client_order_id Htype.
  unfold build_order_request. unfold valid_order_type in Htype.
  destruct (order_side_of side); [| reflexivity].
  destruct (tif_enum_of time_in_force); [| reflexivity].
  cbv zeta. rewrite Htype.
  destruct type, limit_price, stop_price, trail_price, trail_percent; reflexivity.
Qed.

Lemma unused_price_fields_ignored_witness :
  build_order_request 0 "AAPL" "buy" 1%float "market" (TifStr "day")
    (Some 10%float) (Some 9%float) None (Some 2%float) false None
  = build_order_request 0 "AAPL" "buy" 1%float "market" (TifStr "day")
      None None None None false None.
Proof.
  apply (unused_price_fields_ignored 0 "AAPL" "buy" 1%float "market" (TifStr "day")
           MARKET (Some 10%float) (Some 9%float) None (Some 2%float) false None).
  reflexivity.
Defined.

(** The price fields a request carries agree with the arguments. *)
Definition carries_prices (order_data : OrderRequest)
  (limit_price stop_price trail_price trail_percent : option float) : Prop :=
  match order_data with
  | MarketOrderRequest _ => True
  | LimitOrderRequest _ limit => limit_price = Some limit
  | StopOrderRequest _ stop => stop_price = Some stop
  | StopLimitOrderRequest _ stop limit =>
      stop_price = Some stop /\ limit_price = Some limit
  | TrailingStopOrderRequest _ price percent =>
      price = trail_price /\ percent = trail_percent
      /\ (trail_price <> None \/ trail_percent <> None)
  end.

(** The request class that goes with an order type. *)
Definition class_of_type (order_data : OrderRequest) : OrderType :=
  match order_data with
  | MarketOrderRequest _ => MARKET
  | LimitOrderRequest _ _ => LIMIT
  | StopOrderRequest _ _ => STOP
  | StopLimitOrderRequest _ _ _ => STOP_LIMIT
  | TrailingStopOrderRequest _ _ _ => TRAILING_STOP
  end.

(** X11. Every request the builder builds reflects the arguments: its side,
    time in force and type are the ones the strings name, its request class
    is the one of that type, it holds the symbol, the quantity and the
    extended-hours flag as given, the client order id as given when that is
    a non-empty string and ["order_"] followed by the time in seconds
    otherwise, no order class and no legs, and its price fields are the
    supplied ones. *)
Theorem built_request_reflects_arguments :
  forall (now : Z) (symbol side : string) (quantity : float) (order_type : string)
         (time_in_force : time_in_force_arg)
         (limit_price stop_price trail_price trail_percent : option float)
         (extended_hours : bool) (client_order_id : option string)
         (order_data : OrderRequest),
    build_order_request now symbol side quantity order_type time_in_force
      limit_price stop_price trail_price trail_percent extended_hours
      client_order_id = inl order_data ->
    exists order_side t,
      valid_side side order_side
      /\ valid_time_in_force time_in_force t
      /\ valid_order_type order_type (class_of_type order_data)
      /\ fields order_data
         = {| req_symbol := Some symbol;
              req_qty := Float quantity;
              req_side := Some order_side;
              req_type := class_of_type order_data;
              req_time_in_force := t;
              req_extended_hours := extended_hours;
              req_client_order_id :=
                match client_order_id with
                | Some (String c rest) => String c rest
                | _ => "order_" ++ PyStr.of_int now
                end;
              req_order_class := None;
              req_legs := None |}
      /\ carries_prices order_data limit_price stop_price trail_price trail_percent.
Proof.
  intros now symbol side quantity order_type time_in_force
    limit_price stop_price trail_price trail_percent extended_hours
    client_order_id order_data Hbuild.
  destruct (build_shape now symbol side quantity order_type time_in_force
              limit_price stop_price trail_price trail_percent extended_hours
              client_order_id)
    as [[message H] | (order_side & t & type & Hside & Htif & Htype)];
    [congruence |].
  rewrite (build_recognised now symbol quantity extended_hours client_order_id
             side order_type time_in_force order_side type t
             limit_price stop_price trail_price trail_percent Hside Htif Htype)
    in Hbuild.
  exists order_side, t. split; [exact Hside |]. split; [exact Htif |].
  unfold built, stock_fields, client_order_id_or_default in Hbuild.
  destruct type, limit_price, stop_price, trail_price, trail_percent;
    inversion Hbuild; subst order_data; cbn;
    (split; [exact Htype |]); (split; [reflexivity |]);
    repeat split; auto; (left + right); discriminate.
Qed.

Lemma built_request_reflects_arguments_witness :
  exists order_side t,
    valid_side "Sell" order_side /\ valid_time_in_force (TifStr "gtc") t.
Proof.
  destruct (built_request_reflects_arguments 0 "AAPL" "Sell" 1%float "limit"
              (TifStr "gtc") (Some 10%float) None None None false (Some "my-id")
              (LimitOrderRequest
                 (stock_fields 0 "AAPL" 1%float false (Some "my-id") SELL LIMIT GTC)
                 10%float) eq_refl)
    as (order_side & t & Hside & Htif & _).
  exists order_side, t. split; assumption.
Defined.

(** A TRAILING_STOP order with both trail fields: the constructor of the
    request raises. *)
Definition both_trail_fields (order_type : string)
  (trail_price trail_percent : option float) : Prop :=
  valid_order_type order_type TRAILING_STOP
  /\ trail_price <> None /\ trail_percent <> None.

Lemma build_refused_reason
  (now : Z) (symbol side : string) (quantity : float) (order_type : string)
  (time_in_force : time_in_force_arg)
  (limit_price stop_price trail_price trail_percent : option float)
  (extended_hours : bool) (client_order_id : option string) (message : string) :
  build_order_request now symbol side quantity order_type time_in_force
    limit_price stop_price trail_price trail_percent extended_hours
    client_order_id = inr message ->
  stock_check_fails side order_type time_in_force limit_price stop_price
    trail_price trail_percent
  \/ both_trail_fields order_type trail_price trail_percent.
Proof.
  intros Hbuild. unfold stock_check_fails, both_trail_fields.
  destruct (order_side_of side) as [order_side|] eqn:Hs.
  - destruct (tif_enum_of time_in_force) as [t | m] eqn:Ht.
    + destruct (order_type_of order_type) as [type|] eqn:Hty.
      * apply order_side_of_spec in Hs. apply tif_enum_of_spec in Ht.
        apply order_type_of_spec in Hty.
        rewrite (build_recognised now symbol quantity extended_hours
                   client_order_id side order_type time_in_force order_side type t
                   limit_price stop_price trail_price trail_percent Hs Ht Hty)
          in Hbuild.
        unfold built in Hbuild.
        destruct type, limit_price, stop_price, trail_price, trail_percent;
          try discriminate;
          solve [ left; auto 10
                | right; split; [exact Hty | split; discriminate] ].
      * left. right. right. left. intros type H.
        apply order_type_of_spec in H. congruence.
    + left. right. left. intros t H. apply tif_enum_of_spec in H. congruence.
  - left. left. intros order_side H. apply order_side_of_spec in H. congruence.
Qed.

Lemma build_both_trail_fields
  (now : Z) (symbol side : string) (quantity : float) (order_type : string)
  (time_in_force : time_in_force_arg)
  (limit_price stop_price trail_price trail_percent : option float)
  (extended_hours : bool) (client_order_id : option string) :
  both_trail_fields order_type trail_price trail_percent ->
  exists message,
    build_order_request now symbol side quantity order_type time_in_force
      limit_price stop_price trail_price trail_percent extended_hours
      client_order_id = inr message.
Proof.
  intros (Htype & Hprice & Hpercent).
  destruct (build_shape now symbol side quantity order_type time_in_force
              limit_price stop_price trail_price trail_percent extended_hours
              client_order_id)
    as [H | (order_side & t & type & Hside & Htif & Htype')]; [exact H |].
  rewrite (build_recognised now symbol quantity extended_hours client_order_id
             side order_type time_in_force order_side TRAILING_STOP t
             limit_price stop_price trail_price trail_percent Hside Htif Htype).
  unfold built. destruct trail_price, trail_percent; try congruence.
  eexists. reflexivity.
Qed.

(** X12. The stock tool hands no request to the trading client when a check
    fails, and none when a TRAILING_STOP order supplies both trail fields
    (the constructor of the request raises); in every other case it hands
    exactly one request to the client, the one the builder built. What the
    client answers does not change that. *)
Theorem stock_submission_condition :
  forall (trade_client : OrderRequest -> outcome Order) (now : Z)
         (symbol side : string) (quantity : float) (order_type : string)
         (time_in_force : time_in_force_arg)
         (limit_price stop_price trail_price trail_percent : option float)
         (extended_hours : bool) (client_order_id : option string),
    let submitted :=
      snd (run (place_stock_order trade_client now symbol side quantity order_type
                  time_in_force limit_price stop_price trail_price trail_percent
                  extended_hours client_order_id)) in
    let refused :=
      stock_check_fails side order_type time_in_force limit_price stop_price
        trail_price trail_percent
      \/ both_trail_fields order_type trail_price trail_percent in
    (refused -> submitted = [])
    /\ (~ refused ->
        exists order_data,
          build_order_request now symbol side quantity order_type time_in_force
            limit_price stop_price trail_price trail_percent extended_hours
            client_order_id = inl order_data
          /\ submitted = [order_data]).
Proof.
  intros trade_client now symbol side quantity order_type time_in_force
    limit_price stop_price trail_price trail_percent extended_hours
    client_order_id submitted refused.
  subst submitted refused. rewrite place_stock_order_run. split.
  - intros [Hfail | Hboth].
    + destruct (build_refuses now symbol side quantity order_type time_in_force
                  limit_price stop_price trail_price trail_percent extended_hours
                  client_order_id Hfail) as [message ->].
      reflexivity.
    + destruct (build_both_trail_fields now symbol side quantity order_type
                  time_in_force limit_price stop_price trail_price trail_percent
                  extended_hours client_order_id Hboth) as [message ->].
      reflexivity.
  - intros Hok.
    destruct (build_order_request now symbol side quantity order_type
                time_in_force limit_price stop_price trail_price trail_percent
                extended_hours client_order_id) as [order_data | message] eqn:Hb.
    + exists order_data. split; reflexivity.
    + exfalso. apply Hok. eapply build_refused_reason. exact Hb.
Qed.

Lemma stock_submission_condition_witness :
  snd (run (place_stock_order (fun _ => Raise (APIError "")) 0 "AAPL" "sideways"
              1%float "market" (TifStr "day") None None None None false None))
  = []
  /\ snd (run (place_stock_order (fun _ => Raise (APIError "")) 0 "AAPL" "sell"
                 1%float "trailing_stop" (TifStr "day") None None
                 (Some 2%float) (Some 1%float) false None))
     = [].
Proof.
  split.
  - apply (proj1 (stock_submission_condition (fun _ => Raise (APIError "")) 0 "AAPL"
                    "sideways" 1%float "market" (TifStr "day") None None None None
                    false None)).
    left. left. intros order_side [[H _] | [H _]]; discriminate H.
  - apply (proj1 (stock_submission_condition (fun _ => Raise (APIError "")) 0 "AAPL"
                    "sell" 1%float "trailing_stop" (TifStr "day") None None
                    (Some 2%float) (Some 1%float) false None)).
    right. split; [reflexivity |]. split; discriminate.
Defined.

(** ** Closing a position *)

(** The options of a closure as the brokerage library takes them. *)
Record ClosePositionRequest : Type := mkClosePositionRequest {
  close_qty : option string;
  close_percentage : option string
}.

(** The truth value of an optional string: a non-empty string. *)
Definition truthy (text : option string) : bool :=
  match text with
  | Some (String _ _) => true
  | _ => false
  end.

(** The f-string [close_position] returns once the position is closed. *)
Definition position_closed_message (symbol : string) (order : Order) : string :=
  join_lines
    [ "";
      "                Position Closed Successfully:";
      "                ----------------------------";
      "                Symbol: " ++ symbol;
      "                Order ID: " ++ ord_id order;
      "                Status: " ++ ord_status order;
      "                " ].

(** The explanation [close_position] returns when the closure would be of zero shares. *)
Definition zero_size_message : string :=
  join_lines
    [ "";
      "            Error: Invalid position closure request.";
      "";
      "            The requested percentage would result in less than 1 share.";
      "            Please either:";
      "            1. Use a higher percentage";
      "            2. Close the entire position (100%)";
      "            3. Specify an exact quantity using the qty parameter";
      "            " ].

(** The constructor of the options class of the brokerage library: its
    validator refuses options with neither value and options with both. *)
Definition ClosePositionRequest_init (qty percentage : option string)
  : outcome ClosePositionRequest :=
  match qty, percentage with
  | None, None =>
      Raise (ValidationError "qty or percentage must be given to the ClosePositionRequest, got None for both.")
  | Some _, Some _ =>
      Raise (ValidationError "Only one of qty or percentage must be given to the ClosePositionRequest, got both.")
  | _, _ => Return (mkClosePositionRequest qty percentage)
  end.

(** The two [except] clauses of [close_position]. *)
Definition close_position_except (e : exn) : string :=
  match e with
  | APIError error_message =>
      if PyStr.contains "42210000" error_message
         && PyStr.contains "would result in order size of zero" error_message
      then zero_size_message
      else "Error closing position: " ++ error_message
  | OtherError _ text => "Error closing position: " ++ text
  end.

Section ClosePosition.

(** [trade_client.close_position] *)
Variable close_position_client :
  string -> option ClosePositionRequest -> outcome Order.

(** The tool, with the calls made to the trading client. *)
Definition close_position (symbol : string) (qty percentage : option string)
  : outcome string * list (string * option ClosePositionRequest) :=
  match
    (if truthy qty || truthy percentage then
       request <- ClosePositionRequest_init qty percentage ;;
       Return (Some request)
     else Return None)
  with
  | Raise e => (Return (close_position_except e), [])
  | Return close_options =>
      (match close_position_client symbol close_options with
       | Return order => Return (position_closed_message symbol order)
       | Raise e => Return (close_position_except e)
       end,
       [(symbol, close_options)])
  end.

End ClosePosition.

(** The error is an API error whose text holds the zero-size code and
    phrase. *)
Definition zero_size_error (e : exn) : bool :=
  match e with
  | APIError text =>
      PyStr.contains "42210000" text
      && PyStr.contains "would result in order size of zero" text
  | OtherError _ _ => false
  end.

Lemma close_position_except_spec (e : exn) :
  (zero_size_error e = true -> close_position_except e = zero_size_message)
  /\ (zero_size_error e = false ->
      close_position_except e = "Error closing position: " ++ exn_str e)
  /\ (close_position_except e = zero_size_message <-> zero_size_error e = true).
Proof.
  assert (Hdiff : forall text, zero_size_message <> "Error closing position: " ++ text).
  { intros text H. vm_compute in H. discriminate H. }
  destruct e as [error_message | class error_text];
    cbn [close_position_except zero_size_error exn_str].
  - destruct (PyStr.contains "42210000" error_message
              && PyStr.contains "would result in order size of zero" error_message).
    + split; [reflexivity |]. split; [discriminate | tauto].
    + split; [discriminate |]. split; [reflexivity |].
      split; [intros Heq; symmetry in Heq; now apply Hdiff in Heq | discriminate].
  - split; [discriminate |]. split; [reflexivity |].
    split; [intros Heq; symmetry in Heq; now apply Hdiff in Heq | discriminate].
Qed.

(** The calls [close_position] makes: none when the constructor of the
    options raises, one otherwise. *)
Lemma close_position_calls
  (client : string -> option ClosePositionRequest -> outcome Order)
  (symbol : string) (qty percentage : option string) :
  (truthy qty = false /\ truthy percentage = false ->
   snd (close_position client symbol qty percentage) = [(symbol, None)])
  /\ (truthy qty || truthy percentage = true ->
      qty = None \/ percentage = None ->
      snd (close_position client symbol qty percentage)
      = [(symbol, Some (mkClosePositionRequest qty percentage))])
  /\ (truthy qty || truthy percentage = true ->
      qty <> None -> percentage <> None ->
      exists text,
        close_position client symbol qty percentage
        = (Return ("Error closing position: " ++ text), [])).
Proof.
  unfold close_position, ClosePositionRequest_init.
  destruct qty as [[|c q]|], percentage as [[|c' p]|]; cbn [truthy orb bind];
    (split; [intros [H1 H2]; try discriminate; reflexivity |]);
    (split; [intros H [H1 | H1]; try discriminate; reflexivity |]);
    intros H H1 H2; try discriminate; try congruence;
    eexists; reflexivity.
Qed.

(** X13. [close_position] calls the trading client at most once. When
    neither qty nor percentage is a non-empty string it calls it without
    options; when one of them is a non-empty string and the other is None
    it calls it with options that hold that value; when one is a non-empty
    string and the other is given as well, the constructor of the options
    raises, the client is not called and the tool returns
    [Error closing position: ] followed by the text of the error. The tool
    always returns a string. After a call the client answers, it returns
    the closure message; after a call in which the client raises, it
    returns the zero-size explanation exactly for an API error whose text
    holds 42210000 and the zero-size phrase, and [Error closing position: ]
    followed by the text of the error for every other error. *)
Theorem close_position_behaviour :
  forall (client : string -> option ClosePositionRequest -> outcome Order)
         (symbol : string) (qty percentage : option string),
    let result := close_position client symbol qty percentage in
    (truthy qty = false /\ truthy percentage = false ->
     snd result = [(symbol, None)])
    /\ (truthy qty || truthy percentage = true ->
        qty = None \/ percentage = None ->
        snd result = [(symbol, Some (mkClosePositionRequest qty percentage))])
    /\ (truthy qty || truthy percentage = true ->
        qty <> None -> percentage <> None ->
        exists text, result = (Return ("Error closing position: " ++ text), []))
    /\ (exists text, fst result = Return text)
    /\ (List.length (snd result) <= 1)%nat
    /\ (forall options order,
           snd result = [(symbol, options)] ->
           client symbol options = Return order ->
           fst result = Return (position_closed_message symbol order))
    /\ (forall options e,
           snd result = [(symbol, options)] ->
           client symbol options = Raise e ->
           (zero_size_error e = true -> fst result = Return zero_size_message)
           /\ (zero_size_error e = false ->
               fst result = Return ("Error closing position: " ++ exn_str e))
           /\ (fst result = Return zero_size_message <-> zero_size_error e = true)).
Proof.
  intros client symbol qty percentage result.
  destruct (close_position_calls client symbol qty percentage)
    as (Hnone & Hone & Hboth).
  split; [exact Hnone |]. split; [exact Hone |]. split; [exact Hboth |].
  subst result. unfold close_position.
  destruct (if truthy qty || truthy percentage
            then request <- ClosePositionRequest_init qty percentage ;;
                 Return (Some request)
            else Return None) as [close_options | e0].
  - cbn [fst snd].
    split; [destruct (client symbol close_options); eexists; reflexivity |].
    split; [simpl; lia |]. split.
    + intros options order Hcall Hanswer. inversion Hcall; subst options.
      now rewrite Hanswer.
    + intros options e Hcall Hraise. inversion Hcall; subst options.
      rewrite Hraise.
      destruct (close_position_except_spec e) as (Hzero & Hother & Hiff).
      split; [intros H; now rewrite (Hzero H) |].
      split; [intros H; now rewrite (Hother H) |].
      rewrite <- Hiff. split; [intros H; now inversion H | intros ->; reflexivity].
  - cbn [fst snd].
    split; [eexists; reflexivity |]. split; [simpl; lia |].
    split; intros options x Hcall; discriminate Hcall.
Qed.

Lemma close_position_behaviour_witness :
  fst (close_position
         (fun _ _ => Raise (APIError "42210000: qty would result in order size of zero"))
         "AAPL" None (Some "0.01"))
  = Return zero_size_message
  /\ snd (close_position
            (fun _ _ => Raise (APIError "42210000: qty would result in order size of zero"))
            "AAPL" (Some "3") (Some "50"))
     = [].
Proof.
  split.
  - destruct (close_position_behaviour
                (fun _ _ => Raise (APIError "42210000: qty would result in order size of zero"))
                "AAPL" None (Some "0.01"))
      as (_ & _ & _ & _ & _ & _ & Herr).
    destruct (Herr (Some (mkClosePositionRequest None (Some "0.01")))
                (APIError "42210000: qty would result in order size of zero")
                eq_refl eq_refl)
      as [Hzero _].
    apply Hzero. reflexivity.
  - destruct (close_position_behaviour
                (fun _ _ => Raise (APIError "42210000: qty would result in order size of zero"))
                "AAPL" (Some "3") (Some "50"))
      as (_ & _ & Hboth & _).
    destruct Hboth as [text Hrun]; [reflexivity | discriminate | discriminate |].
    rewrite Hrun. reflexivity.
Defined.

(** ** Historical bars *)

(** [s.replace(old, new)] for a one-character [old]. *)
Fixpoint replace_char (old : ascii) (new : string) (s : string) : string :=
  match s with
  | EmptyString => EmptyString
  | String c s' =>
      if Ascii.eqb c old then new ++ replace_char old new s'
      else String c (replace_char old new s')
  end.

(** [timedelta(minutes=n)], [timedelta(hours=n)], [timedelta(days=n)] *)
Inductive timedelta : Type :=
| Minutes (n : Z)
| Hours (n : Z)
| Days (n : Z).

(** A bar as the report prints it: the timestamp with seconds, its date,
    the four prices with two decimals and the volume, each by its text. *)
Record Bar : Type := mkBar {
  bar_timestamp : string;
  bar_date : string;
  bar_open : string;
  bar_high : string;
  bar_low : string;
  bar_close : string;
  bar_volume : string
}.

Section StockBars.

(** The [datetime] values and the operations of the standard library the
    tool uses on them. *)
Variable datetime : Type.

(** [datetime.fromisoformat] *)
Variable fromisoformat : string -> outcome datetime.

(** [datetime.now()] where the start and where the end of the range is
    computed. *)
Variable now_at_start : datetime.
Variable now_at_end : datetime.

(** [t - delta] *)
Variable minus : datetime -> timedelta -> outcome datetime.

(** [t.strftime('%Y-%m-%d %H:%M')] *)
Variable strftime_minute : datetime -> string.

(** The request of the data library. *)
Record StockBarsRequest : Type := mkStockBarsRequest {
  bars_symbol : string;
  bars_timeframe : TimeFrame;
  bars_start : option datetime;
  bars_end : option datetime;
  bars_limit : option Z
}.

(** [stock_historical_data_client.get_stock_bars]: the bars of each symbol. *)
Variable get_stock_bars_client :
  StockBarsRequest -> outcome (list (string * list Bar)).

(** The parsing of [start]: the time (or [None] when [start] is absent or
    empty), or the message the tool returns. *)
Definition parse_start (start : option string) : outcome (option datetime + string) :=
  match start with
  | Some (String c rest) =>
      match fromisoformat (replace_char "Z" "+00:00" (String c rest)) with
      | Return t => Return (inl (Some t))
      | Raise (OtherError "ValueError" _) =>
          Return (inr ("Error: Invalid start time format '" ++ String c rest ++
                       "'. Use ISO format like '2023-01-01T09:30:00' or '2023-01-01'"))
      | Raise e => Raise e
      end
  | _ => Return (inl None)
  end.

(** The parsing of [end]. *)
Definition parse_end (end_ : option string) : outcome (option datetime + string) :=
  match end_ with
  | Some (String c rest) =>
      match fromisoformat (replace_char "Z" "+00:00" (String c rest)) with
      | Return t => Return (inl (Some t))
      | Raise (OtherError "ValueError" _) =>
          Return (inr ("Error: Invalid end time format '" ++ String c rest ++
                       "'. Use ISO format like '2023-01-01T16:00:00' or '2023-01-01'"))
      | Raise e => Raise e
      end
  | _ => Return (inl None)
  end.

(** The start of the range when [start] gives none. When the limit is set
    and the bars are minute or hour bars, the range goes back [limit] bars;
    otherwise it goes back [days] days. *)
Definition default_start (timeframe_obj : TimeFrame) (limit : option Z) (days : Z)
  : outcome (option datetime) :=
  let intraday := match unit timeframe_obj with Minute | Hour => true | _ => false end in
  match limit with
  | Some n =>
      if negb (n =? 0) && intraday then
        match unit timeframe_obj with
        | Minute =>
            let minutes_back := n * amount timeframe_obj in
            t <- minus now_at_start (Minutes minutes_back) ;; Return (Some t)
        | Hour =>
            let hours_back := n * amount timeframe_obj in
            t <- minus now_at_start (Hours hours_back) ;; Return (Some t)
        | _ => Return None
        end
      else t <- minus now_at_start (Days days) ;; Return (Some t)
  | None => t <- minus now_at_start (Days days) ;; Return (Some t)
  end.

Definition bar_line (timeframe_obj : TimeFrame) (bar : Bar) : string :=
  let time_str :=
    match unit timeframe_obj with
    | Minute | Hour => bar_timestamp bar
    | _ => bar_date bar
    end in
  "Time: " ++ time_str ++ ", Open: $" ++ bar_open bar ++
  ", High: $" ++ bar_high bar ++ ", Low: $" ++ bar_low bar ++
  ", Close: $" ++ bar_close bar ++ ", Volume: " ++ bar_volume bar ++ newline.

(** The body of the [try] block, with the requests made to the data
    client. *)
Definition get_stock_bars_body
  (symbol : string) (days : Z) (timeframe : string) (limit : option Z)
  (start end_ : option string) : outcome string * list StockBarsRequest :=
  match parse_timeframe_with_enums timeframe with
  | Raise e => (Raise e, [])
  | Return None =>
      (Return ("Error: Invalid timeframe '" ++ timeframe ++
               "'. Supported formats: " ++
               "1Min, 2Min, 4Min, 5Min, 15Min, 30Min, 1Hour, 2Hour, 4Hour, " ++
               "1Day, 1Week, 1Month, etc."), [])
  | Return (Some timeframe_obj) =>
      match parse_start start with
      | Raise e => (Raise e, [])
      | Return (inr message) => (Return message, [])
      | Return (inl start_given) =>
          match parse_end end_ with
          | Raise e => (Raise e, [])
          | Return (inr message) => (Return message, [])
          | Return (inl end_given) =>
              match
                match start_given with
                | Some t => Return (Some t)
                | None => default_start timeframe_obj limit days
                end
              with
              | Raise e => (Raise e, [])
              | Return start_time =>
                  let end_time :=
                    match end_given with
                    | Some t => t
                    | None => now_at_end
                    end in
                  let request_params :=
                    mkStockBarsRequest symbol timeframe_obj start_time
                      (Some end_time) limit in
                  (match get_stock_bars_client request_params with
                   | Raise e => Raise e
                   | Return bars =>
                       match dict_get bars symbol with
                       | None => Raise (OtherError "KeyError" ("'" ++ symbol ++ "'"))
                       | Some [] =>
                           Return ("No historical data found for " ++ symbol ++
                                   " with " ++ timeframe ++
                                   " timeframe in the specified time range.")
                       | Some symbol_bars =>
                           match start_time with
                           | None => Raise (OtherError "AssertionError" "")
                           | Some start_time =>
                               let time_range :=
                                 strftime_minute start_time ++ " to " ++
                                 strftime_minute end_time in
                               let result :=
                                 "Historical Data for " ++ symbol ++ " (" ++
                                 timeframe ++ " bars, " ++ time_range ++ "):" ++
                                 newline in
                               let result :=
                                 result ++
                                 "---------------------------------------------------" ++
                                 newline in
                               Return (fold_left
                                         (fun result bar =>
                                            result ++ bar_line timeframe_obj bar)
                                         symbol_bars result)
                           end
                       end
                   end,
                   [request_params])
              end
          end
      end
  end.

(** [except Exception as e: return f"Error fetching historical data ..."] *)
Definition get_stock_bars
  (symbol : string) (days : Z) (timeframe : string) (limit : option Z)
  (start end_ : option string) : string * list StockBarsRequest :=
  match get_stock_bars_body symbol days timeframe limit start end_ with
  | (Return text, requests) => (text, requests)
  | (Raise e, requests) =>
      ("Error fetching historical data for " ++ symbol ++ ": " ++ exn_str e,
       requests)
  end.

End StockBars.

(** X14. When the parser refuses the timeframe (its trimmed text is not a
    positive number followed by a unit word, or the number is above the
    ceiling of the unit, or the number is one the [TimeFrame] constructor
    does not accept for the unit, such as 2 for days), [get_stock_bars]
    returns the invalid-timeframe message with the timeframe as it was
    given, and asks the data client for nothing. *)
Theorem get_stock_bars_invalid_timeframe :
  forall (datetime : Type) (fromisoformat : string -> outcome datetime)
         (now_at_start now_at_end : datetime)
         (minus : datetime -> timedelta -> outcome datetime)
         (strftime_minute : datetime -> string)
         (client : StockBarsRequest datetime -> outcome (list (string * list Bar)))
         (symbol : string) (days : Z) (timeframe : string) (limit : option Z)
         (start end_ : option string),
    (~ TimeframeSpec.timeframe_form (PyStr.strip timeframe)
     \/ exists digits word u,
          PyStr.strip timeframe = digits ++ word
          /\ TimeframeSpec.is_number digits
          /\ TimeframeSpec.is_unit_word word u
          /\ (TimeframeSpec.ceiling u < PyStr.int digits
              \/ ~ accepted_amount u (PyStr.int digits))) ->
    get_stock_bars datetime fromisoformat now_at_start now_at_end minus
      strftime_minute client symbol days timeframe limit start end_
    = ("Error: Invalid timeframe '" ++ timeframe ++
       "'. Supported formats: 1Min, 2Min, 4Min, 5Min, 15Min, 30Min, 1Hour, 2Hour, 4Hour, 1Day, 1Week, 1Month, etc.",
       []).
Proof.
  intros datetime fromisoformat now_at_start now_at_end minus strftime_minute
    client symbol days timeframe limit start end_ Hbad.
  assert (Hparse : parse_timeframe_with_enums timeframe = Return None).
  { destruct Hbad as [Hnot | (digits & word & u & Hs & Hd & Hw & Habove)].
    - now apply parse_no_form.
    - destruct Habove as [Habove | Hno].
      + apply (parse_above_ceiling timeframe digits word u Hs Hd Hw Habove).
      + apply (parse_form timeframe digits word u Hs Hd Hw). exact Hno. }
  unfold get_stock_bars, get_stock_bars_body. rewrite Hparse. reflexivity.
Qed.

Lemma get_stock_bars_invalid_timeframe_witness :
  get_stock_bars Z (fun _ => Return 0) 0 0 (fun t _ => Return t) (fun _ => "")
    (fun _ => Return []) "AAPL" 5 "90Min" None None None
  = ("Error: Invalid timeframe '90Min'. Supported formats: 1Min, 2Min, 4Min, 5Min, 15Min, 30Min, 1Hour, 2Hour, 4Hour, 1Day, 1Week, 1Month, etc.",
     [])
  /\ get_stock_bars Z (fun _ => Return 0) 0 0 (fun t _ => Return t) (fun _ => "")
       (fun _ => Return []) "AAPL" 5 "2Day" None None None
     = ("Error: Invalid timeframe '2Day'. Supported formats: 1Min, 2Min, 4Min, 5Min, 15Min, 30Min, 1Hour, 2Hour, 4Hour, 1Day, 1Week, 1Month, etc.",
        []).
Proof.
  split.
  - apply (get_stock_bars_invalid_timeframe Z (fun _ => Return 0) 0 0
             (fun t _ => Return t) (fun _ => "") (fun _ => Return [])
             "AAPL" 5 "90Min" None None None).
    right. exists "90", "Min", Minute. split; [reflexivity |].
    split; [split; [discriminate | reflexivity] |].
    split; [exists "Min"; split; [simpl; tauto | reflexivity] | left; reflexivity].
  - apply (get_stock_bars_invalid_timeframe Z (fun _ => Return 0) 0 0
             (fun t _ => Return t) (fun _ => "") (fun _ => Return [])
             "AAPL" 5 "2Day" None None None).
    right. exists "2", "Day", Day. split; [reflexivity |].
    split; [split; [discriminate | reflexivity] |].
    split; [exists "Day"; split; [simpl; tauto | reflexivity] |].
    right. cbn. discriminate.
Defined.




(** X16. For a timeframe the parser accepts, a start (or, with no start, an
    end) that [fromisoformat] refuses with ValueError makes the tool return
    the message that repeats the text, and the data client is asked for
    nothing. The tool never asks the data client more than once. *)
Theorem get_stock_bars_invalid_time :
  forall (datetime : Type) (fromisoformat : string -> outcome datetime)
         (now_at_start now_at_end : datetime)
         (minus : datetime -> timedelta -> outcome datetime)
         (strftime_minute : datetime -> string)
         (client : StockBarsRequest datetime -> outcome (list (string * list Bar)))
         (symbol : string) (days : Z) (timeframe : string) (limit : option Z)
         (start end_ : option string),
    let tool :=
      get_stock_bars datetime fromisoformat now_at_start now_at_end minus
        strftime_minute client symbol days timeframe limit start end_ in
    (List.length (snd tool) <= 1)%nat
    /\ (forall tf text reason,
           parse_timeframe_with_enums timeframe = Return (Some tf) ->
           start = Some text -> text <> EmptyString ->
           fromisoformat (replace_char "Z" "+00:00" text)
           = Raise (OtherError "ValueError" reason) ->
           tool = ("Error: Invalid start time format '" ++ text ++
                   "'. Use ISO format like '2023-01-01T09:30:00' or '2023-01-01'",
                   []))
    /\ (forall tf text reason,
           parse_timeframe_with_enums timeframe = Return (Some tf) ->
           truthy start = false ->
           end_ = Some text -> text <> EmptyString ->
           fromisoformat (replace_char "Z" "+00:00" text)
           = Raise (OtherError "ValueError" reason) ->
           tool = ("Error: Invalid end time format '" ++ text ++
                   "'. Use ISO format like '2023-01-01T16:00:00' or '2023-01-01'",
                   [])).
Proof.
  intros datetime fromisoformat now_at_start now_at_end minus strftime_minute
    client symbol days timeframe limit start end_ tool.
  split; [| split].
  - subst tool. unfold get_stock_bars, get_stock_bars_body.
    destruct (parse_timeframe_with_enums timeframe) as [[tf|]|e]; try (simpl; lia).
    destruct (parse_start _ _ start) as [[start_given|message]|e]; try (simpl; lia).
    destruct (parse_end _ _ end_) as [[end_given|message]|e]; try (simpl; lia).
    destruct (match start_given with
              | Some t => Return (Some t)
              | None => default_start datetime now_at_start minus tf limit days
              end) as [start_time|e]; try (simpl; lia).
    destruct (client _) as [bars|e]; [| simpl; lia].
    destruct (dict_get bars symbol) as [[|bar symbol_bars]|]; try (simpl; lia).
    destruct start_time; simpl; lia.
  - intros tf text reason Hparse -> Hne Hiso. subst tool.
    unfold get_stock_bars, get_stock_bars_body. rewrite Hparse.
    destruct text as [|c rest]; [congruence |].
    unfold parse_start. rewrite Hiso. reflexivity.
  - intros tf text reason Hparse Hstart -> Hne Hiso. subst tool.
    unfold get_stock_bars, get_stock_bars_body. rewrite Hparse.
    assert (Hps : parse_start datetime fromisoformat start = Return (inl None)).
    { destruct start as [[|c rest]|]; try discriminate; reflexivity. }
    rewrite Hps. destruct text as [|c rest]; [congruence |].
    unfold parse_end. rewrite Hiso. reflexivity.
Qed.

Lemma get_stock_bars_invalid_time_witness :
  get_stock_bars Z (fun _ => Raise (OtherError "ValueError" "Invalid isoformat string"))
    0 0 (fun t _ => Return t) (fun _ => "") (fun _ => Return [])
    "AAPL" 5 "1Day" None (Some "yesterday") None
  = ("Error: Invalid start time format 'yesterday'. Use ISO format like '2023-01-01T09:30:00' or '2023-01-01'",
     []).
Proof.
  destruct (get_stock_bars_invalid_time Z
              (fun _ => Raise (OtherError "ValueError" "Invalid isoformat string"))
              0 0 (fun t _ => Return t) (fun _ => "") (fun _ => Return [])
              "AAPL" 5 "1Day" None (Some "yesterday") None)
    as (_ & Hstart & _).
  apply (Hstart (mkTimeFrame 1 Day) "yesterday" "Invalid isoformat string").
  - reflexivity.
  - reflexivity.
  - discriminate.
  - reflexivity.
Defined.

(** ** The leg processor, further *)

(** X17. The leg processor accepts a leg list exactly when every leg holds a
    string symbol, a side name and a positive integer ratio, and it then
    returns one leg request per leg, in the order of the legs, with that
    symbol, side and ratio. *)
Theorem process_option_legs_accepts_valid_legs :
  forall (legs : list dict) (requests : list OptionLegRequest),
    _process_option_legs legs = Return (inl requests)
    <-> Forall2 valid_leg legs requests.
Proof.
  intros legs requests. unfold _process_option_legs. split.
  - intros H. apply process_legs_accepts in H as (result & -> & Hall). exact Hall.
  - intros H. now rewrite (process_legs_valid _ _ H).
Qed.

Lemma process_option_legs_accepts_valid_legs_witness :
  Forall2 valid_leg
    [ leg_of "TSLA230616C00150000" "Buy" (PyInt 2) ]
    [ mkOptionLegRequest "TSLA230616C00150000" BUY 2 ].
Proof.
  apply (proj1 (process_option_legs_accepts_valid_legs
                  [ leg_of "TSLA230616C00150000" "Buy" (PyInt 2) ]
                  [ mkOptionLegRequest "TSLA230616C00150000" BUY 2 ])).
  reflexivity.
Defined.

(** X18. The leg processor stops at the first leg it refuses: after legs
    that are valid, a leg whose ratio is not a positive integer gives the
    ratio message with the symbol of that leg, and a leg with a valid ratio
    whose side names neither side gives the side message with that side;
    the legs after it are not looked at. *)
Theorem first_invalid_leg_reported :
  forall (before : list dict) (requests : list OptionLegRequest)
         (leg : dict) (rest : list dict),
    Forall2 valid_leg before requests ->
    (forall symbol,
        invalid_ratio_qty leg ->
        dict_get leg "symbol" = Some symbol ->
        _process_option_legs (before ++ leg :: rest)%list
        = Return (inr ("Error: Invalid ratio_qty for leg " ++ py_str symbol ++
                       ". Must be positive integer.")))
    /\ (forall v n side,
           dict_get leg "ratio_qty" = Some v -> as_int v = Some n -> 0 < n ->
           dict_get leg "side" = Some (PyStr side) ->
           PyStr.lower side <> "buy" -> PyStr.lower side <> "sell" ->
           _process_option_legs (before ++ leg :: rest)%list
           = Return (inr ("Invalid order side: " ++ side ++
                          ". Must be 'buy' or 'sell'."))).
Proof.
  intros before requests leg rest Hbefore. split.
  - intros symbol Hbad Hsym. now apply (bad_ratio_refused before requests).
  - intros v n side Hv Hint Hn Hside Hb Hs. unfold _process_option_legs.
    generalize (@nil OptionLegRequest).
    induction Hbefore as [|l r ls rs Hl _ IH]; intros order_legs;
      cbn [app process_legs_from].
    + unfold process_leg, getitem. rewrite Hv. cbn [bind]. rewrite Hint.
      replace (n <=? 0) with false by (symmetry; apply Z.leb_gt; lia).
      rewrite Hside. cbn [bind py_lower].
      apply String.eqb_neq in Hb. apply String.eqb_neq in Hs.
      rewrite Hb, Hs. reflexivity.
    + rewrite (process_leg_valid _ _ Hl). cbn [bind]. apply IH.
Qed.

Lemma first_invalid_leg_reported_witness :
  _process_option_legs
    [ leg_of "TSLA230616C00150000" "buy" (PyInt 1);
      leg_of "TSLA230616C00160000" "sell" (PyInt 0);
      leg_of "TSLA230616C00170000" "hold" (PyStr "x") ]
  = Return (inr "Error: Invalid ratio_qty for leg TSLA230616C00160000. Must be positive integer.").
Proof.
  destruct (first_invalid_leg_reported
              [ leg_of "TSLA230616C00150000" "buy" (PyInt 1) ]
              [ mkOptionLegRequest "TSLA230616C00150000" BUY 1 ]
              (leg_of "TSLA230616C00160000" "sell" (PyInt 0))
              [ leg_of "TSLA230616C00170000" "hold" (PyStr "x") ]) as [Hratio _].
  - repeat constructor; apply leg_of_valid; try lia; left; split; reflexivity.
  - apply (Hratio (PyStr "TSLA230616C00160000")).
    + exists (PyInt 0). split; [reflexivity |]. right. exists 0.
      split; [reflexivity | lia].
    + reflexivity.
Defined.

